(** * bio-mcp-fastqc: a shallow embedding of the three MCP servers

    The development follows the layout of the repository:
    - [Py]: the fragment of the Python string and value vocabulary the
      servers rely on (code-point strings, [startswith], [split],
      [readlines], [str()] of JSON scalars, truthiness);
    - [Sys]: the operating system and the libraries the servers call
      (pathlib, tempfile, asyncio subprocesses, the logger), as an
      environment record consulted along a trace of side effects, and the
      state-and-exception monad the handlers are written in;
    - [Server]: src/server.py (the basic server);
    - [Enhanced]: src/server_enhanced.py;
    - [Queue]: src/server_with_queue.py.
    Theorems about the handlers come after the definitions. *)

From Stdlib Require Import ZArith List Ascii String DecimalString Lia.
From stdpp Require Import gmap list.

(* ===================================================================== *)
(** * Python strings and values                                           *)
(* ===================================================================== *)

Module Py.

(** A Python [str] is a sequence of Unicode code points. *)
Definition pystr := list N.

(** ASCII literals of the source. *)
Definition lit (s : string) : pystr := map N_of_ascii (list_ascii_of_string s).
Arguments lit s%_string : simpl never.

(** [str(n)] for an [int]. *)
Definition str_int (z : Z) : pystr := lit (NilZero.string_of_int (Z.to_int z)).
Arguments str_int z : simpl never.

(** [s.startswith(prefix)] *)
Fixpoint startswith (s prefix : pystr) {struct prefix} : bool :=
  match prefix, s with
  | [], _ => true
  | p :: ps, c :: cs => if N.eqb p c then startswith cs ps else false
  | _ :: _, [] => false
  end.

(** [s.endswith(suffix)] *)
Definition endswith (s suffix : pystr) : bool :=
  startswith (rev s) (rev suffix).

(** [needle in hay] on strings: substring test. *)
Fixpoint contains (hay needle : pystr) : bool :=
  startswith hay needle ||
  match hay with
  | [] => false
  | _ :: t => contains t needle
  end.

(** [s == t] on strings. *)
Definition str_eqb (s t : pystr) : bool := bool_decide (s = t).

(** [s[:n]] for [n >= 0] and [s[:-n]] *)
Definition slice_to (n : nat) (s : pystr) : pystr := take n s.
Definition slice_to_neg (n : nat) (s : pystr) : pystr := take (length s - n) s.

(** [f.readlines()]: the lines of a text, each keeping its newline. *)
Fixpoint readlines (s : pystr) : list pystr :=
  match s with
  | [] => []
  | c :: t =>
      if N.eqb c 10 then [c] :: readlines t
      else match readlines t with
           | [] => [[c]]
           | l :: ls => (c :: l) :: ls
           end
  end.

(** [s.split(sep)] for a one-character separator. *)
Fixpoint split (sep : N) (s : pystr) : list pystr :=
  match s with
  | [] => [[]]
  | c :: t =>
      if N.eqb c sep then [] :: split sep t
      else match split sep t with
           | [] => [[c]]
           | l :: ls => (c :: l) :: ls
           end
  end.

(** [c.isspace()]: the code points Python treats as whitespace. *)
Definition isspace (c : N) : bool :=
  ((9 <=? c) && (c <=? 13) || (28 <=? c) && (c <=? 32)
   || (c =? 133) || (c =? 160) || (c =? 5760)
   || (8192 <=? c) && (c <=? 8202)
   || (c =? 8232) || (c =? 8233) || (c =? 8239) || (c =? 8287)
   || (c =? 12288))%N.

Fixpoint lstrip (s : pystr) : pystr :=
  match s with
  | c :: t => if isspace c then lstrip t else s
  | [] => []
  end.

(** [s.strip()] *)
Definition strip (s : pystr) : pystr := rev (lstrip (rev (lstrip s))).

(** [s.replace(old, '')] for a non-empty [old]: every non-overlapping
    occurrence, scanning from the left, is dropped.  [skip] counts the
    characters of the current occurrence still to be dropped. *)
Fixpoint remove_all_from (old s : pystr) (skip : nat) : pystr :=
  match s with
  | [] => []
  | c :: t =>
      match skip with
      | S k => remove_all_from old t k
      | O => if startswith s old then remove_all_from old t (length old - 1)
             else c :: remove_all_from old t 0
      end
  end.
Definition remove_all (old s : pystr) : pystr := remove_all_from old s 0.

(** [ch * n] *)
Definition times (c : N) (n : nat) : pystr := repeat c n.

(** [sep.join(l)] on strings. *)
Fixpoint join (sep : pystr) (l : list pystr) : pystr :=
  match l with
  | [] => []
  | [x] => x
  | x :: rest => x ++ sep ++ join sep rest
  end.

(** [format(n, ',')] for [n >= 0]: decimal digits in groups of three. *)
Fixpoint group3 (rdigits : pystr) (k : nat) : pystr :=
  match rdigits with
  | [] => []
  | d :: t =>
      match k, t with
      | 2, _ :: _ => d :: 44%N :: group3 t 0
      | _, _ => d :: group3 t (S k)
      end
  end.
Definition format_comma (z : Z) : pystr := rev (group3 (rev (str_int z)) 0).

(** The values a tool call can carry (JSON, less floating point). *)
#[warnings="-register-all"]
Inductive value :=
| VNone
| VBool (b : bool)
| VInt (z : Z)
| VStr (s : pystr)
| VList (l : list value)
| VDict (d : list (pystr * value)).

(** Truthiness, as tested by [if v:]. *)
Definition truthy (v : value) : bool :=
  match v with
  | VNone => false
  | VBool b => b
  | VInt z => negb (Z.eqb z 0)
  | VStr s => negb (bool_decide (s = []))
  | VList l => match l with [] => false | _ => true end
  | VDict d => match d with [] => false | _ => true end
  end.

(** [v == "literal"] *)
Definition eq_str (v : value) (s : pystr) : bool :=
  match v with
  | VStr t => str_eqb t s
  | _ => false
  end.

(** The glyphs of the reports. *)
Definition glyph_pass : pystr := [9989%N].               (* U+2705 *)
Definition glyph_warn : pystr := [9888%N; 65039%N].      (* U+26A0 U+FE0F *)
Definition glyph_fail : pystr := [10060%N].              (* U+274C *)
Definition glyph_unknown : pystr := [10067%N].           (* U+2753 *)
Definition bullet : pystr := [8226%N].                   (* U+2022 *)

End Py.
Export Py.

(* ===================================================================== *)
(** * Tool detection (interface)                                          *)
(* ===================================================================== *)

Module ToolDetection.

(** Modelled from the spec: the [ExecutionMode] enumeration of the absent
    tool_detection module, "an enumerated tag: native, module, lmod,
    singularity, docker, unavailable". *)
Inductive ExecutionMode :=
| NATIVE | MODULE | LMOD | SINGULARITY | DOCKER | UNAVAILABLE.

(** [mode.value] *)
Definition mode_value (m : ExecutionMode) : pystr :=
  match m with
  | NATIVE => lit "native"
  | MODULE => lit "module"
  | LMOD => lit "lmod"
  | SINGULARITY => lit "singularity"
  | DOCKER => lit "docker"
  | UNAVAILABLE => lit "unavailable"
  end.

Definition all_modes : list ExecutionMode :=
  [NATIVE; MODULE; LMOD; SINGULARITY; DOCKER; UNAVAILABLE].

(** [ExecutionMode(s)]: lookup by value; [None] stands for [ValueError]. *)
Definition mode_of_value (s : pystr) : option ExecutionMode :=
  find (fun m => str_eqb (mode_value m) s) all_modes.

#[global] Instance ExecutionMode_eq_dec : EqDecision ExecutionMode.
Proof. solve_decision. Defined.

(** [a == b] on modes. *)
Definition mode_eqb (a b : ExecutionMode) : bool := bool_decide (a = b).

(** Modelled from the spec: [ToolInfo], the "resolution result for one
    logical tool" of the absent tool_detection module. *)
Record ToolInfo := {
  mode : ExecutionMode;
  path : option pystr;
  version : option pystr;
  module_name : option pystr;
  container_image : option pystr
}.

End ToolDetection.
Export ToolDetection.

(* ===================================================================== *)
(** * The system the servers run on                                       *)
(* ===================================================================== *)

Module Sys.

(** A [pathlib.Path], identified with its [str()]. *)
Definition Path := pystr.
Definition bytes := list N.

(** Exceptions.  A handler of the servers only ever looks at [str(e)] and,
    in one place, at whether [e] is [asyncio.TimeoutError]. *)
Inductive exn :=
| KeyError (key : pystr)
| TimeoutError
| Error (msg : pystr).

(** [str(e)].  [str(KeyError(k))] is [repr(k)], which for the identifier
    keys of the servers is [k] between single quotes; the
    [asyncio.TimeoutError] raised by [wait_for] carries no message. *)
Definition str_exn (e : exn) : pystr :=
  match e with
  | KeyError k => lit "'" ++ k ++ lit "'"
  | TimeoutError => []
  | Error msg => msg
  end.

Inductive res (A : Type) :=
| Ok (a : A)
| Raise (e : exn).
Arguments Ok {A} a.
Arguments Raise {A} e.

Inductive log_level := INFO | WARNING | ERROR.

(** What a handler does to the world, in the order it does it. *)
Inductive event :=
| EvMkdtemp (p : Path)                       (* TemporaryDirectory() entered *)
| EvCleanup (p : Path)                       (* TemporaryDirectory() left *)
| EvMkdir (p : Path)
| EvWriteBytes (p : Path) (data : bytes)
| EvSpawnExec (cmd : list value) (cwd : option Path)
| EvSpawnShell (cmd : pystr) (cwd : option Path)
| EvCommunicate (timeout : Z) (outcome : res (bytes * bytes * Z))
| EvKill
| EvLog (level : log_level) (msg : pystr)
| EvSubmitJob (job_type : pystr) (parameters : gmap pystr value)
              (priority tags : value)
| EvCancelJob (job_id : value)
| EvDelegate (name : pystr) (arguments : gmap pystr value).

Definition trace := list event.

(** The operating system, pathlib and the interpreter, as the servers see
    them.  What is read may depend on everything done so far, hence the
    [trace] argument. *)
Record Env := {
  (* pathlib *)
  mkPath : value -> res Path;               (* Path(x) *)
  pjoin : Path -> pystr -> Path;            (* p / name *)
  pname : Path -> pystr;                    (* p.name *)
  pstem : Path -> pystr;                    (* p.stem *)
  (* reading the file system *)
  exists_ : trace -> Path -> bool;          (* p.exists() *)
  is_dir : trace -> Path -> bool;
  is_file : trace -> Path -> bool;
  st_size : trace -> Path -> res Z;         (* p.stat().st_size *)
  iterdir : trace -> Path -> res (list Path);
  glob : trace -> Path -> value -> res (list Path);
  read_text : trace -> Path -> res pystr;   (* open(p).read() *)
  read_bytes : trace -> Path -> res bytes;
  (* changing it *)
  mkdtemp : trace -> option pystr -> res Path;
  mkdir : trace -> Path -> res unit;
  write_bytes : trace -> Path -> bytes -> res unit;
  (* asyncio subprocesses *)
  create_subprocess_exec : trace -> list value -> option Path -> res unit;
  create_subprocess_shell : trace -> pystr -> option Path -> res unit;
  wait_for_communicate : trace -> Z -> res (bytes * bytes * Z);
  (* the interpreter *)
  decode : bytes -> res pystr;              (* b.decode() *)
  repr : value -> pystr;                    (* str() of a container *)
  lower : pystr -> pystr;                   (* s.lower() *)
  json_dumps : value -> pystr               (* json.dumps(v, indent=2) *)
}.

(** The state a handler runs in: the effects so far and the two cached
    attributes of the enhanced server. *)
Record state := {
  events : trace;
  self_fastqc_info : option ToolInfo;
  self_multiqc_info : option ToolInfo
}.

Definition add_event (st : state) (ev : event) : state :=
  {| events := events st ++ [ev];
     self_fastqc_info := self_fastqc_info st;
     self_multiqc_info := self_multiqc_info st |}.

(** Computations that read the world and may raise. *)
Definition bind_res {A B} (m : res A) (k : A -> res B) : res B :=
  match m with
  | Ok a => k a
  | Raise e => Raise e
  end.

Definition catch_res {A} (m : res A) (h : exn -> res A) : res A :=
  match m with
  | Ok a => Ok a
  | Raise e => h e
  end.

(** Computations that also change it. *)
Definition M (A : Type) := state -> res A * state.

Definition ret {A} (a : A) : M A := fun st => (Ok a, st).

Definition raise {A} (e : exn) : M A := fun st => (Raise e, st).

Definition bind {A B} (m : M A) (k : A -> M B) : M B :=
  fun st =>
    match m st with
    | (Ok a, st') => k a st'
    | (Raise e, st') => (Raise e, st')
    end.

(** [try: m  except Exception as e: h e] *)
Definition try_except {A} (m : M A) (h : exn -> M A) : M A :=
  fun st =>
    match m st with
    | (Ok a, st') => (Ok a, st')
    | (Raise e, st') => h e st'
    end.

(** [try: m  except asyncio.TimeoutError: h] *)
Definition try_except_timeout {A} (m : M A) (h : M A) : M A :=
  fun st =>
    match m st with
    | (Raise TimeoutError, st') => h st'
    | other => other
    end.

(** Reading: the answer of the world after the effects so far. *)
Definition read {A} (f : trace -> res A) : M A :=
  fun st => (f (events st), st).

(** An effect the world may refuse: recorded when it takes place. *)
Definition effect (f : trace -> res unit) (ev : event) : M unit :=
  fun st =>
    match f (events st) with
    | Ok _ => (Ok tt, add_event st ev)
    | Raise e => (Raise e, st)
    end.

Definition emit (ev : event) : M unit :=
  fun st => (Ok tt, add_event st ev).

Definition lift {A} (r : res A) : M A := fun st => (r, st).

(** [str(v)], also what an f-string does to [{v}]. *)
Definition py_str (env : Env) (v : value) : pystr :=
  match v with
  | VNone => lit "None"
  | VBool true => lit "True"
  | VBool false => lit "False"
  | VInt z => str_int z
  | VStr s => s
  | _ => repr env v
  end.

(** [d[k]] and [d.get(k, dflt)] on the arguments of a call. *)
Definition getitem (d : gmap pystr value) (k : pystr) : res value :=
  match d !! k with
  | Some v => Ok v
  | None => Raise (KeyError k)
  end.

Definition get (d : gmap pystr value) (k : pystr) (dflt : value) : value :=
  default dflt (d !! k).

(** [with tempfile.TemporaryDirectory(dir=dir) as tmpdir: body]; the
    directory is removed however the body is left, and removing it does
    not fail. *)
Definition TemporaryDirectory {A} (env : Env) (dir : option pystr)
    (body : pystr -> M A) : M A :=
  fun st =>
    match mkdtemp env (events st) dir with
    | Raise e => (Raise e, st)
    | Ok tmpdir =>
        let (r, st') := body tmpdir (add_event st (EvMkdtemp tmpdir)) in
        (r, add_event st' (EvCleanup tmpdir))
    end.

(** [await asyncio.wait_for(process.communicate(), timeout=timeout)] *)
Definition communicate (env : Env) (timeout : Z) : M (bytes * bytes * Z) :=
  fun st =>
    let o := wait_for_communicate env (events st) timeout in
    (o, add_event st (EvCommunicate timeout o)).

(** [type(v).__name__] *)
Definition type_name (v : value) : pystr :=
  match v with
  | VNone => lit "NoneType"
  | VBool _ => lit "bool"
  | VInt _ => lit "int"
  | VStr _ => lit "str"
  | VList _ => lit "list"
  | VDict _ => lit "dict"
  end.

(** [sep.join(l)] on a list that may hold something else than strings;
    [i] is the index of the head of [l]. *)
Fixpoint join_values (sep : pystr) (l : list value) (i : nat) : res pystr :=
  match l with
  | [] => Ok []
  | VStr x :: rest =>
      match rest with
      | [] => Ok x
      | _ :: _ =>
          match join_values sep rest (S i) with
          | Ok r => Ok (x ++ sep ++ r)
          | Raise e => Raise e
          end
      end
  | v :: _ =>
      Raise (Error (lit "sequence item " ++ str_int (Z.of_nat i)
                    ++ lit ": expected str instance, " ++ type_name v
                    ++ lit " found"))
  end.

Definition nl : pystr := [10%N].
Definition tab : N := 9%N.

(** The content kinds a handler returns. *)
Inductive content :=
| TextContent (text : pystr)
| ErrorContent (text : pystr).

End Sys.
Export Sys.

Declare Scope py_scope.
Delimit Scope py_scope with py.
Notation "'let*' x ':=' m 'in' k" := (bind m (fun x => k))
  (at level 10, x pattern, m at level 100, k at level 200) : py_scope.
Notation "m1 ';;' m2" := (bind m1 (fun _ => m2))
  (at level 100, m2 at level 200, right associativity) : py_scope.
Notation "'let?' x ':=' m 'in' k" := (bind_res m (fun x => k))
  (at level 10, x pattern, m at level 100, k at level 200) : py_scope.
Open Scope py_scope.

(* ===================================================================== *)
(** * src/server.py                                                       *)
(* ===================================================================== *)

Module Server.

Record ServerSettings := {
  max_file_size : Z;
  temp_dir : option pystr;
  timeout : Z;
  fastqc_path : pystr;
  multiqc_path : pystr
}.

Definition default_settings : ServerSettings :=
  {| max_file_size := 10000000000;
     temp_dir := None;
     timeout := 1800;
     fastqc_path := lit "fastqc";
     multiqc_path := lit "multiqc" |}.

Section FastQCServer.

Variable env : Env.
Variable settings : ServerSettings.

(** The loop shared by both interpreters:
    [for item in output_dir.iterdir():
       if item.is_dir() and base in item.name: fastqc_dir = item; break] *)
Definition first_results_dir (tr : trace) (items : list Path) (base : pystr)
    : option Path :=
  List.find (fun item => is_dir env tr item && contains (pname env item) base)
            items.

(** One line of summary.txt in [_parse_fastqc_results]. *)
Definition render_status_line (result line : pystr) : pystr :=
  match split tab (strip line) with
  | status :: module :: _ =>
      let emoji :=
        if str_eqb status (lit "PASS") then glyph_pass
        else if str_eqb status (lit "WARN") then glyph_warn
        else glyph_fail in
      result ++ lit "  " ++ emoji ++ lit " " ++ module ++ lit ": " ++ status
             ++ nl
  | _ => result
  end.

(** One line of fastqc_data.txt; the state is [(in_basic_stats, result)]. *)
Definition basic_stats_step (acc : bool * pystr) (line : pystr)
    : bool * pystr :=
  let (in_basic_stats, result) := acc in
  if startswith line (lit ">>Basic Statistics") then (true, result)
  else if startswith line (lit ">>END_MODULE") then (false, result)
  else if in_basic_stats && contains line [tab]
          && negb (startswith line (lit "#")) then
    match split tab line with
    | k :: v :: _ =>
        (in_basic_stats,
         result ++ lit "  " ++ bullet ++ lit " " ++ k ++ lit ": " ++ v ++ nl)
    | _ => acc
    end
  else acc.

Definition results_not_found : pystr :=
  lit "FastQC completed but results directory not found".

Definition _parse_fastqc_results (tr : trace) (output_dir : Path)
    (filename_base : pystr) : res pystr :=
  catch_res
    (let? items := iterdir env tr output_dir in
     match first_results_dir tr items filename_base with
     | None => Ok results_not_found
     | Some fastqc_dir =>
         let data_file := pjoin env fastqc_dir (lit "fastqc_data.txt") in
         let summary_file := pjoin env fastqc_dir (lit "summary.txt") in
         let result :=
           lit "FastQC Analysis Complete for " ++ filename_base ++ nl
           ++ times 61 50 ++ nl ++ nl in
         let? result :=
           if exists_ env tr summary_file then
             let? text := read_text env tr summary_file in
             let summary_lines := readlines text in
             let result := result ++ lit "Module Status Summary:" ++ nl in
             let result := fold_left render_status_line summary_lines result in
             Ok (result ++ nl)
           else Ok result in
         let? result :=
           if exists_ env tr data_file then
             let? content := read_text env tr data_file in
             let lines := split 10 content in
             let result := result ++ lit "Basic Statistics:" ++ nl in
             Ok (snd (fold_left basic_stats_step lines (false, result)))
           else Ok result in
         let result := result ++ nl ++ lit "Output Files:" ++ nl in
         let result :=
           result ++ lit "  " ++ bullet ++ lit " HTML Report: "
           ++ pjoin env fastqc_dir (lit "fastqc_report.html") ++ nl in
         let result :=
           result ++ lit "  " ++ bullet ++ lit " Data File: " ++ data_file
           ++ nl in
         let result :=
           result ++ lit "  " ++ bullet ++ lit " Summary: " ++ summary_file
           ++ nl in
         Ok result
     end)
    (fun e => Ok (lit "Error parsing FastQC results: " ++ str_exn e)).

(** [sum(1 for line in summary_lines if line.startswith(tag))] *)
Definition count_status (summary_lines : list pystr) (tag : pystr) : Z :=
  fold_left Z.add
    (map (fun _ => 1%Z)
         (List.filter (fun line => startswith line tag) summary_lines))
    0%Z.

(** The per-file glyph of the batch summary. *)
Definition batch_status (warn_count fail_count : Z) : pystr :=
  if (fail_count =? 0)%Z && (warn_count =? 0)%Z then glyph_pass
  else if (fail_count =? 0)%Z then glyph_warn
  else glyph_fail.

(** The body of the loop of [_summarize_batch_results]; the state is
    [(result, total_pass, total_warn, total_fail)]. *)
Definition summarize_file (tr : trace) (output_dir : Path)
    (acc : pystr * Z * Z * Z) (input_file : Path) : res (pystr * Z * Z * Z) :=
  let '(result, total_pass, total_warn, total_fail) := acc in
  let base_name :=
    remove_all (lit ".fq") (remove_all (lit ".fastq") (pstem env input_file)) in
  let? items := iterdir env tr output_dir in
  let no_results :=
    Ok (result ++ lit "  " ++ glyph_unknown ++ lit " " ++ pname env input_file
               ++ lit ": No results found" ++ nl,
        total_pass, total_warn, total_fail) in
  match first_results_dir tr items base_name with
  | Some fastqc_dir =>
      if exists_ env tr (pjoin env fastqc_dir (lit "summary.txt")) then
        let? text := read_text env tr (pjoin env fastqc_dir (lit "summary.txt")) in
        let summary_lines := readlines text in
        let pass_count := count_status summary_lines (lit "PASS") in
        let warn_count := count_status summary_lines (lit "WARN") in
        let fail_count := count_status summary_lines (lit "FAIL") in
        let status := batch_status warn_count fail_count in
        Ok (result ++ lit "  " ++ status ++ lit " " ++ pname env input_file
                   ++ lit ": " ++ str_int pass_count ++ lit "P/"
                   ++ str_int warn_count ++ lit "W/"
                   ++ str_int fail_count ++ lit "F" ++ nl,
            (total_pass + pass_count)%Z,
            (total_warn + warn_count)%Z,
            (total_fail + fail_count)%Z)
      else no_results
  | None => no_results
  end.

Definition _summarize_batch_results (tr : trace) (output_dir : Path)
    (files : list Path) : res pystr :=
  catch_res
    (let result :=
       lit "FastQC Batch Analysis Complete" ++ nl ++ times 61 40 ++ nl ++ nl
       ++ lit "Processed " ++ str_int (Z.of_nat (length files))
       ++ lit " files:" ++ nl ++ nl in
     let? (result, total_pass, total_warn, total_fail) :=
       fold_left (fun acc input_file =>
                    let? a := acc in summarize_file tr output_dir a input_file)
                 files (Ok (result, 0%Z, 0%Z, 0%Z)) in
     let result := result ++ nl ++ lit "Overall Summary:" ++ nl in
     let result :=
       result ++ lit "  " ++ bullet ++ lit " Total PASS: "
       ++ str_int total_pass ++ nl in
     let result :=
       result ++ lit "  " ++ bullet ++ lit " Total WARN: "
       ++ str_int total_warn ++ nl in
     let result :=
       result ++ lit "  " ++ bullet ++ lit " Total FAIL: "
       ++ str_int total_fail ++ nl ++ nl in
     let result := result ++ lit "Output directory: " ++ output_dir ++ nl in
     let result :=
       result ++ nl
       ++ lit "Tip: Run multiqc_report on this directory to generate a combined report!"
       ++ nl in
     Ok result)
    (fun e => Ok (lit "Error summarizing batch results: " ++ str_exn e)).

(** [if arguments.get(key): cmd.extend([flag, arguments[key]])] *)
Definition extend_if_given (arguments : gmap pystr value) (cmd : list value)
    (key flag : pystr) : M (list value) :=
  if truthy (get arguments key VNone) then
    let* v := lift (getitem arguments key) in
    ret (cmd ++ [VStr flag; v])
  else ret cmd.

(** [try: await wait_for(communicate(), timeout)
     except asyncio.TimeoutError: process.kill(); return ...]:
    [None] when the except branch was taken.  Killing a subprocess that
    is still running does not fail. *)
Definition communicate_or_kill : M (option (bytes * bytes * Z)) :=
  try_except_timeout
    (let* r := communicate env (timeout settings) in ret (Some r))
    (emit EvKill ;; ret None).

Definition _run_fastqc_single (arguments : gmap pystr value)
    : M (list content) :=
  try_except
    (let* input_file := lift (getitem arguments (lit "input_file")) in
     let* input_path := lift (mkPath env input_file) in
     let* found := read (fun tr => Ok (exists_ env tr input_path)) in
     if negb found then
       ret [ErrorContent (lit "Input file not found: " ++ input_path)]
     else
       let* size := read (fun tr => st_size env tr input_path) in
       if (size >? max_file_size settings)%Z then
         ret [ErrorContent (lit "File too large. Maximum size: "
                            ++ str_int (max_file_size settings)
                            ++ lit " bytes")]
       else
         TemporaryDirectory env (temp_dir settings) (fun tmpdir =>
           let* tmp := lift (mkPath env (VStr tmpdir)) in
           let output_dir := pjoin env tmp (lit "fastqc_output") in
           effect (fun tr => mkdir env tr output_dir) (EvMkdir output_dir) ;;
           let cmd :=
             [VStr (fastqc_path settings);
              VStr (lit "--outdir"); VStr output_dir;
              VStr (lit "--threads");
              VStr (py_str env (get arguments (lit "threads") (VInt 1)));
              VStr (lit "--extract")] in
           let* cmd := extend_if_given arguments cmd
                         (lit "contaminants") (lit "--contaminants") in
           let* cmd := extend_if_given arguments cmd
                         (lit "adapters") (lit "--adapters") in
           let* cmd := extend_if_given arguments cmd
                         (lit "limits") (lit "--limits") in
           let cmd := cmd ++ [VStr input_path] in
           effect (fun tr => create_subprocess_exec env tr cmd None)
                  (EvSpawnExec cmd None) ;;
           let* outcome := communicate_or_kill in
           match outcome with
           | None =>
               ret [ErrorContent (lit "FastQC timed out after "
                                  ++ str_int (timeout settings)
                                  ++ lit " seconds")]
           | Some (stdout, stderr, returncode) =>
               if negb (returncode =? 0)%Z then
                 let* err := lift (decode env stderr) in
                 ret [ErrorContent (lit "FastQC failed: " ++ err)]
               else
                 let* results :=
                   read (fun tr => _parse_fastqc_results tr output_dir
                                     (pstem env input_path)) in
                 ret [TextContent results]
           end))
    (fun e =>
       emit (EvLog ERROR (lit "Error running FastQC: " ++ str_exn e)) ;;
       ret [ErrorContent (lit "Error: " ++ str_exn e)]).

Definition _run_fastqc_batch (arguments : gmap pystr value)
    : M (list content) :=
  try_except
    (let* v := lift (getitem arguments (lit "input_dir")) in
     let* input_dir := lift (mkPath env v) in
     let* found := read (fun tr => Ok (exists_ env tr input_dir)) in
     if negb found then
       ret [ErrorContent (lit "Input directory not found: " ++ input_dir)]
     else
       let pattern := get arguments (lit "file_pattern") (VStr (lit "*.fastq*")) in
       let* files := read (fun tr => glob env tr input_dir pattern) in
       match files with
       | [] =>
           ret [ErrorContent (lit "No files found matching pattern '"
                              ++ py_str env pattern ++ lit "' in "
                              ++ input_dir)]
       | _ :: _ =>
           TemporaryDirectory env (temp_dir settings) (fun tmpdir =>
             let* tmp := lift (mkPath env (VStr tmpdir)) in
             let output_dir := pjoin env tmp (lit "fastqc_batch_output") in
             effect (fun tr => mkdir env tr output_dir) (EvMkdir output_dir) ;;
             let cmd :=
               [VStr (fastqc_path settings);
                VStr (lit "--outdir"); VStr output_dir;
                VStr (lit "--threads");
                VStr (py_str env (get arguments (lit "threads") (VInt 4)));
                VStr (lit "--extract")]
               ++ map VStr files in
             effect (fun tr => create_subprocess_exec env tr cmd None)
                    (EvSpawnExec cmd None) ;;
             let* outcome := communicate_or_kill in
             match outcome with
             | None =>
                 ret [ErrorContent (lit "FastQC batch processing timed out after "
                                    ++ str_int (timeout settings)
                                    ++ lit " seconds")]
             | Some (stdout, stderr, returncode) =>
                 if negb (returncode =? 0)%Z then
                   let* err := lift (decode env stderr) in
                   ret [ErrorContent (lit "FastQC batch processing failed: "
                                      ++ err)]
                 else
                   let* summary :=
                     read (fun tr => _summarize_batch_results tr output_dir
                                       files) in
                   ret [TextContent summary]
             end)
       end)
    (fun e =>
       emit (EvLog ERROR (lit "Error running FastQC batch: " ++ str_exn e)) ;;
       ret [ErrorContent (lit "Error: " ++ str_exn e)]).

(** The interpolation [{stats[:1000]}...] of [_run_multiqc]. *)
Definition stats_excerpt (stats : pystr) : pystr :=
  slice_to 1000 stats ++ lit "...".

Definition _run_multiqc (arguments : gmap pystr value) : M (list content) :=
  try_except
    (let* v := lift (getitem arguments (lit "input_dir")) in
     let* input_dir := lift (mkPath env v) in
     let* found := read (fun tr => Ok (exists_ env tr input_dir)) in
     if negb found then
       ret [ErrorContent (lit "Input directory not found: " ++ input_dir)]
     else
       TemporaryDirectory env (temp_dir settings) (fun tmpdir =>
         let* tmp := lift (mkPath env (VStr tmpdir)) in
         let output_dir := pjoin env tmp (lit "multiqc_output") in
         effect (fun tr => mkdir env tr output_dir) (EvMkdir output_dir) ;;
         let cmd :=
           [VStr (multiqc_path settings);
            VStr input_dir;
            VStr (lit "--outdir"); VStr output_dir;
            VStr (lit "--template");
            get arguments (lit "template") (VStr (lit "default"))] in
         let* cmd := extend_if_given arguments cmd (lit "title") (lit "--title") in
         let* cmd := extend_if_given arguments cmd
                       (lit "comment") (lit "--comment") in
         effect (fun tr => create_subprocess_exec env tr cmd None)
                (EvSpawnExec cmd None) ;;
         let* outcome := communicate_or_kill in
         match outcome with
         | None =>
             ret [ErrorContent (lit "MultiQC timed out after "
                                ++ str_int (timeout settings)
                                ++ lit " seconds")]
         | Some (stdout, stderr, returncode) =>
             if negb (returncode =? 0)%Z then
               let* err := lift (decode env stderr) in
               ret [ErrorContent (lit "MultiQC failed: " ++ err)]
             else
               let report_html := pjoin env output_dir (lit "multiqc_report.html") in
               let data_dir := pjoin env output_dir (lit "multiqc_data") in
               let result :=
                 lit "MultiQC report generated successfully!" ++ nl ++ nl in
               let result := result ++ lit "Report: " ++ report_html ++ nl in
               let result :=
                 result ++ lit "Data directory: " ++ data_dir ++ nl ++ nl in
               let* has_report := read (fun tr => Ok (exists_ env tr report_html)) in
               let* result :=
                 if has_report then
                   let* size := read (fun tr => st_size env tr report_html) in
                   ret (result ++ lit "Report size: " ++ format_comma size
                               ++ lit " bytes" ++ nl)
                 else ret result in
               let stats_file := pjoin env data_dir (lit "multiqc_general_stats.txt") in
               let* has_stats := read (fun tr => Ok (exists_ env tr stats_file)) in
               let* result :=
                 if has_stats then
                   let* stats := read (fun tr => read_text env tr stats_file) in
                   ret (result ++ nl ++ lit "General Statistics:" ++ nl
                               ++ stats_excerpt stats)
                 else ret result in
               ret [TextContent result]
         end))
    (fun e =>
       emit (EvLog ERROR (lit "Error running MultiQC: " ++ str_exn e)) ;;
       ret [ErrorContent (lit "Error: " ++ str_exn e)]).

(** The table of [call_tool]. *)
Definition handlers : list (pystr * (gmap pystr value -> M (list content))) :=
  [(lit "fastqc_single", _run_fastqc_single);
   (lit "fastqc_batch", _run_fastqc_batch);
   (lit "multiqc_report", _run_multiqc)].

Definition call_tool (name : pystr) (arguments : gmap pystr value)
    : M (list content) :=
  match List.find (fun h => str_eqb (fst h) name) handlers with
  | Some (_, handler) => handler arguments
  | None => ret [ErrorContent (lit "Unknown tool: " ++ name)]
  end.

End FastQCServer.

End Server.

(* ===================================================================== *)
(** * src/server_enhanced.py                                              *)
(* ===================================================================== *)

Module Enhanced.

Record ServerSettings := {
  max_file_size : Z;
  temp_dir : option pystr;
  timeout : Z;
  execution_mode : option pystr;
  preferred_modes : pystr;
  module_names : pystr;
  container_image : pystr
}.

Definition default_settings : ServerSettings :=
  {| max_file_size := 10000000000;
     temp_dir := None;
     timeout := 1800;
     execution_mode := None;
     preferred_modes := lit "native,module,lmod,singularity,docker";
     module_names := lit "fastqc,FastQC";
     container_image := lit "quay.io/biocontainers/fastqc:0.12.1" |}.

(** The two methods of [ToolDetector] the server calls.  The
    tool_detection module is not part of the sources at hand, so the
    detector is a parameter of the server. *)
Record ToolDetector := {
  detect_tool :
    trace -> pystr -> list pystr -> pystr ->
    option (list ExecutionMode) -> option ExecutionMode -> res ToolInfo;
  get_execution_command : ToolInfo -> list value -> res (list value)
}.

Section FastQCServer.

Variable env : Env.
Variable detector : ToolDetector.
Variable settings : ServerSettings.

Definition set_fastqc_info (info : ToolInfo) : M unit :=
  fun st =>
    (Ok tt, {| events := events st;
               self_fastqc_info := Some info;
               self_multiqc_info := self_multiqc_info st |}).

Definition set_multiqc_info (info : ToolInfo) : M unit :=
  fun st =>
    (Ok tt, {| events := events st;
               self_fastqc_info := self_fastqc_info st;
               self_multiqc_info := Some info |}).

(** The loop over [self.settings.preferred_modes.split(",")]. *)
Fixpoint parse_preferred_modes (strs : list pystr)
    (preferred : list ExecutionMode) : M (list ExecutionMode) :=
  match strs with
  | [] => ret preferred
  | mode_str :: rest =>
      match mode_of_value (lower env (strip mode_str)) with
      | Some m => parse_preferred_modes rest (preferred ++ [m])
      | None =>
          emit (EvLog WARNING (lit "Invalid preferred mode: " ++ mode_str)) ;;
          parse_preferred_modes rest preferred
      end
  end.

Definition _detect_tool (tool_name : pystr) : M ToolInfo :=
  let* force_mode :=
    match execution_mode settings with
    | Some s =>
        if truthy (VStr s) then
          match mode_of_value (lower env s) with
          | Some m => ret (Some m)
          | None =>
              emit (EvLog WARNING (lit "Invalid execution mode: " ++ s)) ;;
              ret None
          end
        else ret None
    | None => ret None
    end in
  let* preferred :=
    parse_preferred_modes (split 44 (preferred_modes settings)) [] in
  let names :=
    if str_eqb tool_name (lit "fastqc")
    then map strip (split 44 (module_names settings))
    else [lit "multiqc"; lit "MultiQC"] in
  read (fun tr =>
          detect_tool detector tr tool_name names (container_image settings)
            (match preferred with [] => None | _ :: _ => Some preferred end)
            force_mode).

Definition _get_fastqc_info : M ToolInfo :=
  fun st =>
    match self_fastqc_info st with
    | None =>
        (let* info := _detect_tool (lit "fastqc") in
         set_fastqc_info info ;; ret info) st
    | Some info => (Ok info, st)
    end.

Definition _get_multiqc_info : M ToolInfo :=
  fun st =>
    match self_multiqc_info st with
    | None =>
        (let* info := _detect_tool (lit "multiqc") in
         set_multiqc_info info ;; ret info) st
    | Some info => (Ok info, st)
    end.

Definition opt_str (o : option pystr) : value :=
  match o with
  | Some s => VStr s
  | None => VNone
  end.

Definition tool_info_dict (info : ToolInfo) : value :=
  VDict [(lit "execution_mode", VStr (mode_value (mode info)));
         (lit "available", VBool (negb (mode_eqb (mode info) UNAVAILABLE)));
         (lit "path", opt_str (path info));
         (lit "version", opt_str (version info));
         (lit "module_name", opt_str (module_name info));
         (lit "container_image", opt_str (ToolDetection.container_image info))].

Definition _get_tool_info : M (list content) :=
  let* fastqc_info := _get_fastqc_info in
  let* multiqc_info := _get_multiqc_info in
  let info :=
    VDict [(lit "fastqc", tool_info_dict fastqc_info);
           (lit "multiqc", tool_info_dict multiqc_info);
           (lit "settings",
            VDict [(lit "execution_mode", opt_str (execution_mode settings));
                   (lit "preferred_modes",
                    VList (map VStr (split 44 (preferred_modes settings))));
                   (lit "module_names",
                    VList (map VStr (split 44 (module_names settings))));
                   (lit "container_image", VStr (container_image settings))])] in
  ret [TextContent (json_dumps env info)].

Definition _execute_tool_command (tool_name : pystr) (tool_args : list value)
    (tmpdir : pystr) : M (bytes * bytes * Z) :=
  let* tool_info :=
    if str_eqb tool_name (lit "fastqc") then _get_fastqc_info
    else _get_multiqc_info in
  if mode_eqb (mode tool_info) UNAVAILABLE then
    raise (Error (tool_name ++ lit " is not available in any execution mode"))
  else
    let* cmd := lift (get_execution_command detector tool_info tool_args) in
    let* shown := lift (join_values (lit " ") cmd 0) in
    emit (EvLog INFO (lit "Executing " ++ tool_name ++ lit " via "
                      ++ mode_value (mode tool_info) ++ lit ": " ++ shown)) ;;
    (if mode_eqb (mode tool_info) MODULE || mode_eqb (mode tool_info) LMOD then
       let* shell_cmd := lift (join_values (lit " ") cmd 0) in
       effect (fun tr => create_subprocess_shell env tr shell_cmd (Some tmpdir))
              (EvSpawnShell shell_cmd (Some tmpdir))
     else
       effect (fun tr => create_subprocess_exec env tr cmd (Some tmpdir))
              (EvSpawnExec cmd (Some tmpdir))) ;;
    communicate env (timeout settings).

(** The listing at the end of both handlers:
    [for file in output_files: text += f"- {file.name} ({size} bytes)\\n"];
    the source writes the line break as a backslash and an [n]. *)
Fixpoint list_output_files (tr : trace) (output_files : list Path)
    (result_text : pystr) : res pystr :=
  match output_files with
  | [] => Ok result_text
  | file :: rest =>
      let? size := st_size env tr file in
      list_output_files tr rest
        (result_text ++ lit "- " ++ pname env file ++ lit " ("
                     ++ str_int size ++ lit " bytes)\n")
  end.

Definition _run_fastqc (arguments : gmap pystr value) : M (list content) :=
  try_except
    (let* v := lift (getitem arguments (lit "input_file")) in
     let* input_file := lift (mkPath env v) in
     let* found := read (fun tr => Ok (exists_ env tr input_file)) in
     if negb found then
       ret [ErrorContent (lit "Input file not found: " ++ input_file)]
     else
       let* size := read (fun tr => st_size env tr input_file) in
       if (size >? max_file_size settings)%Z then
         ret [ErrorContent (lit "File too large. Maximum size: "
                            ++ str_int (max_file_size settings)
                            ++ lit " bytes")]
       else
         TemporaryDirectory env (temp_dir settings) (fun tmpdir =>
           let* tmp := lift (mkPath env (VStr tmpdir)) in
           let temp_input := pjoin env tmp (pname env input_file) in
           let* data := read (fun tr => read_bytes env tr input_file) in
           effect (fun tr => write_bytes env tr temp_input data)
                  (EvWriteBytes temp_input data) ;;
           let tool_args := [] in
           let tool_args := tool_args ++ [VStr (lit "-o"); VStr tmpdir] in
           let tool_args :=
             tool_args
             ++ [VStr (lit "-t");
                 VStr (py_str env (get arguments (lit "threads") (VInt 1)))] in
           let tool_args :=
             if truthy (get arguments (lit "quiet") (VBool false))
             then tool_args ++ [VStr (lit "-q")] else tool_args in
           let output_format :=
             get arguments (lit "output_format") (VStr (lit "both")) in
           let tool_args :=
             if eq_str output_format (lit "html")
             then tool_args ++ [VStr (lit "--nozip")]
             else if eq_str output_format (lit "zip")
             then tool_args ++ [VStr (lit "--nohtml")]
             else tool_args in
           let tool_args := tool_args ++ [VStr temp_input] in
           let* (stdout, stderr, returncode) :=
             _execute_tool_command (lit "fastqc") tool_args tmpdir in
           if negb (returncode =? 0)%Z then
             let* err := lift (decode env stderr) in
             ret [ErrorContent (lit "FastQC failed: " ++ err)]
           else
             let* tmp := lift (mkPath env (VStr tmpdir)) in
             let* files := read (fun tr => glob env tr tmp (VStr (lit "*"))) in
             let* output_files :=
               read (fun tr =>
                       Ok (List.filter
                             (fun file =>
                                is_file env tr file
                                && negb (str_eqb (pname env file)
                                                 (pname env temp_input)))
                             files)) in
             let result_text := lit "FastQC completed successfully\n" in
             let result_text :=
               result_text ++ lit "Generated "
               ++ str_int (Z.of_nat (length output_files))
               ++ lit " output files:\n" in
             let* result_text :=
               read (fun tr => list_output_files tr output_files result_text) in
             ret [TextContent result_text]))
    (fun e =>
       emit (EvLog ERROR (lit "Error running FastQC: " ++ str_exn e)) ;;
       ret [ErrorContent (lit "Error: " ++ str_exn e)]).

Definition _run_multiqc (arguments : gmap pystr value) : M (list content) :=
  try_except
    (let* v := lift (getitem arguments (lit "input_dir")) in
     let* input_dir := lift (mkPath env v) in
     let* found := read (fun tr => Ok (exists_ env tr input_dir)) in
     if negb found then
       ret [ErrorContent (lit "Input directory not found: " ++ input_dir)]
     else
       TemporaryDirectory env (temp_dir settings) (fun tmpdir =>
         let tool_args := [] in
         let tool_args := tool_args ++ [VStr (lit "-o"); VStr tmpdir] in
         let* tool_args :=
           Server.extend_if_given arguments tool_args
             (lit "report_title") (lit "--title") in
         let* tool_args :=
           Server.extend_if_given arguments tool_args
             (lit "comment") (lit "--comment") in
         let tool_args := tool_args ++ [VStr input_dir] in
         let* (stdout, stderr, returncode) :=
           _execute_tool_command (lit "multiqc") tool_args tmpdir in
         if negb (returncode =? 0)%Z then
           let* err := lift (decode env stderr) in
           ret [ErrorContent (lit "MultiQC failed: " ++ err)]
         else
           let* tmp := lift (mkPath env (VStr tmpdir)) in
           let* files := read (fun tr => glob env tr tmp (VStr (lit "*"))) in
           let* output_files :=
             read (fun tr => Ok (List.filter (fun file => is_file env tr file)
                                             files)) in
           let result_text := lit "MultiQC completed successfully\n" in
           let result_text :=
             result_text ++ lit "Generated "
             ++ str_int (Z.of_nat (length output_files))
             ++ lit " output files:\n" in
           let* result_text :=
             read (fun tr => list_output_files tr output_files result_text) in
           ret [TextContent result_text]))
    (fun e =>
       emit (EvLog ERROR (lit "Error running MultiQC: " ++ str_exn e)) ;;
       ret [ErrorContent (lit "Error: " ++ str_exn e)]).

Definition call_tool (name : pystr) (arguments : gmap pystr value)
    : M (list content) :=
  if str_eqb name (lit "fastqc") then _run_fastqc arguments
  else if str_eqb name (lit "multiqc") then _run_multiqc arguments
  else if str_eqb name (lit "fastqc_info") then _get_tool_info
  else ret [ErrorContent (lit "Unknown tool: " ++ name)].

End FastQCServer.

End Enhanced.

(* ===================================================================== *)
(** * src/server_with_queue.py                                            *)
(* ===================================================================== *)

Module Queue.

(** What the server uses of [QueueIntegrationMixin] and of the handler
    registered by its parent.  The queue_integration module is not part of
    the sources at hand, so the layer is a parameter of the server; a job
    record stays opaque, the server only hands it to [format_job_status]. *)
Record QueueIntegration := {
  JobInfo : Type;
  submit_job :
    trace -> pystr -> gmap pystr value -> value -> value -> res JobInfo;
  get_job_status : trace -> value -> res JobInfo;
  get_job_result : trace -> value -> res (list (pystr * value));
  cancel_job : trace -> value -> res value;
  format_job_status : JobInfo -> res pystr;
  (* super(FastQCServerWithQueue, self).server.call_tool(name, arguments) *)
  parent_call_tool : trace -> pystr -> gmap pystr value -> res (list content)
}.

(** [async_tool_configs]: of each entry, [call_tool] reads ["job_type"]. *)
Record async_tool_config := {
  job_type : pystr;
  description : pystr;
  required_params : list pystr
}.

Definition async_tool_configs : list (pystr * async_tool_config) :=
  [(lit "fastqc_single",
    {| job_type := lit "fastqc_single";
       description :=
         lit "Run FastQC quality control on a single FASTQ/FASTA file (async)";
       required_params := [lit "input_file"] |});
   (lit "fastqc_batch",
    {| job_type := lit "fastqc_batch";
       description := lit "Run FastQC on multiple files in a directory (async)";
       required_params := [lit "input_dir"] |});
   (lit "multiqc_report",
    {| job_type := lit "multiqc_report";
       description :=
         lit "Generate MultiQC report from directory of analysis results (async)";
       required_params := [lit "input_dir"] |})].

(** [d.get(k)] on a mapping kept in insertion order. *)
Fixpoint assoc {A} (k : pystr) (d : list (pystr * A)) : option A :=
  match d with
  | [] => None
  | (k', v) :: rest => if str_eqb k' k then Some v else assoc k rest
  end.

(** [d.pop(k, dflt)]: the value and the dictionary left. *)
Definition pop (d : gmap pystr value) (k : pystr) (dflt : value)
    : value * gmap pystr value :=
  (get d k dflt, delete k d).

Section FastQCServerWithQueue.

Variable env : Env.
Variable queue : QueueIntegration.

Definition _handle_async_tool (tool_name : pystr) (job_type : pystr)
    (arguments : gmap pystr value) : M (list content) :=
  try_except
    (let (priority, arguments) := pop arguments (lit "priority") (VInt 5) in
     let (tags, arguments) := pop arguments (lit "tags") (VList []) in
     let (notification_email, arguments) :=
       pop arguments (lit "notification_email") VNone in
     let* job_info :=
       (fun st =>
          (submit_job queue (events st) job_type arguments priority tags,
           add_event st (EvSubmitJob job_type arguments priority tags))) in
     let* status := lift (format_job_status queue job_info) in
     ret [TextContent
            (lit "FastQC job submitted successfully!" ++ nl ++ nl
             ++ status ++ nl ++ nl
             ++ lit "Use 'get_job_status' with job ID to check progress." ++ nl
             ++ lit "Large batch jobs may take 10-30 minutes depending on file size.")])
    (fun e =>
       ret [ErrorContent (lit "Error submitting FastQC job: " ++ str_exn e)]).

Definition _handle_job_status (job_id : value) : M (list content) :=
  try_except
    (let* job_info := read (fun tr => get_job_status queue tr job_id) in
     let* status := lift (format_job_status queue job_info) in
     ret [TextContent status])
    (fun e => ret [ErrorContent (str_exn e)]).

(** [for key, value in result["summary"].items(): ...] *)
Definition render_summary (summary : value) (result_text : pystr) : res pystr :=
  match summary with
  | VDict items =>
      Ok (fold_left
            (fun text kv =>
               text ++ lit "  " ++ bullet ++ lit " " ++ fst kv ++ lit ": "
                    ++ py_str env (snd kv) ++ nl)
            items result_text)
  | other =>
      Raise (Error (lit "'" ++ type_name other
                    ++ lit "' object has no attribute 'items'"))
  end.

Definition _handle_job_result (job_id : value) : M (list content) :=
  try_except
    (let* result := read (fun tr => get_job_result queue tr job_id) in
     let result_text :=
       lit "FastQC Job " ++ py_str env job_id ++ lit " Results" ++ nl
       ++ times 61 50 ++ nl ++ nl in
     let* result_text :=
       match assoc (lit "summary") result with
       | Some summary =>
           let* text :=
             lift (render_summary summary
                     (result_text ++ lit "Quality Control Summary:" ++ nl)) in
           ret (text ++ nl)
       | None => ret result_text
       end in
     let result_text :=
       match assoc (lit "files_processed") result with
       | Some n => result_text ++ lit "Files processed: " ++ py_str env n ++ nl
       | None => result_text
       end in
     let result_text :=
       match assoc (lit "warnings") result with
       | Some n => result_text ++ lit "Quality warnings: " ++ py_str env n ++ nl
       | None => result_text
       end in
     let result_text :=
       match assoc (lit "failures") result with
       | Some n => result_text ++ lit "Quality failures: " ++ py_str env n ++ nl
       | None => result_text
       end in
     let result_text :=
       match assoc (lit "result_url") result with
       | Some url =>
           result_text ++ nl ++ lit "Full results: " ++ py_str env url ++ nl
           ++ lit "HTML reports and MultiQC data available for download." ++ nl
           ++ lit "Results available for 7 days." ++ nl
       | None => result_text
       end in
     ret [TextContent result_text])
    (fun e => ret [ErrorContent (str_exn e)]).

Definition _handle_list_jobs (arguments : gmap pystr value)
    : M (list content) :=
  ret [TextContent
         (lit "Job listing not yet implemented." ++ nl
          ++ lit "Use individual job IDs to check status." ++ nl
          ++ lit "Example: get_job_status with your job ID")].

Definition _handle_cancel_job (job_id : value) : M (list content) :=
  try_except
    (let* result :=
       (fun st =>
          (cancel_job queue (events st) job_id,
           add_event st (EvCancelJob job_id))) in
     ret [TextContent (lit "FastQC job " ++ py_str env job_id
                       ++ lit " cancelled successfully")])
    (fun e => ret [ErrorContent (str_exn e)]).

(** The handler registered by [_setup_async_handlers].  Python returns
    [None] from a coroutine that ends without [return]: that is the
    [None] of the result. *)
Definition call_tool (name : pystr) (arguments : gmap pystr value)
    : M (option (list content)) :=
  if endswith name (lit "_async") then
    let base_name := slice_to_neg 6 name in
    match assoc base_name async_tool_configs with
    | Some config =>
        let* r := _handle_async_tool base_name (job_type config) arguments in
        ret (Some r)
    | None => ret None
    end
  else if str_eqb name (lit "get_job_status") then
    let* job_id := lift (getitem arguments (lit "job_id")) in
    let* r := _handle_job_status job_id in
    ret (Some r)
  else if str_eqb name (lit "get_job_result") then
    let* job_id := lift (getitem arguments (lit "job_id")) in
    let* r := _handle_job_result job_id in
    ret (Some r)
  else if str_eqb name (lit "list_my_jobs") then
    let* r := _handle_list_jobs arguments in
    ret (Some r)
  else if str_eqb name (lit "cancel_job") then
    let* job_id := lift (getitem arguments (lit "job_id")) in
    let* r := _handle_cancel_job job_id in
    ret (Some r)
  else
    let* r :=
      (fun st =>
         (parent_call_tool queue (events st) name arguments,
          add_event st (EvDelegate name arguments))) in
    ret (Some r).

End FastQCServerWithQueue.

End Queue.

(* ===================================================================== *)
(** * A small world for the examples                                      *)
(* ===================================================================== *)

Module Fixture.

(** A directory tree, a tool run that replaces it, and the answer of
    [communicate()].  Paths are POSIX and written in normal form, so that
    [Path(s)] is [s]; names have at most one dot. *)
Inductive node :=
| FileNode (content : pystr)
| DirNode (children : list pystr).

Record world := {
  before : list (Path * node);
  after : list (Path * node);
  outcome : res (bytes * bytes * Z)
}.

Definition is_communicate (ev : event) : bool :=
  match ev with
  | EvCommunicate _ _ => true
  | _ => false
  end.

Definition tree_at (w : world) (tr : trace) : list (Path * node) :=
  if existsb is_communicate tr then after w else before w.

Definition child (p : Path) (name : pystr) : Path := p ++ lit "/" ++ name.

Definition base_name (p : Path) : pystr := List.last (split 47 p) [].

Definition stem_of (name : pystr) : pystr :=
  match split 46 name with
  | first :: _ :: _ => first
  | _ => name
  end.

Definition no_such_file (p : Path) : exn :=
  Error (lit "[Errno 2] No such file or directory: '" ++ p ++ lit "'").

Definition not_a_directory (p : Path) : exn :=
  Error (lit "[Errno 20] Not a directory: '" ++ p ++ lit "'").

Definition is_a_directory (p : Path) : exn :=
  Error (lit "[Errno 21] Is a directory: '" ++ p ++ lit "'").

Definition listing (w : world) (tr : trace) (p : Path) : res (list Path) :=
  match Queue.assoc p (tree_at w tr) with
  | Some (DirNode names) => Ok (map (child p) names)
  | Some (FileNode _) => Raise (not_a_directory p)
  | None => Raise (no_such_file p)
  end.

Definition contents (w : world) (tr : trace) (p : Path) : res pystr :=
  match Queue.assoc p (tree_at w tr) with
  | Some (FileNode text) => Ok text
  | Some (DirNode _) => Raise (is_a_directory p)
  | None => Raise (no_such_file p)
  end.

Definition fixture_env (w : world) : Env :=
  {| mkPath v :=
       match v with
       | VStr s => Ok s
       | other =>
           Raise (Error (lit "expected str, bytes or os.PathLike object, not "
                         ++ type_name other))
       end;
     pjoin := child;
     pname := base_name;
     pstem p := stem_of (base_name p);
     exists_ tr p :=
       match Queue.assoc p (tree_at w tr) with Some _ => true | None => false end;
     is_dir tr p :=
       match Queue.assoc p (tree_at w tr) with
       | Some (DirNode _) => true
       | _ => false
       end;
     is_file tr p :=
       match Queue.assoc p (tree_at w tr) with
       | Some (FileNode _) => true
       | _ => false
       end;
     st_size tr p :=
       match Queue.assoc p (tree_at w tr) with
       | Some (FileNode text) => Ok (Z.of_nat (length text))
       | Some (DirNode _) => Ok 4096%Z
       | None => Raise (no_such_file p)
       end;
     iterdir := listing w;
     (* patterns of the shape *x* only *)
     glob tr p pattern :=
       match pattern with
       | VStr s =>
           match listing w tr p with
           | Ok items =>
               Ok (List.filter
                     (fun item => contains (base_name item)
                                           (remove_all (lit "*") s))
                     items)
           | Raise e => Raise e
           end
       | other =>
           Raise (Error (lit "expected str, not " ++ type_name other))
       end;
     read_text := contents w;
     read_bytes := contents w;
     mkdtemp _ _ := Ok (lit "/tmp/tmpqc");
     mkdir _ _ := Ok tt;
     write_bytes _ _ _ := Ok tt;
     create_subprocess_exec _ _ _ := Ok tt;
     create_subprocess_shell _ _ _ := Ok tt;
     wait_for_communicate _ _ := outcome w;
     decode b := Ok b;
     repr _ := lit "[...]";
     lower s := s;
     json_dumps _ := lit "{}" |}.

(** A detector that finds every tool on the search path. *)
Definition native_detector : Enhanced.ToolDetector :=
  {| Enhanced.detect_tool _ tool_name _ _ _ _ :=
       Ok {| mode := NATIVE;
             path := Some (lit "/usr/bin/" ++ tool_name);
             version := None;
             module_name := None;
             ToolDetection.container_image := None |};
     Enhanced.get_execution_command info tool_args :=
       match path info with
       | Some p => Ok (VStr p :: tool_args)
       | None => Raise (Error (lit "no path"))
       end |}.

(** A queue that accepts every job. *)
Definition accepting_queue : Queue.QueueIntegration :=
  {| Queue.JobInfo := pystr;
     Queue.submit_job _ _ _ _ _ := Ok (lit "job-1");
     Queue.get_job_status _ _ := Ok (lit "job-1");
     Queue.get_job_result _ _ := Ok [];
     Queue.cancel_job _ _ := Ok VNone;
     Queue.format_job_status job := Ok (lit "Job " ++ job ++ lit ": pending");
     Queue.parent_call_tool _ name _ :=
       Ok [ErrorContent (lit "Unknown tool: " ++ name)] |}.

Definition fresh : state :=
  {| events := []; self_fastqc_info := None; self_multiqc_info := None |}.

(** A small file of reads. *)
Definition reads_fastq : pystr := lit "@r1 ACGT + !!!!".

Definition one_sample : list (Path * node) :=
  [(lit "/data", DirNode [lit "s1.fastq"]);
   (lit "/data/s1.fastq", FileNode reads_fastq)].

Definition summary_txt : pystr :=
  lit "PASS" ++ [tab] ++ lit "Basic Statistics" ++ nl
  ++ lit "WARN" ++ [tab] ++ lit "Per base sequence quality" ++ nl
  ++ lit "FAIL" ++ [tab] ++ lit "Adapter Content" ++ nl.

(** FastQC never returns. *)
Definition hanging_tool : world :=
  {| before := one_sample; after := one_sample; outcome := Raise TimeoutError |}.

(** FastQC exits with status 0 and leaves nothing in its output directory. *)
Definition silent_tool : world :=
  {| before := one_sample;
     after := one_sample
              ++ [(lit "/tmp/tmpqc/fastqc_output", DirNode [])];
     outcome := Ok ([], [], 0%Z) |}.

(** FastQC exits with status 0 and leaves the extracted report of s1. *)
Definition batch_tool : world :=
  {| before := one_sample;
     after := one_sample
              ++ [(lit "/tmp/tmpqc/fastqc_batch_output", DirNode [lit "s1_fastqc"]);
                  (lit "/tmp/tmpqc/fastqc_batch_output/s1_fastqc",
                   DirNode [lit "summary.txt"]);
                  (lit "/tmp/tmpqc/fastqc_batch_output/s1_fastqc/summary.txt",
                   FileNode summary_txt)];
     outcome := Ok ([], [], 0%Z) |}.

(** A directory of reports, and a MultiQC run that writes a short
    general-statistics table. *)
Definition reports : list (Path * node) :=
  [(lit "/data/qc", DirNode [])].

Definition multiqc_tool : world :=
  {| before := reports;
     after := reports
              ++ [(lit "/tmp/tmpqc/multiqc_output/multiqc_data/multiqc_general_stats.txt",
                   FileNode (lit "Sample"))];
     outcome := Ok ([], [], 0%Z) |}.

(** MultiQC, run by the enhanced server in its working directory. *)
Definition enhanced_multiqc_tool : world :=
  {| before := reports;
     after := reports
              ++ [(lit "/tmp/tmpqc", DirNode [lit "multiqc_report.html"]);
                  (lit "/tmp/tmpqc/multiqc_report.html", FileNode (lit "<html>"))];
     outcome := Ok ([], [], 0%Z) |}.

(** FastQC, run by the enhanced server on the copy of s1. *)
Definition enhanced_fastqc_tool : world :=
  {| before := one_sample;
     after := one_sample
              ++ [(lit "/tmp/tmpqc",
                   DirNode [lit "s1.fastq"; lit "s1_fastqc.html"]);
                  (lit "/tmp/tmpqc/s1.fastq", FileNode reads_fastq);
                  (lit "/tmp/tmpqc/s1_fastqc.html", FileNode (lit "<html>"))];
     outcome := Ok ([], [], 0%Z) |}.

Definition hanging_multiqc : world :=
  {| before := reports; after := reports; outcome := Raise TimeoutError |}.

Definition single_args : gmap pystr value :=
  {[ lit "input_file" := VStr (lit "/data/s1.fastq") ]}.

Definition batch_args : gmap pystr value :=
  {[ lit "input_dir" := VStr (lit "/data") ]}.

Definition multiqc_args : gmap pystr value :=
  {[ lit "input_dir" := VStr (lit "/data/qc") ]}.

Definition tiny_limit : Server.ServerSettings :=
  {| Server.max_file_size := 4;
     Server.temp_dir := None;
     Server.timeout := 1800;
     Server.fastqc_path := lit "fastqc";
     Server.multiqc_path := lit "multiqc" |}.

(** FastQC exits with status 1 and a message on its standard error. *)
Definition failing_tool : world :=
  {| before := one_sample;
     after := one_sample;
     outcome := Ok ([], lit "Failed to process file", 1%Z) |}.

(** A detector that finds nothing. *)
Definition absent_detector : Enhanced.ToolDetector :=
  {| Enhanced.detect_tool _ _ _ _ _ _ :=
       Ok {| mode := UNAVAILABLE;
             path := None;
             version := None;
             module_name := None;
             ToolDetection.container_image := None |};
     Enhanced.get_execution_command _ tool_args := Ok tool_args |}.

(** A detector that finds every tool as the first module it is asked for. *)
Definition module_detector : Enhanced.ToolDetector :=
  {| Enhanced.detect_tool _ tool_name names _ _ _ :=
       Ok {| mode := MODULE;
             path := None;
             version := None;
             module_name := head names;
             ToolDetection.container_image := None |};
     Enhanced.get_execution_command info tool_args :=
       Ok ([VStr (lit "module"); VStr (lit "load");
            VStr (default (lit "fastqc") (module_name info));
            VStr (lit "&&"); VStr (lit "fastqc")] ++ tool_args) |}.

(** Settings with a mode of each list that names none. *)
Definition picky_settings : Enhanced.ServerSettings :=
  {| Enhanced.max_file_size := 10000000000;
     Enhanced.temp_dir := None;
     Enhanced.timeout := 1800;
     Enhanced.execution_mode := Some (lit "podman");
     Enhanced.preferred_modes := lit "native, lmod ,conda";
     Enhanced.module_names := lit "fastqc, FastQC";
     Enhanced.container_image := lit "quay.io/biocontainers/fastqc:0.12.1" |}.

(** A queue that is down. *)
Definition refusing_queue : Queue.QueueIntegration :=
  {| Queue.JobInfo := pystr;
     Queue.submit_job _ _ _ _ _ := Raise (Error (lit "Connection refused"));
     Queue.get_job_status _ _ := Raise TimeoutError;
     Queue.get_job_result _ _ := Raise (Error (lit "Job not found"));
     Queue.cancel_job _ _ := Raise (Error (lit "Job not found"));
     Queue.format_job_status job := Ok job;
     Queue.parent_call_tool _ name _ :=
       Ok [ErrorContent (lit "Unknown tool: " ++ name)] |}.

(** A queue that accepts every job and whose job records cannot be
    rendered. *)
Definition garbling_queue : Queue.QueueIntegration :=
  {| Queue.JobInfo := pystr;
     Queue.submit_job _ _ _ _ _ := Ok (lit "job-1");
     Queue.get_job_status _ _ := Ok (lit "job-1");
     Queue.get_job_result _ _ :=
       Ok [(lit "owner", VStr (lit "someone"));
           (lit "failures", VInt 2);
           (lit "files_processed", VInt 3)];
     Queue.cancel_job _ _ := Ok VNone;
     Queue.format_job_status _ := Raise (KeyError (lit "status"));
     Queue.parent_call_tool _ name _ :=
       Ok [ErrorContent (lit "Unknown tool: " ++ name)] |}.

(** A queue whose job results hold two of the keys that are shown, and
    nothing else. *)
Definition terse_queue : Queue.QueueIntegration :=
  {| Queue.JobInfo := pystr;
     Queue.submit_job _ _ _ _ _ := Ok (lit "job-1");
     Queue.get_job_status _ _ := Ok (lit "job-1");
     Queue.get_job_result _ _ :=
       Ok [(lit "files_processed", VInt 3); (lit "failures", VInt 2)];
     Queue.cancel_job _ _ := Ok VNone;
     Queue.format_job_status _ := Raise (KeyError (lit "status"));
     Queue.parent_call_tool _ name _ :=
       Ok [ErrorContent (lit "Unknown tool: " ++ name)] |}.

(** The arguments of a call about job-1. *)
Definition job_args : gmap pystr value :=
  {[ lit "job_id" := VStr (lit "job-1") ]}.

(** The fastqc_data.txt of s1: the basic statistics and one module more. *)
Definition data_txt : pystr :=
  lit ">>Basic Statistics" ++ [tab] ++ lit "pass" ++ nl
  ++ lit "#Measure" ++ [tab] ++ lit "Value" ++ nl
  ++ lit "Total Sequences" ++ [tab] ++ lit "250000" ++ nl
  ++ lit ">>END_MODULE" ++ nl
  ++ lit ">>Per base sequence quality" ++ [tab] ++ lit "warn" ++ nl
  ++ lit "1" ++ [tab] ++ lit "31.2" ++ nl
  ++ lit ">>END_MODULE" ++ nl.

(** FastQC exits with status 0 and leaves, for s1, the HTML report and the
    extracted directory, in this order. *)
Definition reporting_tool : world :=
  {| before := one_sample;
     after := one_sample
              ++ [(lit "/tmp/tmpqc/fastqc_output",
                   DirNode [lit "s1_fastqc.html"; lit "s1_fastqc"]);
                  (lit "/tmp/tmpqc/fastqc_output/s1_fastqc.html",
                   FileNode (lit "<html>"));
                  (lit "/tmp/tmpqc/fastqc_output/s1_fastqc",
                   DirNode [lit "summary.txt"; lit "fastqc_data.txt"]);
                  (lit "/tmp/tmpqc/fastqc_output/s1_fastqc/summary.txt",
                   FileNode summary_txt);
                  (lit "/tmp/tmpqc/fastqc_output/s1_fastqc/fastqc_data.txt",
                   FileNode data_txt)];
     outcome := Ok ([], [], 0%Z) |}.

End Fixture.

(* ===================================================================== *)
(** * The vocabulary of the properties                                    *)
(* ===================================================================== *)

(** The number of lines of [text] that begin with [tag]. *)
Definition lines_beginning_with (tag text : pystr) : Z :=
  Z.of_nat (length (List.filter (fun line => startswith line tag)
                                (readlines text))).

(** The arguments of a call without the three queue-control keys. *)
Definition without_queue_keys (arguments : gmap pystr value)
    : gmap pystr value :=
  delete (lit "notification_email")
         (delete (lit "tags") (delete (lit "priority") arguments)).

(** An event that writes a copy of some file. *)
Definition is_copy (ev : event) : bool :=
  match ev with
  | EvWriteBytes _ _ => true
  | _ => false
  end.

(** An event that starts a subprocess. *)
Definition is_spawn (ev : event) : bool :=
  match ev with
  | EvSpawnExec _ _ | EvSpawnShell _ _ => true
  | _ => false
  end.

(** The event of [process.kill()]. *)
Definition is_kill (ev : event) : bool :=
  match ev with
  | EvKill => true
  | _ => false
  end.

(** A record of the logger. *)
Definition is_log (ev : event) : bool :=
  match ev with
  | EvLog _ _ => true
  | _ => false
  end.

(** [st'] is [st] after some log records. *)
Definition logged (st st' : state) : Prop :=
  exists evs, events st' = events st ++ evs /\ forallb is_log evs = true.

(** [ev] starts the command the detector makes of [tool_args], in [tmpdir]. *)
Definition spawned_from (detector : Enhanced.ToolDetector)
    (tool_args : list value) (tmpdir : pystr) (ev : event) : Prop :=
  exists info cmd,
    Enhanced.get_execution_command detector info tool_args = Ok cmd
    /\ (ev = EvSpawnExec cmd (Some tmpdir)
        \/ exists shell_cmd,
             join_values (lit " ") cmd 0 = Ok shell_cmd
             /\ ev = EvSpawnShell shell_cmd (Some tmpdir)).

(** The three operations of the basic server. *)
Definition basic_operations : list pystr :=
  [lit "fastqc_single"; lit "fastqc_batch"; lit "multiqc_report"].

(** The key each of them requires. *)
Definition required_key (name : pystr) : pystr :=
  if str_eqb name (lit "fastqc_single") then lit "input_file"
  else lit "input_dir".

(** What it calls its input when the input is missing. *)
Definition input_noun (name : pystr) : pystr :=
  if str_eqb name (lit "fastqc_single") then lit "Input file"
  else lit "Input directory".

(** What it calls the tool run in the messages to the caller... *)
Definition tool_label (name : pystr) : pystr :=
  if str_eqb name (lit "fastqc_single") then lit "FastQC"
  else if str_eqb name (lit "fastqc_batch") then lit "FastQC batch processing"
  else lit "MultiQC".

(** ... and in the log. *)
Definition log_label (name : pystr) : pystr :=
  if str_eqb name (lit "fastqc_single") then lit "FastQC"
  else if str_eqb name (lit "fastqc_batch") then lit "FastQC batch"
  else lit "MultiQC".

(** The wait for the subprocess timed out. *)
Definition is_timeout (ev : event) : bool :=
  match ev with
  | EvCommunicate _ (Raise TimeoutError) => true
  | _ => false
  end.


(** [cmd.extend([flag, arguments[key]])] when [arguments.get(key)] is
    truthy, nothing otherwise. *)
Definition optional_flag (arguments : gmap pystr value) (key flag : pystr)
    : list value :=
  if truthy (get arguments key VNone)
  then [VStr flag; get arguments key VNone]
  else [].

(** No character of [s] is [c]. *)
Definition free_of (c : N) (s : pystr) : Prop :=
  forallb (fun x => negb (N.eqb x c)) s = true.

(** The glyph [_parse_fastqc_results] gives a status. *)
Definition status_glyph (status : pystr) : pystr :=
  if str_eqb status (lit "PASS") then glyph_pass
  else if str_eqb status (lit "WARN") then glyph_warn
  else glyph_fail.

(** The cached attribute [_execute_tool_command] reads for a tool. *)
Definition cached_info (tool_name : pystr) (st : state) : option ToolInfo :=
  if str_eqb tool_name (lit "fastqc") then self_fastqc_info st
  else self_multiqc_info st.

(** The entries of a comma-separated setting that name an execution mode,
    in their order... *)
Fixpoint recognised_modes (env : Env) (strs : list pystr)
    : list ExecutionMode :=
  match strs with
  | [] => []
  | s :: rest =>
      match mode_of_value (lower env (strip s)) with
      | Some m => m :: recognised_modes env rest
      | None => recognised_modes env rest
      end
  end.

(** ... and the warnings for those that name none. *)
Definition unrecognised_warnings (env : Env) (strs : list pystr)
    : list event :=
  map (fun s => EvLog WARNING (lit "Invalid preferred mode: " ++ s))
      (List.filter
         (fun s => match mode_of_value (lower env (strip s)) with
                   | None => true
                   | Some _ => false
                   end)
         strs).

(** The mode [execution_mode] forces, when it names one... *)
Definition forced_mode (env : Env) (settings : Enhanced.ServerSettings)
    : option ExecutionMode :=
  match Enhanced.execution_mode settings with
  | Some s => if truthy (VStr s) then mode_of_value (lower env s) else None
  | None => None
  end.

(** ... and the warning when it is set and names none. *)
Definition forced_mode_warning (env : Env)
    (settings : Enhanced.ServerSettings) : list event :=
  match Enhanced.execution_mode settings with
  | Some s =>
      if truthy (VStr s) then
        match mode_of_value (lower env s) with
        | Some _ => []
        | None => [EvLog WARNING (lit "Invalid execution mode: " ++ s)]
        end
      else []
  | None => []
  end.

(** The module names a tool is looked up under. *)
Definition module_names_of (settings : Enhanced.ServerSettings)
    (tool_name : pystr) : list pystr :=
  if str_eqb tool_name (lit "fastqc")
  then map strip (split 44 (Enhanced.module_names settings))
  else [lit "multiqc"; lit "MultiQC"].

(** What [_detect_tool] logs before it asks the detector. *)
Definition detection_warnings (env : Env)
    (settings : Enhanced.ServerSettings) : list event :=
  forced_mode_warning env settings
  ++ unrecognised_warnings env (split 44 (Enhanced.preferred_modes settings)).

(** [preferred_modes or None] *)
Definition preferred_or_default (env : Env)
    (settings : Enhanced.ServerSettings) : option (list ExecutionMode) :=
  match recognised_modes env (split 44 (Enhanced.preferred_modes settings)) with
  | [] => None
  | m :: ms => Some (m :: ms)
  end.

(** [st] after the events [evs]. *)
Definition add_events (st : state) (evs : list event) : state :=
  fold_left add_event evs st.

(** [st'] differs from [st] in its events at most. *)
Definition same_cache (st st' : state) : Prop :=
  self_fastqc_info st' = self_fastqc_info st
  /\ self_multiqc_info st' = self_multiqc_info st.

(** The detector finds [tool_name] in no execution mode. *)
Definition finds_nothing (detector : Enhanced.ToolDetector)
    (tool_name : pystr) : Prop :=
  forall tr names image preferred force,
    exists info,
      Enhanced.detect_tool detector tr tool_name names image preferred force
      = Ok info
      /\ mode info = UNAVAILABLE.

(** The modes whose commands go through the shell. *)
Definition through_shell (m : ExecutionMode) : bool :=
  mode_eqb m MODULE || mode_eqb m LMOD.

(** The two operations of the enhanced server that run a tool. *)
Definition enhanced_operations : list pystr := [lit "fastqc"; lit "multiqc"].

(** The key of the input of such an operation, what the operation calls
    its input, and how it names the tool. *)
Definition enhanced_key (name : pystr) : pystr :=
  if str_eqb name (lit "fastqc") then lit "input_file" else lit "input_dir".

Definition enhanced_noun (name : pystr) : pystr :=
  if str_eqb name (lit "fastqc") then lit "Input file"
  else lit "Input directory".

Definition enhanced_label (name : pystr) : pystr :=
  if str_eqb name (lit "fastqc") then lit "FastQC" else lit "MultiQC".

(** The job-management tools that take a job id. *)
Definition job_tools : list pystr :=
  [lit "get_job_status"; lit "get_job_result"; lit "cancel_job"].

(** An event of the queue or of the parent's handler, and whether the call
    [name], [arguments] accounts for it. *)
Definition accounted_for (name : pystr) (arguments : gmap pystr value)
    (ev : event) : Prop :=
  match ev with
  | EvSubmitJob job_type parameters priority tags =>
      name = job_type ++ lit "_async"
      /\ In job_type (map fst Queue.async_tool_configs)
  | EvCancelJob job_id =>
      name = lit "cancel_job" /\ arguments !! lit "job_id" = Some job_id
  | EvDelegate n a =>
      n = name /\ a = arguments
      /\ endswith name (lit "_async") = false
      /\ ~ In name (lit "list_my_jobs" :: job_tools)
  | _ => False
  end.

(** The request a job tool makes of the queue fails with [e]. *)
Definition request_fails (queue : Queue.QueueIntegration) (name : pystr)
    (tr : trace) (job_id : value) (e : exn) : Prop :=
  (name = lit "get_job_status"
   /\ (Queue.get_job_status queue tr job_id = Raise e
       \/ exists job, Queue.get_job_status queue tr job_id = Ok job
                      /\ Queue.format_job_status queue job = Raise e))
  \/ (name = lit "get_job_result"
      /\ Queue.get_job_result queue tr job_id = Raise e)
  \/ (name = lit "cancel_job" /\ Queue.cancel_job queue tr job_id = Raise e).

(** The keys of a job result [_handle_job_result] shows. *)
Definition shown_keys : list pystr :=
  [lit "summary"; lit "files_processed"; lit "warnings"; lit "failures";
   lit "result_url"].

(** What is read of the file [p]: its text when it exists, nothing when it
    does not. *)
Definition file_read (env : Env) (tr : trace) (p : Path)
    (found : option pystr) : Prop :=
  if exists_ env tr p then
    match found with
    | Some text => read_text env tr p = Ok text
    | None => False
    end
  else found = None.

(** The part of the report of [_parse_fastqc_results] made of summary.txt,
    and the part made of fastqc_data.txt. *)
Definition status_section (summary : option pystr) : pystr :=
  match summary with
  | Some text =>
      lit "Module Status Summary:" ++ nl
      ++ fold_left Server.render_status_line (readlines text) [] ++ nl
  | None => []
  end.

Definition statistics_section (data : option pystr) : pystr :=
  match data with
  | Some content =>
      lit "Basic Statistics:" ++ nl
      ++ snd (fold_left Server.basic_stats_step (split 10 content) (false, []))
  | None => []
  end.

(** The per-file glyph of a batch summary, in the words of the
    specification: "fail" whenever the fail count is positive, "warn"
    whenever the warn count is positive and the fail count is zero, "pass"
    otherwise. *)
Definition glyph_for (warn_count fail_count : Z) : pystr :=
  if (fail_count >? 0)%Z then glyph_fail
  else if (warn_count >? 0)%Z then glyph_warn
  else glyph_pass.

(** What the batch summary finds of [input_file] among [items]: the text of
    the summary.txt of the first directory whose name holds the base name
    of the file, or nothing. *)
Definition summary_found (env : Env) (tr : trace) (items : list Path)
    (input_file : Path) (found : option pystr) : Prop :=
  match Server.first_results_dir env tr items
          (remove_all (lit ".fq")
             (remove_all (lit ".fastq") (pstem env input_file))) with
  | Some fastqc_dir =>
      file_read env tr (pjoin env fastqc_dir (lit "summary.txt")) found
  | None => found = None
  end.

(** The number of lines of what was found that begin with [tag]. *)
Definition found_count (tag : pystr) (found : option pystr) : Z :=
  match found with
  | Some text => lines_beginning_with tag text
  | None => 0%Z
  end.

(** The line of a batch summary for [input_file]. *)
Definition batch_line (env : Env) (input_file : Path)
    (found : option pystr) : pystr :=
  match found with
  | Some text =>
      lit "  "
      ++ glyph_for (lines_beginning_with (lit "WARN") text)
                   (lines_beginning_with (lit "FAIL") text)
      ++ lit " " ++ pname env input_file ++ lit ": "
      ++ str_int (lines_beginning_with (lit "PASS") text) ++ lit "P/"
      ++ str_int (lines_beginning_with (lit "WARN") text) ++ lit "W/"
      ++ str_int (lines_beginning_with (lit "FAIL") text) ++ lit "F" ++ nl
  | None =>
      lit "  " ++ glyph_unknown ++ lit " " ++ pname env input_file
      ++ lit ": No results found" ++ nl
  end.

(** The total of a batch summary for [tag]. *)
Definition batch_total (tag : pystr) (founds : list (option pystr)) : Z :=
  fold_right Z.add 0%Z (map (found_count tag) founds).

(* ===================================================================== *)
(** * Properties                                                          *)
(* ===================================================================== *)

(** Literals stay folded in the proofs below; evaluation goes through
    [vm_compute]. *)
Opaque lit.

Section StringFacts.

Lemma startswith_app (p r : pystr) : startswith (p ++ r) p = true.
Proof. induction p as [|c p IH]; simpl; [done|]. by rewrite N.eqb_refl. Qed.

Lemma startswith_spec (s p : pystr) :
  startswith s p = true <-> exists r, s = p ++ r.
Proof.
  split.
  - revert s. induction p as [|c p IH]; intros s H; simpl in *.
    + by exists s.
    + destruct s as [|d s]; [done|].
      destruct (N.eqb_spec c d) as [->|]; [|done].
      destruct (IH _ H) as [r ->]. by exists r.
  - intros [r ->]. apply startswith_app.
Qed.

Lemma contains_unfold (h n : pystr) :
  contains h n =
  startswith h n || match h with [] => false | _ :: t => contains t n end.
Proof. by destruct h. Qed.

Lemma contains_infix (a b c : pystr) : contains (a ++ b ++ c) b = true.
Proof.
  induction a as [|x a IH]; simpl.
  - rewrite contains_unfold, startswith_app. done.
  - rewrite IH. apply orb_true_r.
Qed.

Lemma contains_suffix (a b : pystr) : contains (a ++ b) b = true.
Proof. rewrite <- (app_nil_r b) at 1. apply contains_infix. Qed.

End StringFacts.

Section RunFacts.

Lemma self_app_nil {A} (l evs : list A) : l = l ++ evs -> [] = evs.
Proof.
  intros H. rewrite <- (app_nil_r l) in H at 1. by apply app_inv_head in H.
Qed.

Lemma Ok_inj {A} (a b : A) : Ok a = Ok b -> a = b.
Proof. congruence. Qed.

Lemma text_inj (a b : pystr) :
  Ok [TextContent a] = Ok [TextContent b] -> a = b.
Proof. congruence. Qed.

Lemma getitem_Ok (d : gmap pystr value) k v :
  getitem d k = Ok v -> d !! k = Some v.
Proof. unfold getitem. destruct (d !! k); congruence. Qed.

Lemma events_add_event st ev : events (add_event st ev) = events st ++ [ev].
Proof. reflexivity. Qed.

Lemma extend_if_given_state a c k f st :
  exists r, Server.extend_if_given a c k f st = (r, st).
Proof.
  unfold Server.extend_if_given, bind, lift, ret.
  destruct (truthy _); [|by eexists]. destruct (getitem a k); by eexists.
Qed.

End RunFacts.

(** ** Following a handler along its paths

    A run of a handler is a nest of case distinctions on what the world
    answers.  [step] splits on the innermost answer still undecided;
    [run_paths] does so to the end, which leaves one goal for each way the
    handler can run, with the answers taken on that way as hypotheses. *)

Ltac inner_scrutinee t :=
  match t with
  | context [match ?x with _ => _ end] => inner_scrutinee x
  | _ => constr:(t)
  end.

Ltac unfold_run :=
  unfold Server.communicate_or_kill in *;
  unfold try_except, try_except_timeout, bind, lift, read, effect, emit, ret,
    raise, TemporaryDirectory, communicate in *.

Ltac step H :=
  repeat match type of H with
    | context [Server.extend_if_given ?a ?c ?k ?f ?s] =>
        let E := fresh "E" in
        destruct (extend_if_given_state a c k f s) as [? E];
        rewrite E in H; clear E
    end;
  match type of H with
  | context [match ?x with _ => _ end] =>
      let y := inner_scrutinee x in destruct y eqn:?
  end; cbn beta iota in H.

(* all the ways a run can end: one goal per path through the handler *)
Ltac run_paths Hrun :=
  unfold_run; cbv zeta in Hrun; repeat step Hrun;
  apply pair_equal_spec in Hrun.

(* the events a path has added *)
Ltac new_events Hev :=
  repeat rewrite events_add_event in Hev;
  repeat rewrite <- app_assoc in Hev;
  first [apply app_inv_head in Hev | apply self_app_nil in Hev];
  cbn [app] in Hev.

Section InterpreterFacts.

Lemma find_first {A} (f : A -> bool) (l : list A) (d : A) :
  List.find f l = Some d <->
  exists pre post, l = pre ++ d :: post /\ f d = true
                   /\ forall x, In x pre -> f x = false.
Proof.
  split.
  - induction l as [|a l IH]; simpl; [done|].
    destruct (f a) eqn:Fa.
    + intros [= ->]. exists [], l. by repeat split.
    + intros H. destruct (IH H) as (pre & post & -> & Fd & Hpre).
      exists (a :: pre), post. repeat split; [done|].
      intros x [<-|Hx]; auto.
  - intros (pre & post & -> & Fd & Hpre).
    induction pre as [|a pre IH]; simpl.
    + by rewrite Fd.
    + rewrite (Hpre a) by (by left). apply IH. intros x Hx. apply Hpre. by right.
Qed.

Lemma find_none_iff {A} (f : A -> bool) (l : list A) :
  List.find f l = None <-> forall x, In x l -> f x = false.
Proof.
  split; [apply find_none|].
  induction l as [|a l IH]; simpl; [done|]. intros H.
  rewrite (H a) by (by left). apply IH. intros x Hx. apply H. by right.
Qed.

Variable env : Env.

Lemma parse_not_found tr output_dir base items :
  iterdir env tr output_dir = Ok items ->
  Server.first_results_dir env tr items base = None ->
  Server._parse_fastqc_results env tr output_dir base
  = Ok Server.results_not_found.
Proof.
  intros Hi Hf. unfold Server._parse_fastqc_results, catch_res, bind_res.
  by rewrite Hi, Hf.
Qed.

Lemma parse_total tr output_dir base :
  exists text, Server._parse_fastqc_results env tr output_dir base = Ok text.
Proof.
  unfold Server._parse_fastqc_results, catch_res.
  match goal with |- context [match ?x with _ => _ end] => destruct x end;
    by eexists.
Qed.

Lemma render_status_line_app (a b line : pystr) :
  Server.render_status_line (a ++ b) line
  = a ++ Server.render_status_line b line.
Proof.
  unfold Server.render_status_line.
  destruct (split tab (strip line)) as [|status [|module rest]]; try done.
  cbv zeta. by rewrite <- app_assoc.
Qed.

Lemma fold_render_app (lines : list pystr) :
  forall a b,
    fold_left Server.render_status_line lines (a ++ b)
    = a ++ fold_left Server.render_status_line lines b.
Proof.
  induction lines as [|line lines IH]; intros a b; [done|].
  cbn [fold_left]. by rewrite render_status_line_app, IH.
Qed.

Lemma basic_stats_step_app (f : bool) (a b line : pystr) :
  Server.basic_stats_step (f, a ++ b) line
  = (fst (Server.basic_stats_step (f, b) line),
     a ++ snd (Server.basic_stats_step (f, b) line)).
Proof.
  unfold Server.basic_stats_step.
  destruct (startswith line (lit ">>Basic Statistics")); [done|].
  destruct (startswith line (lit ">>END_MODULE")); [done|].
  destruct (f && contains line [tab] && negb (startswith line (lit "#")));
    [|done].
  destruct (split tab line) as [|k [|v rest]]; try done.
  cbn [fst snd]. by rewrite <- app_assoc.
Qed.

Lemma fold_stats_app (lines : list pystr) :
  forall f a b,
    fold_left Server.basic_stats_step lines (f, a ++ b)
    = (fst (fold_left Server.basic_stats_step lines (f, b)),
       a ++ snd (fold_left Server.basic_stats_step lines (f, b))).
Proof.
  induction lines as [|line lines IH]; intros f a b; [done|].
  cbn [fold_left]. rewrite basic_stats_step_app, IH.
  by rewrite <- surjective_pairing.
Qed.

Lemma fold_render_from_nil (lines : list pystr) (a : pystr) :
  fold_left Server.render_status_line lines a
  = a ++ fold_left Server.render_status_line lines [].
Proof. by rewrite <- (app_nil_r a) at 1; rewrite fold_render_app. Qed.

Lemma fold_stats_from_nil (lines : list pystr) (f : bool) (a : pystr) :
  snd (fold_left Server.basic_stats_step lines (f, a))
  = a ++ snd (fold_left Server.basic_stats_step lines (f, [])).
Proof. by rewrite <- (app_nil_r a) at 1; rewrite fold_stats_app. Qed.

Lemma parse_unlisted tr output_dir base e :
  iterdir env tr output_dir = Raise e ->
  Server._parse_fastqc_results env tr output_dir base
  = Ok (lit "Error parsing FastQC results: " ++ str_exn e).
Proof.
  intros Hi. unfold Server._parse_fastqc_results, catch_res, bind_res.
  by rewrite Hi.
Qed.

Lemma parse_located_report tr output_dir base items d summary data :
  iterdir env tr output_dir = Ok items ->
  Server.first_results_dir env tr items base = Some d ->
  file_read env tr (pjoin env d (lit "summary.txt")) summary ->
  file_read env tr (pjoin env d (lit "fastqc_data.txt")) data ->
  Server._parse_fastqc_results env tr output_dir base
  = Ok (lit "FastQC Analysis Complete for " ++ base ++ nl
        ++ times 61 50 ++ nl ++ nl
        ++ status_section summary ++ statistics_section data
        ++ nl ++ lit "Output Files:" ++ nl
        ++ lit "  " ++ bullet ++ lit " HTML Report: "
        ++ pjoin env d (lit "fastqc_report.html") ++ nl
        ++ lit "  " ++ bullet ++ lit " Data File: "
        ++ pjoin env d (lit "fastqc_data.txt") ++ nl
        ++ lit "  " ++ bullet ++ lit " Summary: "
        ++ pjoin env d (lit "summary.txt") ++ nl).
Proof.
  intros Hi Hf Hs Hd. unfold file_read in Hs, Hd.
  unfold Server._parse_fastqc_results, catch_res, bind_res.
  rewrite Hi, Hf. cbv zeta.
  destruct (exists_ env tr (pjoin env d (lit "summary.txt")));
    [destruct summary as [s|]; [rewrite Hs|destruct Hs]|subst summary].
  all: destruct (exists_ env tr (pjoin env d (lit "fastqc_data.txt")));
    [destruct data as [c|]; [rewrite Hd|destruct Hd]|subst data].
  all: cbn [status_section statistics_section].
  all: f_equal.
  all: try rewrite fold_stats_from_nil.
  all: try rewrite fold_render_from_nil.
  all: repeat rewrite <- app_assoc; reflexivity.
Qed.

Lemma parse_summary_unreadable tr output_dir base items d e :
  iterdir env tr output_dir = Ok items ->
  Server.first_results_dir env tr items base = Some d ->
  exists_ env tr (pjoin env d (lit "summary.txt")) = true ->
  read_text env tr (pjoin env d (lit "summary.txt")) = Raise e ->
  Server._parse_fastqc_results env tr output_dir base
  = Ok (lit "Error parsing FastQC results: " ++ str_exn e).
Proof.
  intros Hi Hf He Hr.
  unfold Server._parse_fastqc_results, catch_res, bind_res.
  by rewrite Hi, Hf, He, Hr.
Qed.

Lemma parse_data_unreadable tr output_dir base items d summary e :
  iterdir env tr output_dir = Ok items ->
  Server.first_results_dir env tr items base = Some d ->
  file_read env tr (pjoin env d (lit "summary.txt")) summary ->
  exists_ env tr (pjoin env d (lit "fastqc_data.txt")) = true ->
  read_text env tr (pjoin env d (lit "fastqc_data.txt")) = Raise e ->
  Server._parse_fastqc_results env tr output_dir base
  = Ok (lit "Error parsing FastQC results: " ++ str_exn e).
Proof.
  intros Hi Hf Hs He Hr. unfold file_read in Hs.
  unfold Server._parse_fastqc_results, catch_res, bind_res.
  rewrite Hi, Hf. cbv zeta.
  destruct (exists_ env tr (pjoin env d (lit "summary.txt")));
    [destruct summary as [s|]; [rewrite Hs|destruct Hs]|].
  all: by rewrite He, Hr.
Qed.

End InterpreterFacts.

Import Fixture.

(** C1.  For every [fastqc_single] call whose [input_file] exists and
    whose size exceeds [settings.max_file_size], the handler returns the
    error content "File too large. Maximum size: <limit> bytes", which
    names the configured limit, and it returns it in the state it was
    called in: no effect has taken place, so no subprocess was spawned
    before the error was returned. *)
Theorem C1_oversized_input_is_rejected_before_any_subprocess
    (env : Env) (settings : Server.ServerSettings)
    (arguments : gmap pystr value) (st : state)
    (v : value) (input_path : Path) (size : Z) :
  arguments !! lit "input_file" = Some v ->
  mkPath env v = Ok input_path ->
  exists_ env (events st) input_path = true ->
  st_size env (events st) input_path = Ok size ->
  (size > Server.max_file_size settings)%Z ->
  exists text,
    Server._run_fastqc_single env settings arguments st
    = (Ok [ErrorContent text], st)
    /\ text = lit "File too large. Maximum size: "
              ++ str_int (Server.max_file_size settings) ++ lit " bytes"
    /\ contains text (str_int (Server.max_file_size settings)) = true.
Proof.
  intros Ha Hp He Hs Hgt. eexists. split; [|split; [reflexivity|]].
  - unfold Server._run_fastqc_single, try_except, bind, lift, read, getitem.
    rewrite Ha, Hp, He. cbn [negb]. rewrite Hs.
    destruct (Z.gtb_spec size (Server.max_file_size settings)); [done|lia].
  - apply contains_infix.
Qed.

Lemma C1_witness :
  exists text,
    Server._run_fastqc_single (fixture_env hanging_tool) tiny_limit
      single_args fresh
    = (Ok [ErrorContent text], fresh)
    /\ text = lit "File too large. Maximum size: " ++ str_int 4 ++ lit " bytes"
    /\ contains text (str_int 4) = true.
Proof.
  assert (H := C1_oversized_input_is_rejected_before_any_subprocess
                 (fixture_env hanging_tool) tiny_limit single_args fresh
                 (VStr (lit "/data/s1.fastq")) (lit "/data/s1.fastq") 15).
  vm_compute in H. vm_compute. apply H; reflexivity.
Defined.

(** C8.  For every [fastqc_batch] call whose [input_dir] exists and whose
    [file_pattern] (["*.fastq*"] when absent) matches no file in it, the
    handler returns the error content "No files found matching pattern
    '<pattern>' in <input_dir>", which names both the pattern and the
    directory, in the state it was called in: no subprocess was spawned. *)
Theorem C8_unmatched_pattern_is_rejected_before_any_subprocess
    (env : Env) (settings : Server.ServerSettings)
    (arguments : gmap pystr value) (st : state)
    (v : value) (input_dir : Path) :
  arguments !! lit "input_dir" = Some v ->
  mkPath env v = Ok input_dir ->
  exists_ env (events st) input_dir = true ->
  glob env (events st) input_dir
       (get arguments (lit "file_pattern") (VStr (lit "*.fastq*"))) = Ok [] ->
  exists text,
    Server._run_fastqc_batch env settings arguments st
    = (Ok [ErrorContent text], st)
    /\ text = lit "No files found matching pattern '"
              ++ py_str env (get arguments (lit "file_pattern")
                                 (VStr (lit "*.fastq*")))
              ++ lit "' in " ++ input_dir
    /\ contains text (py_str env (get arguments (lit "file_pattern")
                                      (VStr (lit "*.fastq*")))) = true
    /\ contains text input_dir = true.
Proof.
  intros Ha Hp He Hg. eexists. split; [|split; [reflexivity|split]].
  - unfold Server._run_fastqc_batch, try_except, bind, lift, read, getitem.
    rewrite Ha, Hp, He. cbn [negb]. by rewrite Hg.
  - apply contains_infix.
  - rewrite !app_assoc. apply contains_suffix.
Qed.

Lemma C8_witness :
  exists text,
    Server._run_fastqc_batch (fixture_env batch_tool) Server.default_settings
      (<[lit "file_pattern" := VStr (lit "*.bam*")]> batch_args) fresh
    = (Ok [ErrorContent text], fresh)
    /\ text = lit "No files found matching pattern '"
              ++ lit "*.bam*" ++ lit "' in " ++ lit "/data"
    /\ contains text (lit "*.bam*") = true
    /\ contains text (lit "/data") = true.
Proof.
  assert (H := C8_unmatched_pattern_is_rejected_before_any_subprocess
                 (fixture_env batch_tool) Server.default_settings
                 (<[lit "file_pattern" := VStr (lit "*.bam*")]> batch_args)
                 fresh (VStr (lit "/data")) (lit "/data")).
  vm_compute in H. vm_compute. apply H; reflexivity.
Defined.



(** C9.  For every [fastqc_single] run whose subprocess exits with
    status 0, the handler returns text content, never an error, and the
    text is fixed by what the output directory holds when the run is about
    to remove its temporary directory.  When no entry of the output
    directory is a directory whose name contains the stem of the input
    file, the text is "FastQC completed but results directory not found".
    Otherwise the report is on the first such entry, in the order of
    [iterdir()]: the heading with the stem, the section made of its
    summary.txt and the section made of its fastqc_data.txt, each only when
    the file exists, and the paths of its three files.  The text is "Error
    parsing FastQC results: <text of the exception>" exactly when the
    listing of the output directory or the reading of one of the two files
    of that entry raises. *)
Theorem C9_results_directory_is_located_or_reported_missing
    (env : Env) (settings : Server.ServerSettings)
    (arguments : gmap pystr value) (st st' : state)
    (r : res (list content)) (evs : list event) (t : Z) (out err : bytes)
    (tr : trace) (tmpdir : pystr) :
  Server._run_fastqc_single env settings arguments st = (r, st') ->
  events st' = events st ++ evs ->
  In (EvCommunicate t (Ok (out, err, 0%Z))) evs ->
  events st' = tr ++ [EvCleanup tmpdir] ->
  exists tmp v input_path text,
    mkPath env (VStr tmpdir) = Ok tmp
    /\ arguments !! lit "input_file" = Some v
    /\ mkPath env v = Ok input_path
    /\ r = Ok [TextContent text]
    /\ (forall e,
          iterdir env tr (pjoin env tmp (lit "fastqc_output")) = Raise e ->
          text = lit "Error parsing FastQC results: " ++ str_exn e)
    /\ forall items,
         iterdir env tr (pjoin env tmp (lit "fastqc_output")) = Ok items ->
         ((forall item, In item items ->
             is_dir env tr item
             && contains (pname env item) (pstem env input_path) = false) ->
          text = lit "FastQC completed but results directory not found")
         /\
         (forall pre fastqc_dir post,
            items = pre ++ fastqc_dir :: post ->
            is_dir env tr fastqc_dir
            && contains (pname env fastqc_dir) (pstem env input_path) = true ->
            (forall item, In item pre ->
               is_dir env tr item
               && contains (pname env item) (pstem env input_path) = false) ->
            (forall summary data,
               file_read env tr (pjoin env fastqc_dir (lit "summary.txt"))
                 summary ->
               file_read env tr (pjoin env fastqc_dir (lit "fastqc_data.txt"))
                 data ->
               text = lit "FastQC Analysis Complete for "
                      ++ pstem env input_path ++ nl
                      ++ times 61 50 ++ nl ++ nl
                      ++ status_section summary ++ statistics_section data
                      ++ nl ++ lit "Output Files:" ++ nl
                      ++ lit "  " ++ bullet ++ lit " HTML Report: "
                      ++ pjoin env fastqc_dir (lit "fastqc_report.html") ++ nl
                      ++ lit "  " ++ bullet ++ lit " Data File: "
                      ++ pjoin env fastqc_dir (lit "fastqc_data.txt") ++ nl
                      ++ lit "  " ++ bullet ++ lit " Summary: "
                      ++ pjoin env fastqc_dir (lit "summary.txt") ++ nl)
            /\ (forall e,
                  exists_ env tr (pjoin env fastqc_dir (lit "summary.txt"))
                  = true ->
                  read_text env tr (pjoin env fastqc_dir (lit "summary.txt"))
                  = Raise e ->
                  text = lit "Error parsing FastQC results: " ++ str_exn e)
            /\ (forall summary e,
                  file_read env tr (pjoin env fastqc_dir (lit "summary.txt"))
                    summary ->
                  exists_ env tr (pjoin env fastqc_dir (lit "fastqc_data.txt"))
                  = true ->
                  read_text env tr
                    (pjoin env fastqc_dir (lit "fastqc_data.txt"))
                  = Raise e ->
                  text = lit "Error parsing FastQC results: " ++ str_exn e)).
Proof.
  intros Hrun Hev Hin Htr.
  unfold Server._run_fastqc_single in Hrun.
  run_paths Hrun.
  all: destruct Hrun as [<- <-]; new_events Hev; subst evs.
  all: cbn [In] in Hin.
  all: repeat match goal with
         | H : _ \/ _ |- _ => destruct H as [H|H]
         | H : False |- _ => destruct H
         end; try discriminate.
  all: try match goal with
         | H : EvCommunicate _ (Ok _) = EvCommunicate _ (Ok _) |- _ =>
             injection H as ? ? ? ?; subst
         end.
  all: try match goal with
         | H : negb (0 =? 0)%Z = true |- _ => discriminate H
         end.
  - (* the interpreter ran *)
    rewrite events_add_event in Htr. apply app_inj_tail in Htr as [Htr Hc].
    injection Hc as <-. rewrite Htr in *.
    match goal with
    | H : getitem _ _ = Ok _ |- _ => apply getitem_Ok in H
    end.
    match goal with
    | H : Server._parse_fastqc_results _ _ _ _ = Ok ?text |- _ =>
        eexists _, _, _; exists text
    end.
    split; [eassumption|]. split; [eassumption|]. split; [eassumption|].
    split; [reflexivity|].
    split.
    { intros e He.
      match goal with
      | H : Server._parse_fastqc_results _ _ _ _ = Ok _ |- _ =>
          rewrite (parse_unlisted env _ _ _ e He) in H;
          apply Ok_inj in H; by subst
      end. }
    intros items Hitems. split.
    + intros Hnone.
      match goal with
      | H : Server._parse_fastqc_results _ _ _ _ = Ok ?text |- _ =>
          rewrite (parse_not_found env _ _ _ items Hitems) in H;
          [apply Ok_inj in H; by subst|]
      end.
      by apply find_none_iff.
    + intros pre d post -> Hd Hpre.
      match type of Hd with
      | _ && contains _ ?base = true =>
          assert (Hf : Server.first_results_dir env tr (pre ++ d :: post)
                         base = Some d)
            by (apply find_first; by exists pre, post)
      end.
      split; [|split].
      * intros summary data Hs Hdt.
        match goal with
        | H : Server._parse_fastqc_results _ _ _ _ = Ok ?text |- _ =>
            rewrite (parse_located_report env _ _ _ _ d summary data
                       Hitems Hf Hs Hdt) in H;
            apply Ok_inj in H; by subst
        end.
      * intros e He Hr.
        match goal with
        | H : Server._parse_fastqc_results _ _ _ _ = Ok ?text |- _ =>
            rewrite (parse_summary_unreadable env _ _ _ _ d e
                       Hitems Hf He Hr) in H;
            apply Ok_inj in H; by subst
        end.
      * intros summary e Hs He Hr.
        match goal with
        | H : Server._parse_fastqc_results _ _ _ _ = Ok ?text |- _ =>
            rewrite (parse_data_unreadable env _ _ _ _ d summary e
                       Hitems Hf Hs He Hr) in H;
            apply Ok_inj in H; by subst
        end.
  - (* the interpreter never raises *)
    match goal with
    | H : Server._parse_fastqc_results ?e ?tr ?o ?b = Raise _ |- _ =>
        destruct (parse_total e tr o b) as [? E]; rewrite E in H; discriminate
    end.
Qed.

Lemma C9_witness :
  fst (Server._run_fastqc_single (fixture_env reporting_tool)
         Server.default_settings single_args fresh)
  = Ok [TextContent
          (lit "FastQC Analysis Complete for s1" ++ nl
           ++ times 61 50 ++ nl ++ nl
           ++ lit "Module Status Summary:" ++ nl
           ++ lit "  " ++ glyph_pass ++ lit " Basic Statistics: PASS" ++ nl
           ++ lit "  " ++ glyph_warn ++ lit " Per base sequence quality: WARN"
           ++ nl
           ++ lit "  " ++ glyph_fail ++ lit " Adapter Content: FAIL" ++ nl
           ++ nl
           ++ lit "Basic Statistics:" ++ nl
           ++ lit "  " ++ bullet ++ lit " Total Sequences: 250000" ++ nl
           ++ nl ++ lit "Output Files:" ++ nl
           ++ lit "  " ++ bullet
           ++ lit " HTML Report: /tmp/tmpqc/fastqc_output/s1_fastqc/fastqc_report.html"
           ++ nl
           ++ lit "  " ++ bullet
           ++ lit " Data File: /tmp/tmpqc/fastqc_output/s1_fastqc/fastqc_data.txt"
           ++ nl
           ++ lit "  " ++ bullet
           ++ lit " Summary: /tmp/tmpqc/fastqc_output/s1_fastqc/summary.txt"
           ++ nl)].
Proof.
  set (run := Server._run_fastqc_single (fixture_env reporting_tool)
                Server.default_settings single_args fresh).
  destruct (C9_results_directory_is_located_or_reported_missing
              (fixture_env reporting_tool) Server.default_settings single_args
              fresh (snd run) (fst run) (events (snd run)) 1800 [] []
              [EvMkdtemp (lit "/tmp/tmpqc");
               EvMkdir (lit "/tmp/tmpqc/fastqc_output");
               EvSpawnExec
                 [VStr (lit "fastqc"); VStr (lit "--outdir");
                  VStr (lit "/tmp/tmpqc/fastqc_output"); VStr (lit "--threads");
                  VStr (lit "1"); VStr (lit "--extract");
                  VStr (lit "/data/s1.fastq")]
                 None;
               EvCommunicate 1800 (Ok ([], [], 0%Z))]
              (lit "/tmp/tmpqc"))
    as (tmp & v & input_path & text & Htmp & Hv & Hp & Hr & _ & Hitems).
  - apply surjective_pairing.
  - reflexivity.
  - vm_compute. tauto.
  - vm_compute. reflexivity.
  - assert (tmp = lit "/tmp/tmpqc") as ->
      by (apply Ok_inj; rewrite <- Htmp; vm_compute; reflexivity).
    assert (v = VStr (lit "/data/s1.fastq")) as ->
      by (apply (inj Some); rewrite <- Hv; vm_compute; reflexivity).
    assert (input_path = lit "/data/s1.fastq") as ->
      by (apply Ok_inj; rewrite <- Hp; vm_compute; reflexivity).
    destruct (Hitems [lit "/tmp/tmpqc/fastqc_output/s1_fastqc.html";
                      lit "/tmp/tmpqc/fastqc_output/s1_fastqc"])
      as [_ Hlocated]; [vm_compute; reflexivity|].
    destruct (Hlocated [lit "/tmp/tmpqc/fastqc_output/s1_fastqc.html"]
                (lit "/tmp/tmpqc/fastqc_output/s1_fastqc") [])
      as [Hreport _].
    + reflexivity.
    + vm_compute. reflexivity.
    + intros item [<-|[]]. vm_compute. reflexivity.
    + rewrite Hr.
      rewrite (Hreport (Some summary_txt) (Some data_txt));
        vm_compute; reflexivity.
Defined.

(** In that world the run ends with the message, as text content. *)
Example silent_run_reports_missing_results :
  fst (Server._run_fastqc_single (fixture_env silent_tool)
         Server.default_settings single_args fresh)
  = Ok [TextContent (lit "FastQC completed but results directory not found")].
Proof. vm_compute. reflexivity. Qed.

Section BatchFacts.

Lemma fold_add_ones {A} (l : list A) (acc : Z) :
  fold_left Z.add (map (fun _ => 1%Z) l) acc = (acc + Z.of_nat (length l))%Z.
Proof.
  revert acc. induction l as [|x l IH]; intros acc; simpl length; simpl map;
    simpl fold_left.
  - lia.
  - rewrite IH. lia.
Qed.

Lemma count_status_spec (text tag : pystr) :
  Server.count_status (readlines text) tag = lines_beginning_with tag text.
Proof.
  unfold Server.count_status, lines_beginning_with.
  rewrite fold_add_ones. lia.
Qed.

Lemma lines_beginning_with_nonneg (tag text : pystr) :
  (0 <= lines_beginning_with tag text)%Z.
Proof. unfold lines_beginning_with. lia. Qed.

End BatchFacts.

Section BatchSummaryFacts.

Variable env : Env.

Lemma batch_status_spec (warn_count fail_count : Z) :
  (0 <= warn_count)%Z -> (0 <= fail_count)%Z ->
  Server.batch_status warn_count fail_count = glyph_for warn_count fail_count.
Proof.
  intros Hw Hf. unfold Server.batch_status, glyph_for.
  destruct (Z.eqb_spec fail_count 0), (Z.eqb_spec warn_count 0);
    destruct (Z.gtb_spec fail_count 0), (Z.gtb_spec warn_count 0);
    cbn [andb]; first [reflexivity | lia].
Qed.

Lemma summarize_file_found tr output_dir items input_file found
    result total_pass total_warn total_fail :
  iterdir env tr output_dir = Ok items ->
  summary_found env tr items input_file found ->
  Server.summarize_file env tr output_dir
    (result, total_pass, total_warn, total_fail) input_file
  = Ok (result ++ batch_line env input_file found,
        (total_pass + found_count (lit "PASS") found)%Z,
        (total_warn + found_count (lit "WARN") found)%Z,
        (total_fail + found_count (lit "FAIL") found)%Z).
Proof.
  intros Hi Hf. unfold summary_found, file_read in Hf.
  unfold Server.summarize_file, bind_res. rewrite Hi. cbv zeta.
  destruct (Server.first_results_dir env tr items _) as [d|].
  - destruct (exists_ env tr (pjoin env d (lit "summary.txt"))).
    + destruct found as [text|]; [|destruct Hf]. rewrite Hf.
      rewrite !count_status_spec.
      rewrite batch_status_spec by apply lines_beginning_with_nonneg.
      cbn [batch_line found_count]. repeat rewrite <- app_assoc. reflexivity.
    + subst found. cbn [batch_line found_count]. rewrite !Z.add_0_r.
      repeat rewrite <- app_assoc. reflexivity.
  - subst found. cbn [batch_line found_count]. rewrite !Z.add_0_r.
    repeat rewrite <- app_assoc. reflexivity.
Qed.

Lemma fold_summarize_found tr output_dir items files founds :
  iterdir env tr output_dir = Ok items ->
  Forall2 (summary_found env tr items) files founds ->
  forall result total_pass total_warn total_fail,
    fold_left (fun acc input_file =>
                 let? a := acc in
                 Server.summarize_file env tr output_dir a input_file)
              files (Ok (result, total_pass, total_warn, total_fail))
    = Ok (result ++ concat (zip_with (batch_line env) files founds),
          (total_pass + batch_total (lit "PASS") founds)%Z,
          (total_warn + batch_total (lit "WARN") founds)%Z,
          (total_fail + batch_total (lit "FAIL") founds)%Z).
Proof.
  intros Hi. induction 1 as [|file found files founds Hfound _ IH];
    intros result total_pass total_warn total_fail.
  - cbn [fold_left zip_with concat batch_total map fold_right].
    by rewrite app_nil_r, !Z.add_0_r.
  - cbn [fold_left bind_res].
    rewrite (summarize_file_found _ _ _ _ _ _ _ _ _ Hi Hfound), IH.
    cbn [zip_with concat]. unfold batch_total. cbn [map fold_right].
    rewrite <- app_assoc, <- !Z.add_assoc. reflexivity.
Qed.

End BatchSummaryFacts.

(** C6.  For every batch summary over files of which each either has, in
    the first directory of the output directory whose name holds its base
    name, a readable summary.txt, or has no results: the text returned by
    [_summarize_batch_results] has, for each file in turn, a line with the
    numbers of lines of its summary.txt that begin with PASS, WARN and
    FAIL, under the glyph the specification words (the fail glyph when the
    fail count is positive, the warn glyph when the warn count is positive
    and the fail count is zero, the pass glyph otherwise), or the line "No
    results found"; and the three totals are the sums of these numbers.
    The three-line summary.txt of the specification counts 1 pass, 1 warn
    and 1 fail. *)
Theorem C6_batch_counts_lines_by_status_and_picks_the_glyph
    (env : Env) (tr : trace) (output_dir : Path) (files : list Path)
    (items : list Path) (founds : list (option pystr)) :
  iterdir env tr output_dir = Ok items ->
  Forall2 (summary_found env tr items) files founds ->
  Server._summarize_batch_results env tr output_dir files
  = Ok (lit "FastQC Batch Analysis Complete" ++ nl ++ times 61 40 ++ nl ++ nl
        ++ lit "Processed " ++ str_int (Z.of_nat (length files))
        ++ lit " files:" ++ nl ++ nl
        ++ concat (zip_with (batch_line env) files founds)
        ++ nl ++ lit "Overall Summary:" ++ nl
        ++ lit "  " ++ bullet ++ lit " Total PASS: "
        ++ str_int (batch_total (lit "PASS") founds) ++ nl
        ++ lit "  " ++ bullet ++ lit " Total WARN: "
        ++ str_int (batch_total (lit "WARN") founds) ++ nl
        ++ lit "  " ++ bullet ++ lit " Total FAIL: "
        ++ str_int (batch_total (lit "FAIL") founds) ++ nl ++ nl
        ++ lit "Output directory: " ++ output_dir ++ nl
        ++ nl
        ++ lit "Tip: Run multiqc_report on this directory to generate a combined report!"
        ++ nl)
  /\ (forall warn_count fail_count,
        ((fail_count > 0)%Z ->
         glyph_for warn_count fail_count = glyph_fail)
        /\ ((warn_count > 0)%Z -> fail_count = 0%Z ->
            glyph_for warn_count fail_count = glyph_warn)
        /\ (~ (fail_count > 0)%Z -> ~ (warn_count > 0)%Z ->
            glyph_for warn_count fail_count = glyph_pass))
  /\ lines_beginning_with (lit "PASS") summary_txt = 1%Z
  /\ lines_beginning_with (lit "WARN") summary_txt = 1%Z
  /\ lines_beginning_with (lit "FAIL") summary_txt = 1%Z.
Proof.
  intros Hi Hfounds. split.
  2: { split; [|repeat split; vm_compute; reflexivity].
       intros warn_count fail_count. unfold glyph_for.
       destruct (Z.gtb_spec fail_count 0), (Z.gtb_spec warn_count 0);
         repeat split; intros; first [reflexivity | lia]. }
  unfold Server._summarize_batch_results, catch_res. cbv zeta.
  rewrite (fold_summarize_found env _ _ _ _ _ Hi Hfounds).
  cbn [bind_res]. rewrite !Z.add_0_l.
  repeat rewrite <- app_assoc. reflexivity.
Qed.

Lemma C6_witness :
  Server._summarize_batch_results (fixture_env batch_tool)
    [EvCommunicate 1800 (Ok ([], [], 0%Z))]
    (lit "/tmp/tmpqc/fastqc_batch_output") [lit "/data/s1.fastq"]
  = Ok (lit "FastQC Batch Analysis Complete" ++ nl
        ++ lit "========================================" ++ nl ++ nl
        ++ lit "Processed 1 files:" ++ nl ++ nl
        ++ lit "  " ++ glyph_fail ++ lit " s1.fastq: 1P/1W/1F" ++ nl
        ++ nl ++ lit "Overall Summary:" ++ nl
        ++ lit "  " ++ bullet ++ lit " Total PASS: 1" ++ nl
        ++ lit "  " ++ bullet ++ lit " Total WARN: 1" ++ nl
        ++ lit "  " ++ bullet ++ lit " Total FAIL: 1" ++ nl ++ nl
        ++ lit "Output directory: /tmp/tmpqc/fastqc_batch_output" ++ nl
        ++ nl
        ++ lit "Tip: Run multiqc_report on this directory to generate a combined report!"
        ++ nl).
Proof.
  destruct (C6_batch_counts_lines_by_status_and_picks_the_glyph
              (fixture_env batch_tool)
              [EvCommunicate 1800 (Ok ([], [], 0%Z))]
              (lit "/tmp/tmpqc/fastqc_batch_output") [lit "/data/s1.fastq"]
              [lit "/tmp/tmpqc/fastqc_batch_output/s1_fastqc"]
              [Some summary_txt]) as [H _].
  - vm_compute. reflexivity.
  - constructor; [|constructor]. vm_compute. reflexivity.
  - rewrite H. vm_compute. reflexivity.
Defined.

(** The whole summary of a one-file batch. *)
Example batch_of_one_file :
  fst (Server._run_fastqc_batch (fixture_env batch_tool)
         Server.default_settings batch_args fresh)
  = Ok [TextContent
          (lit "FastQC Batch Analysis Complete" ++ nl
           ++ lit "========================================" ++ nl ++ nl
           ++ lit "Processed 1 files:" ++ nl ++ nl
           ++ lit "  " ++ glyph_fail ++ lit " s1.fastq: 1P/1W/1F" ++ nl
           ++ nl ++ lit "Overall Summary:" ++ nl
           ++ lit "  " ++ bullet ++ lit " Total PASS: 1" ++ nl
           ++ lit "  " ++ bullet ++ lit " Total WARN: 1" ++ nl
           ++ lit "  " ++ bullet ++ lit " Total FAIL: 1" ++ nl ++ nl
           ++ lit "Output directory: /tmp/tmpqc/fastqc_batch_output" ++ nl
           ++ nl
           ++ lit "Tip: Run multiqc_report on this directory to generate a combined report!"
           ++ nl)].
Proof. vm_compute. reflexivity. Qed.

(** C4, as stated, fails on the code: a general-statistics file of six
    characters ("Sample") is shorter than 1,000 characters, and the excerpt
    returned for it is "Sample...", not the content of the file. *)
Lemma C4_short_file_gets_the_marker_too :
  (length (lit "Sample") < 1000)%nat
  /\ read_text (fixture_env multiqc_tool)
       [EvCommunicate 1800 (Ok ([], [], 0%Z))]
       (lit "/tmp/tmpqc/multiqc_output/multiqc_data/multiqc_general_stats.txt")
     = Ok (lit "Sample")
  /\ fst (Server._run_multiqc (fixture_env multiqc_tool)
            Server.default_settings multiqc_args fresh)
     = Ok [TextContent
             (lit "MultiQC report generated successfully!" ++ nl ++ nl
              ++ lit "Report: /tmp/tmpqc/multiqc_output/multiqc_report.html"
              ++ nl
              ++ lit "Data directory: /tmp/tmpqc/multiqc_output/multiqc_data"
              ++ nl ++ nl
              ++ nl ++ lit "General Statistics:" ++ nl ++ lit "Sample...")]
  /\ Server.stats_excerpt (lit "Sample") = lit "Sample..."
  /\ Server.stats_excerpt (lit "Sample") <> lit "Sample".
Proof.
  vm_compute. repeat split; try reflexivity; [lia | discriminate].
Qed.

(** C4, amended.  For every [multiqc_report] run that returns text and
    whose data directory holds multiqc_general_stats.txt, the text ends
    with "General Statistics:", a line break, the first 1,000 characters of
    the file and the marker "...": the whole content and the marker when
    the file has at most 1,000 characters, exactly 1,000 characters and the
    marker when it has more. *)
Theorem C4_excerpt_is_the_first_1000_characters_and_a_marker
    (env : Env) (settings : Server.ServerSettings)
    (arguments : gmap pystr value) (st st' : state) (text : pystr) :
  Server._run_multiqc env settings arguments st
  = (Ok [TextContent text], st') ->
  exists tr tmpdir tmp,
    events st' = tr ++ [EvCleanup tmpdir]
    /\ mkPath env (VStr tmpdir) = Ok tmp
    /\ (exists_ env tr
          (pjoin env (pjoin env (pjoin env tmp (lit "multiqc_output"))
                            (lit "multiqc_data"))
                 (lit "multiqc_general_stats.txt")) = true ->
        exists stats body,
          read_text env tr
            (pjoin env (pjoin env (pjoin env tmp (lit "multiqc_output"))
                              (lit "multiqc_data"))
                   (lit "multiqc_general_stats.txt")) = Ok stats
          /\ text = body ++ nl ++ lit "General Statistics:" ++ nl
                    ++ take 1000 stats ++ lit "..."
          /\ (length stats <= 1000 -> take 1000 stats = stats)
          /\ (1000 < length stats -> length (take 1000 stats) = 1000)).
Proof.
  intros Hrun.
  unfold Server._run_multiqc in Hrun.
  run_paths Hrun.
  all: destruct Hrun as [Hr <-]; try discriminate Hr.
  all: apply text_inj in Hr; subst text.
  all: eexists _, _, _; split; [apply events_add_event|];
    split; [eassumption|]; intros Hex; try congruence.
  all: match goal with
       | H : read_text _ _ _ = Ok ?stats |- _ => exists stats
       end.
  all: eexists; split; [eassumption|]; split;
    [unfold Server.stats_excerpt, slice_to; reflexivity|].
  all: split; intros Hlen; [by apply take_ge | rewrite length_take; lia].
Qed.

Lemma C4_witness :
  exists tr tmpdir tmp,
    events (snd (Server._run_multiqc (fixture_env multiqc_tool)
                   Server.default_settings multiqc_args fresh))
    = tr ++ [EvCleanup tmpdir]
    /\ mkPath (fixture_env multiqc_tool) (VStr tmpdir) = Ok tmp
    /\ (exists_ (fixture_env multiqc_tool) tr
          (pjoin (fixture_env multiqc_tool)
             (pjoin (fixture_env multiqc_tool)
                (pjoin (fixture_env multiqc_tool) tmp (lit "multiqc_output"))
                (lit "multiqc_data"))
             (lit "multiqc_general_stats.txt")) = true ->
        exists stats body,
          read_text (fixture_env multiqc_tool) tr
            (pjoin (fixture_env multiqc_tool)
               (pjoin (fixture_env multiqc_tool)
                  (pjoin (fixture_env multiqc_tool) tmp (lit "multiqc_output"))
                  (lit "multiqc_data"))
               (lit "multiqc_general_stats.txt")) = Ok stats
          /\ lit "MultiQC report generated successfully!" ++ nl ++ nl
             ++ lit "Report: /tmp/tmpqc/multiqc_output/multiqc_report.html"
             ++ nl
             ++ lit "Data directory: /tmp/tmpqc/multiqc_output/multiqc_data"
             ++ nl ++ nl
             ++ nl ++ lit "General Statistics:" ++ nl ++ lit "Sample..."
             = body ++ nl ++ lit "General Statistics:" ++ nl
               ++ take 1000 stats ++ lit "..."
          /\ (length stats <= 1000 -> take 1000 stats = stats)
          /\ (1000 < length stats -> length (take 1000 stats) = 1000)).
Proof.
  set (run := Server._run_multiqc (fixture_env multiqc_tool)
                Server.default_settings multiqc_args fresh).
  apply (C4_excerpt_is_the_first_1000_characters_and_a_marker
           (fixture_env multiqc_tool) Server.default_settings multiqc_args
           fresh (snd run)).
  vm_compute. reflexivity.
Defined.

Section QueueFacts.

Lemma queue_keys_distinct :
  lit "priority" <> lit "tags"
  /\ lit "priority" <> lit "notification_email"
  /\ lit "tags" <> lit "notification_email".
Proof. repeat split; intros H; vm_compute in H; discriminate. Qed.

Lemma endswith_spec (s suffix : pystr) :
  endswith s suffix = true -> s = slice_to_neg (length suffix) s ++ suffix.
Proof.
  unfold endswith, slice_to_neg. intros H.
  apply startswith_spec in H as [r Hr].
  apply (f_equal (@rev N)) in Hr.
  rewrite rev_involutive, rev_app_distr, rev_involutive in Hr. subst s.
  rewrite length_app, Nat.add_sub, take_app_length. reflexivity.
Qed.

Lemma assoc_configs_none (base : pystr) :
  base <> lit "fastqc_single" ->
  base <> lit "fastqc_batch" ->
  base <> lit "multiqc_report" ->
  Queue.assoc base Queue.async_tool_configs = None.
Proof.
  intros H1 H2 H3. unfold Queue.async_tool_configs, Queue.assoc, str_eqb.
  rewrite !bool_decide_eq_false_2 by congruence. reflexivity.
Qed.

End QueueFacts.

(** C7.  For every async submission, the job is submitted with the
    arguments less the keys priority, tags and notification_email as its
    parameters (every other key keeps its value), with the priority found
    under priority (5 when absent) and the tags found under tags (the empty
    list when absent); through [call_tool], each of fastqc_single_async,
    fastqc_batch_async and multiqc_report_async submits under the job type
    of its base name. *)
Theorem C7_async_submission_forwards_what_is_left_of_the_arguments
    (env : Env) (queue : Queue.QueueIntegration)
    (tool_name job_type : pystr) (arguments : gmap pystr value) (st : state) :
  events (snd (Queue._handle_async_tool queue tool_name job_type arguments st))
  = events st
    ++ [EvSubmitJob job_type (without_queue_keys arguments)
          (default (VInt 5) (arguments !! lit "priority"))
          (default (VList []) (arguments !! lit "tags"))]
  /\ without_queue_keys arguments !! lit "priority" = None
  /\ without_queue_keys arguments !! lit "tags" = None
  /\ without_queue_keys arguments !! lit "notification_email" = None
  /\ (forall k,
        k <> lit "priority" -> k <> lit "tags" ->
        k <> lit "notification_email" ->
        without_queue_keys arguments !! k = arguments !! k)
  /\ (forall base,
        In base [lit "fastqc_single"; lit "fastqc_batch"; lit "multiqc_report"] ->
        events (snd (Queue.call_tool env queue (base ++ lit "_async")
                       arguments st))
        = events st
          ++ [EvSubmitJob base (without_queue_keys arguments)
                (default (VInt 5) (arguments !! lit "priority"))
                (default (VList []) (arguments !! lit "tags"))]).
Proof.
  destruct queue_keys_distinct as (Hpt & Hpn & Htn).
  assert (Hsub : forall tn jt,
    events (snd (Queue._handle_async_tool queue tn jt arguments st))
    = events st
      ++ [EvSubmitJob jt (without_queue_keys arguments)
            (default (VInt 5) (arguments !! lit "priority"))
            (default (VList []) (arguments !! lit "tags"))]).
  { intros tn jt.
    unfold Queue._handle_async_tool, Queue.pop, get, try_except, bind, lift, ret.
    rewrite lookup_delete_ne by done.
    destruct (Queue.submit_job _ _ _ _ _ _); [|reflexivity].
    cbn beta iota. destruct (Queue.format_job_status _ _); reflexivity. }
  split; [apply Hsub|].
  unfold without_queue_keys.
  split; [by rewrite !lookup_delete_ne, lookup_delete_eq by done|].
  split; [by rewrite lookup_delete_ne, lookup_delete_eq by done|].
  split; [by rewrite lookup_delete_eq|].
  split; [intros k H1 H2 H3; by rewrite !lookup_delete_ne by done|].
  intros base Hbase.
  assert (Hend : endswith (base ++ lit "_async") (lit "_async") = true).
  { unfold endswith. rewrite rev_app_distr. apply startswith_app. }
  assert (Hcut : slice_to_neg 6 (base ++ lit "_async") = base).
  { unfold slice_to_neg. rewrite length_app.
    replace (length (lit "_async")) with 6 by (vm_compute; reflexivity).
    rewrite Nat.add_sub. apply take_app_length. }
  unfold Queue.call_tool. rewrite Hend, Hcut.
  assert (Hcfg : exists config,
            Queue.assoc base Queue.async_tool_configs = Some config
            /\ Queue.job_type config = base).
  { cbn [In] in Hbase. destruct Hbase as [<-|[<-|[<-|[]]]];
      vm_compute; eexists; split; reflexivity. }
  destruct Hcfg as (config & -> & Hjt).
  unfold bind, ret. rewrite Hjt.
  specialize (Hsub base base).
  destruct (Queue._handle_async_tool queue base base arguments st)
    as [[c|e] s]; exact Hsub.
Qed.

Lemma C7_witness :
  events
    (snd (Queue.call_tool (fixture_env silent_tool) accepting_queue
            (lit "fastqc_single_async")
            (<[lit "priority" := VInt 9]>
               (<[lit "tags" := VList [VStr (lit "urgent")]]>
                  (<[lit "threads" := VInt 2]> single_args)))
            fresh))
  = [EvSubmitJob (lit "fastqc_single")
       (<[lit "threads" := VInt 2]> single_args)
       (VInt 9) (VList [VStr (lit "urgent")])].
Proof.
  pose proof (C7_async_submission_forwards_what_is_left_of_the_arguments
                (fixture_env silent_tool) accepting_queue
                (lit "fastqc_single") (lit "fastqc_single")
                (<[lit "priority" := VInt 9]>
                   (<[lit "tags" := VList [VStr (lit "urgent")]]>
                      (<[lit "threads" := VInt 2]> single_args)))
                fresh) as (_ & _ & _ & _ & _ & H).
  specialize (H (lit "fastqc_single") (or_introl eq_refl)).
  vm_compute in H. vm_compute. exact H.
Defined.

(** C10.  For every call of the queue-backed [call_tool] whose name ends
    in "_async" and whose base name (the name less its last six characters)
    is none of fastqc_single, fastqc_batch and multiqc_report, the handler
    returns [None] in the state it was called in: no content, no error, no
    submission and no delegation to the synchronous handler. *)
Theorem C10_unknown_async_name_falls_through
    (env : Env) (queue : Queue.QueueIntegration)
    (name : pystr) (arguments : gmap pystr value) (st : state) :
  endswith name (lit "_async") = true ->
  slice_to_neg 6 name <> lit "fastqc_single" ->
  slice_to_neg 6 name <> lit "fastqc_batch" ->
  slice_to_neg 6 name <> lit "multiqc_report" ->
  name = slice_to_neg 6 name ++ lit "_async"
  /\ Queue.call_tool env queue name arguments st = (Ok None, st).
Proof.
  intros Hend H1 H2 H3. split.
  - apply (endswith_spec name (lit "_async")), Hend.
  - unfold Queue.call_tool. rewrite Hend, assoc_configs_none by done.
    reflexivity.
Qed.

Lemma C10_witness :
  lit "fastqc_trim_async" = lit "fastqc_trim" ++ lit "_async"
  /\ Queue.call_tool (fixture_env silent_tool) accepting_queue
       (lit "fastqc_trim_async") single_args fresh
     = (Ok None, fresh).
Proof.
  assert (H := C10_unknown_async_name_falls_through
                 (fixture_env silent_tool) accepting_queue
                 (lit "fastqc_trim_async") single_args fresh).
  vm_compute in H. vm_compute. apply H; [reflexivity|discriminate..].
Defined.


Section EnhancedFacts.

Variable env : Env.
Variable detector : Enhanced.ToolDetector.
Variable settings : Enhanced.ServerSettings.

Lemma logged_refl st : logged st st.
Proof. exists []. by rewrite app_nil_r. Qed.

Lemma logged_trans st1 st2 st3 : logged st1 st2 -> logged st2 st3 -> logged st1 st3.
Proof.
  intros (e1 & H1 & L1) (e2 & H2 & L2). exists (e1 ++ e2).
  rewrite H2, H1, app_assoc, forallb_app, L1, L2. done.
Qed.

Lemma logged_add st level msg : logged st (add_event st (EvLog level msg)).
Proof. by exists [EvLog level msg]. Qed.

Lemma parse_preferred_modes_logged strs :
  forall preferred st r st',
    Enhanced.parse_preferred_modes env strs preferred st = (r, st') ->
    logged st st'.
Proof.
  induction strs as [|mode_str rest IH]; intros preferred st r st' H.
  - injection H as _ <-. apply logged_refl.
  - cbn [Enhanced.parse_preferred_modes] in H.
    destruct (mode_of_value _).
    + by eapply IH.
    + unfold bind, emit in H. eapply logged_trans; [apply logged_add|].
      eapply IH, H.
Qed.

Lemma detect_tool_logged tool_name st r st' :
  Enhanced._detect_tool env detector settings tool_name st = (r, st') ->
  logged st st'.
Proof.
  unfold Enhanced._detect_tool, bind at 1.
  destruct (match Enhanced.execution_mode settings with _ => _ end st)
    as [[force_mode|e] st1] eqn:E1.
  2: { intros [= _ <-]. revert E1.
       destruct (Enhanced.execution_mode settings) as [s|];
         [destruct (truthy (VStr s)); [destruct (mode_of_value _)|]|];
         unfold bind, emit, ret; intros [= ]. }
  assert (L1 : logged st st1).
  { revert E1.
    destruct (Enhanced.execution_mode settings) as [s|];
      [destruct (truthy (VStr s)); [destruct (mode_of_value _)|]|];
      unfold bind, emit, ret; intros [= _ <-];
      first [apply logged_refl | apply logged_add]. }
  unfold bind.
  destruct (Enhanced.parse_preferred_modes _ _ _ st1) as [[preferred|e] st2] eqn:E2.
  - unfold read. intros [= _ <-].
    eapply logged_trans; [exact L1|]. eapply parse_preferred_modes_logged, E2.
  - intros [= _ <-].
    eapply logged_trans; [exact L1|]. eapply parse_preferred_modes_logged, E2.
Qed.

Lemma get_fastqc_info_logged st r st' :
  Enhanced._get_fastqc_info env detector settings st = (r, st') -> logged st st'.
Proof.
  unfold Enhanced._get_fastqc_info.
  destruct (self_fastqc_info st); [intros [= _ <-]; apply logged_refl|].
  unfold bind at 1.
  destruct (Enhanced._detect_tool _ _ _ _ st) as [[info|e] st1] eqn:E.
  - unfold bind, Enhanced.set_fastqc_info, ret. intros [= _ <-].
    apply detect_tool_logged in E. exact E.
  - intros [= _ <-]. eapply detect_tool_logged, E.
Qed.

Lemma get_multiqc_info_logged st r st' :
  Enhanced._get_multiqc_info env detector settings st = (r, st') -> logged st st'.
Proof.
  unfold Enhanced._get_multiqc_info.
  destruct (self_multiqc_info st); [intros [= _ <-]; apply logged_refl|].
  unfold bind at 1.
  destruct (Enhanced._detect_tool _ _ _ _ st) as [[info|e] st1] eqn:E.
  - unfold bind, Enhanced.set_multiqc_info, ret. intros [= _ <-].
    apply detect_tool_logged in E. exact E.
  - intros [= _ <-]. eapply detect_tool_logged, E.
Qed.


Lemma logged_events st st' :
  logged st st' ->
  exists evs, events st' = events st ++ evs
              /\ existsb is_kill evs = false
              /\ existsb is_copy evs = false
              /\ (forall t o, ~ In (EvCommunicate t o) evs)
              /\ (forall ev, In ev evs -> is_spawn ev = false).
Proof.
  intros (evs & H & L). exists evs. split; [done|].
  clear H. induction evs as [|ev evs IH].
  { repeat split; [intros ? ? []|intros ? []]. }
  cbn [forallb] in L. apply andb_prop in L as [Lev L].
  destruct (IH L) as (K & C & N & S). destruct ev; try discriminate Lev.
  cbn [existsb is_kill is_copy orb]. repeat split; [done..| |].
  - intros t o [H|H]; [discriminate|]. by eapply N.
  - intros ev [<-|H]; [done|]. by apply S.
Qed.

(** What [_execute_tool_command] does: it logs, spawns at most one
    subprocess and, when it waits for it, answers with what the wait gave. *)
Lemma execute_tool_command_events tool_name tool_args tmpdir st r st' :
  Enhanced._execute_tool_command env detector settings tool_name tool_args
    tmpdir st = (r, st') ->
  exists evs,
    events st' = events st ++ evs
    /\ existsb is_kill evs = false
    /\ existsb is_copy evs = false
    /\ (forall t o, In (EvCommunicate t o) evs -> r = o)
    /\ (forall ev, In ev evs -> is_spawn ev = true ->
          spawned_from detector tool_args tmpdir ev).
Proof.
  unfold Enhanced._execute_tool_command, bind at 1.
  destruct ((if str_eqb tool_name (lit "fastqc")
             then Enhanced._get_fastqc_info env detector settings
             else Enhanced._get_multiqc_info env detector settings) st)
    as [[tool_info|e] st1] eqn:E1.
  all: assert (L1 : logged st st1)
    by (destruct (str_eqb tool_name (lit "fastqc"));
        [eapply get_fastqc_info_logged | eapply get_multiqc_info_logged];
        exact E1).
  all: apply logged_events in L1 as (evs1 & H1 & K1 & C1 & N1 & S1).
  2: { intros [= _ <-]. exists evs1. repeat split; try done.
       - intros t o Hin. by apply N1 in Hin.
       - intros ev Hin Hsp. by rewrite (S1 ev Hin) in Hsp. }
  destruct (mode_eqb (mode tool_info) UNAVAILABLE).
  { unfold raise. intros [= _ <-]. exists evs1. repeat split; try done.
    - intros t o Hin. by apply N1 in Hin.
    - intros ev Hin Hsp. by rewrite (S1 ev Hin) in Hsp. }
  intros Hrun. unfold bind, lift, emit, effect, communicate, ret in Hrun.
  destruct (Enhanced.get_execution_command detector tool_info tool_args)
    as [cmd|e] eqn:Ecmd.
  2: { injection Hrun as _ <-. exists evs1. repeat split; try done.
       - intros t o Hin. by apply N1 in Hin.
       - intros ev Hin Hsp. by rewrite (S1 ev Hin) in Hsp. }
  destruct (join_values (lit " ") cmd 0) as [shown|e] eqn:Eshown.
  2: { injection Hrun as _ <-. exists evs1. repeat split; try done.
       - intros t o Hin. by apply N1 in Hin.
       - intros ev Hin Hsp. by rewrite (S1 ev Hin) in Hsp. }
  destruct (mode_eqb (mode tool_info) MODULE || mode_eqb (mode tool_info) LMOD).
  - destruct (create_subprocess_shell _ _ _ _).
    + injection Hrun as <- <-. eexists (evs1 ++ [_; _; _]).
      rewrite !events_add_event, H1, <- !app_assoc. split; [reflexivity|].
      rewrite !existsb_app, K1, C1. repeat split; try reflexivity.
      * intros t o Hin. apply in_app_or in Hin as [Hin|Hin];
          [by apply N1 in Hin|].
        cbn [In] in Hin. destruct Hin as [?|[?|[Hin|[]]]]; try discriminate.
        by injection Hin as _ <-.
      * intros ev Hin Hsp. apply in_app_or in Hin as [Hin|Hin];
          [by rewrite (S1 ev Hin) in Hsp|].
        cbn [In] in Hin. destruct Hin as [<-|[<-|[<-|[]]]]; try discriminate.
        exists tool_info, cmd. split; [done|]. right. by eexists.
    + injection Hrun as _ <-. eexists (evs1 ++ [_]).
      rewrite !events_add_event, H1, <- !app_assoc. split; [reflexivity|].
      rewrite !existsb_app, K1, C1. repeat split; try reflexivity.
      * intros t o Hin. apply in_app_or in Hin as [Hin|Hin];
          [by apply N1 in Hin|].
        cbn [In] in Hin. destruct Hin as [?|[]]; discriminate.
      * intros ev Hin Hsp. apply in_app_or in Hin as [Hin|Hin];
          [by rewrite (S1 ev Hin) in Hsp|].
        cbn [In] in Hin. destruct Hin as [<-|[]]; discriminate.
  - destruct (create_subprocess_exec _ _ _ _).
    + injection Hrun as <- <-. eexists (evs1 ++ [_; _; _]).
      rewrite !events_add_event, H1, <- !app_assoc. split; [reflexivity|].
      rewrite !existsb_app, K1, C1. repeat split; try reflexivity.
      * intros t o Hin. apply in_app_or in Hin as [Hin|Hin];
          [by apply N1 in Hin|].
        cbn [In] in Hin. destruct Hin as [?|[?|[Hin|[]]]]; try discriminate.
        by injection Hin as _ <-.
      * intros ev Hin Hsp. apply in_app_or in Hin as [Hin|Hin];
          [by rewrite (S1 ev Hin) in Hsp|].
        cbn [In] in Hin. destruct Hin as [<-|[<-|[<-|[]]]]; try discriminate.
        exists tool_info, cmd. split; [done|]. by left.
    + injection Hrun as _ <-. eexists (evs1 ++ [_]).
      rewrite !events_add_event, H1, <- !app_assoc. split; [reflexivity|].
      rewrite !existsb_app, K1, C1. repeat split; try reflexivity.
      * intros t o Hin. apply in_app_or in Hin as [Hin|Hin];
          [by apply N1 in Hin|].
        cbn [In] in Hin. destruct Hin as [?|[]]; discriminate.
      * intros ev Hin Hsp. apply in_app_or in Hin as [Hin|Hin];
          [by rewrite (S1 ev Hin) in Hsp|].
        cbn [In] in Hin. destruct Hin as [<-|[]]; discriminate.
Qed.

End EnhancedFacts.

(* membership in an event list put together with [::] and [++] *)
Ltac in_cases :=
  repeat match goal with
    | H : In _ (_ ++ _) |- _ => apply in_app_or in H as [H|H]
    | H : In _ (_ :: _) |- _ => destruct H as [H|H]
    | H : In _ [] |- _ => destruct H
    end.



(** X3.  No run of the enhanced [multiqc] operation writes a copy of
    anything, and every subprocess it starts runs the command the detector
    makes of tool arguments that end with the input directory itself. *)
Theorem enhanced_multiqc_never_stages_its_input
    (env : Env) (detector : Enhanced.ToolDetector)
    (settings : Enhanced.ServerSettings) (arguments : gmap pystr value)
    (st st' : state) (r : res (list content)) (evs : list event) :
  Enhanced._run_multiqc env detector settings arguments st = (r, st') ->
  events st' = events st ++ evs ->
  existsb is_copy evs = false
  /\ forall ev, In ev evs -> is_spawn ev = true ->
       exists v input_dir tmpdir tool_args,
         arguments !! lit "input_dir" = Some v
         /\ mkPath env v = Ok input_dir
         /\ last tool_args = Some (VStr input_dir)
         /\ spawned_from detector tool_args tmpdir ev.
Proof.
  intros Hrun Hev.
  unfold Enhanced._run_multiqc in Hrun.
  run_paths Hrun.
  all: destruct Hrun as [<- <-].
  all: try match goal with
         | H : Enhanced._execute_tool_command _ _ _ _ _ _ _ = _ |- _ =>
             apply execute_tool_command_events in H
               as (evs1 & Hs & K1 & C1 & N1 & S1);
             rewrite !events_add_event, Hs, !events_add_event in Hev
         end.
  all: new_events Hev; subst evs.
  all: split;
    [cbn [existsb is_copy orb]; try reflexivity; by rewrite existsb_app, C1|].
  all: intros ev Hin Hsp; in_cases; subst; try discriminate.
  all: match goal with
       | H : getitem _ _ = Ok _ |- _ => apply getitem_Ok in H
       end.
  all: eexists _, _, _, _; split; [eassumption|]; split; [eassumption|];
    split; [|by apply S1]; apply last_snoc.
Qed.

(** X4.  Every subprocess a run of the enhanced [fastqc] operation starts
    comes after the bytes of the input file were written to a file of the
    same name in the temporary directory, and runs the command the detector
    makes of tool arguments that end with the path of that copy. *)
Theorem enhanced_fastqc_stages_its_input
    (env : Env) (detector : Enhanced.ToolDetector)
    (settings : Enhanced.ServerSettings) (arguments : gmap pystr value)
    (st st' : state) (r : res (list content)) (evs : list event) :
  Enhanced._run_fastqc env detector settings arguments st = (r, st') ->
  events st' = events st ++ evs ->
  forall ev, In ev evs -> is_spawn ev = true ->
    exists v input_file tmpdir tmp data tool_args pre post,
      arguments !! lit "input_file" = Some v
      /\ mkPath env v = Ok input_file
      /\ mkPath env (VStr tmpdir) = Ok tmp
      /\ read_bytes env (events st ++ [EvMkdtemp tmpdir]) input_file = Ok data
      /\ evs = pre ++ ev :: post
      /\ In (EvWriteBytes (pjoin env tmp (pname env input_file)) data) pre
      /\ last tool_args = Some (VStr (pjoin env tmp (pname env input_file)))
      /\ spawned_from detector tool_args tmpdir ev.
Proof.
  intros Hrun Hev.
  unfold Enhanced._run_fastqc in Hrun.
  run_paths Hrun.
  all: destruct Hrun as [<- <-].
  all: try match goal with
         | H : Enhanced._execute_tool_command _ _ _ _ _ _ _ = _ |- _ =>
             apply execute_tool_command_events in H
               as (evs1 & Hs & K1 & C1 & N1 & S1);
             rewrite !events_add_event, Hs, !events_add_event in Hev
         end.
  all: new_events Hev; subst evs.
  all: intros ev Hin Hsp; in_cases; subst; try discriminate.
  all: match goal with
       | H : getitem _ _ = Ok _ |- _ => apply getitem_Ok in H
       end.
  all: destruct (in_split _ _ Hin) as (l1 & l2 & ->).
  all: eexists _, _, _, _, _, _, (_ :: _ :: l1), _.
  all: split; [eassumption|]; split; [eassumption|]; split; [eassumption|].
  all: split; [rewrite <- events_add_event; eassumption|].
  all: split; [rewrite <- app_assoc; reflexivity|].
  all: split; [right; left; reflexivity|].
  all: split; [|apply S1; [apply in_elt|done]].
  all: apply last_snoc.
Qed.



Lemma enhanced_multiqc_never_stages_witness :
  existsb is_copy
    (events (snd (Enhanced._run_multiqc (fixture_env enhanced_multiqc_tool)
                    native_detector Enhanced.default_settings multiqc_args
                    fresh)))
  = false
  /\ exists v input_dir tmpdir tool_args,
       multiqc_args !! lit "input_dir" = Some v
       /\ mkPath (fixture_env enhanced_multiqc_tool) v = Ok input_dir
       /\ last tool_args = Some (VStr input_dir)
       /\ spawned_from native_detector tool_args tmpdir
            (EvSpawnExec
               [VStr (lit "/usr/bin/multiqc"); VStr (lit "-o");
                VStr (lit "/tmp/tmpqc"); VStr (lit "/data/qc")]
               (Some (lit "/tmp/tmpqc"))).
Proof.
  set (run := Enhanced._run_multiqc (fixture_env enhanced_multiqc_tool)
                native_detector Enhanced.default_settings multiqc_args fresh).
  destruct (enhanced_multiqc_never_stages_its_input
              (fixture_env enhanced_multiqc_tool) native_detector
              Enhanced.default_settings multiqc_args fresh (snd run) (fst run)
              (events (snd run))) as [Hcopy Hspawn].
  - apply surjective_pairing.
  - reflexivity.
  - split; [exact Hcopy|]. apply Hspawn; [|reflexivity].
    vm_compute. tauto.
Defined.

Lemma enhanced_fastqc_stages_witness :
  exists v input_file tmpdir tmp data tool_args pre post,
    single_args !! lit "input_file" = Some v
    /\ mkPath (fixture_env enhanced_fastqc_tool) v = Ok input_file
    /\ mkPath (fixture_env enhanced_fastqc_tool) (VStr tmpdir) = Ok tmp
    /\ read_bytes (fixture_env enhanced_fastqc_tool)
         (events fresh ++ [EvMkdtemp tmpdir]) input_file = Ok data
    /\ events (snd (Enhanced._run_fastqc (fixture_env enhanced_fastqc_tool)
                      native_detector Enhanced.default_settings single_args
                      fresh))
       = pre
         ++ EvSpawnExec
              [VStr (lit "/usr/bin/fastqc"); VStr (lit "-o");
               VStr (lit "/tmp/tmpqc"); VStr (lit "-t"); VStr (lit "1");
               VStr (lit "/tmp/tmpqc/s1.fastq")]
              (Some (lit "/tmp/tmpqc"))
         :: post
    /\ In (EvWriteBytes
             (pjoin (fixture_env enhanced_fastqc_tool) tmp
                (pname (fixture_env enhanced_fastqc_tool) input_file))
             data) pre
    /\ last tool_args
       = Some (VStr (pjoin (fixture_env enhanced_fastqc_tool) tmp
                       (pname (fixture_env enhanced_fastqc_tool) input_file)))
    /\ spawned_from native_detector tool_args tmpdir
         (EvSpawnExec
            [VStr (lit "/usr/bin/fastqc"); VStr (lit "-o");
             VStr (lit "/tmp/tmpqc"); VStr (lit "-t"); VStr (lit "1");
             VStr (lit "/tmp/tmpqc/s1.fastq")]
            (Some (lit "/tmp/tmpqc"))).
Proof.
  set (run := Enhanced._run_fastqc (fixture_env enhanced_fastqc_tool)
                native_detector Enhanced.default_settings single_args fresh).
  apply (enhanced_fastqc_stages_its_input
           (fixture_env enhanced_fastqc_tool) native_detector
           Enhanced.default_settings single_args fresh (snd run) (fst run)
           (events (snd run))).
  - apply surjective_pairing.
  - reflexivity.
  - vm_compute. tauto.
  - reflexivity.
Defined.

(** C2, on the code.  The enhanced [multiqc] operation, called on the
    directory /data/qc, copies nothing into its temporary directory and
    runs the tool on /data/qc itself; the enhanced [fastqc] operation, its
    sibling, writes a copy of /data/s1.fastq into the temporary directory
    and runs the tool on the copy. *)
Theorem C2_multiqc_runs_on_the_original_directory :
  events (snd (Enhanced._run_multiqc (fixture_env enhanced_multiqc_tool)
                 native_detector Enhanced.default_settings multiqc_args fresh))
  = [EvMkdtemp (lit "/tmp/tmpqc");
     EvLog INFO
       (lit "Executing multiqc via native: /usr/bin/multiqc -o /tmp/tmpqc /data/qc");
     EvSpawnExec
       [VStr (lit "/usr/bin/multiqc"); VStr (lit "-o"); VStr (lit "/tmp/tmpqc");
        VStr (lit "/data/qc")]
       (Some (lit "/tmp/tmpqc"));
     EvCommunicate 1800 (Ok ([], [], 0%Z));
     EvCleanup (lit "/tmp/tmpqc")]
  /\ existsb is_copy
       (events (snd (Enhanced._run_multiqc
                       (fixture_env enhanced_multiqc_tool) native_detector
                       Enhanced.default_settings multiqc_args fresh)))
     = false
  /\ fst (Enhanced._run_multiqc (fixture_env enhanced_multiqc_tool)
            native_detector Enhanced.default_settings multiqc_args fresh)
     = Ok [TextContent
             (lit "MultiQC completed successfully\nGenerated 1 output files:\n- multiqc_report.html (6 bytes)\n")]
  /\ events (snd (Enhanced._run_fastqc (fixture_env enhanced_fastqc_tool)
                    native_detector Enhanced.default_settings single_args
                    fresh))
     = [EvMkdtemp (lit "/tmp/tmpqc");
        EvWriteBytes (lit "/tmp/tmpqc/s1.fastq") reads_fastq;
        EvLog INFO
          (lit "Executing fastqc via native: /usr/bin/fastqc -o /tmp/tmpqc -t 1 /tmp/tmpqc/s1.fastq");
        EvSpawnExec
          [VStr (lit "/usr/bin/fastqc"); VStr (lit "-o");
           VStr (lit "/tmp/tmpqc"); VStr (lit "-t"); VStr (lit "1");
           VStr (lit "/tmp/tmpqc/s1.fastq")]
          (Some (lit "/tmp/tmpqc"));
        EvCommunicate 1800 (Ok ([], [], 0%Z));
        EvCleanup (lit "/tmp/tmpqc")].
Proof. vm_compute. repeat split; reflexivity. Qed.

(** C3, on the code.  When the subprocess of the enhanced [fastqc]
    operation does not complete within the timeout, [wait_for] raises
    inside [_execute_tool_command], which does not catch it: the handler
    returns the error content "Error: " (the exception has no message),
    which does not name the 1800 seconds of the settings, and no kill is
    among the events.  The enhanced [multiqc] operation does the same.  The
    basic server, in the same world, kills the subprocess and returns
    "FastQC timed out after 1800 seconds". *)
Theorem C3_enhanced_timeout_is_neither_killed_nor_named :
  Enhanced._run_fastqc (fixture_env hanging_tool) native_detector
    Enhanced.default_settings single_args fresh
  = (Ok [ErrorContent (lit "Error: ")],
     {| events :=
          [EvMkdtemp (lit "/tmp/tmpqc");
           EvWriteBytes (lit "/tmp/tmpqc/s1.fastq") reads_fastq;
           EvLog INFO
             (lit "Executing fastqc via native: /usr/bin/fastqc -o /tmp/tmpqc -t 1 /tmp/tmpqc/s1.fastq");
           EvSpawnExec
             [VStr (lit "/usr/bin/fastqc"); VStr (lit "-o");
              VStr (lit "/tmp/tmpqc"); VStr (lit "-t"); VStr (lit "1");
              VStr (lit "/tmp/tmpqc/s1.fastq")]
             (Some (lit "/tmp/tmpqc"));
           EvCommunicate 1800 (Raise TimeoutError);
           EvCleanup (lit "/tmp/tmpqc");
           EvLog ERROR (lit "Error running FastQC: ")];
        self_fastqc_info :=
          Some {| mode := NATIVE;
                  path := Some (lit "/usr/bin/fastqc");
                  version := None;
                  module_name := None;
                  ToolDetection.container_image := None |};
        self_multiqc_info := None |})
  /\ existsb is_kill
       (events (snd (Enhanced._run_fastqc (fixture_env hanging_tool)
                       native_detector Enhanced.default_settings single_args
                       fresh)))
     = false
  /\ contains (lit "Error: ") (str_int (Enhanced.timeout Enhanced.default_settings))
     = false
  /\ fst (Enhanced._run_multiqc (fixture_env hanging_multiqc) native_detector
            Enhanced.default_settings multiqc_args fresh)
     = Ok [ErrorContent (lit "Error: ")]
  /\ existsb is_kill
       (events (snd (Enhanced._run_multiqc (fixture_env hanging_multiqc)
                       native_detector Enhanced.default_settings multiqc_args
                       fresh)))
     = false
  /\ fst (Server._run_fastqc_single (fixture_env hanging_tool)
            Server.default_settings single_args fresh)
     = Ok [ErrorContent (lit "FastQC timed out after 1800 seconds")]
  /\ existsb is_kill
       (events (snd (Server._run_fastqc_single (fixture_env hanging_tool)
                       Server.default_settings single_args fresh)))
     = true.
Proof. vm_compute. repeat split; reflexivity. Qed.

(* --------------------------------------------------------------------- *)
(** ** The basic server: dispatch, errors and the temporary directory *)
(* --------------------------------------------------------------------- *)

Section DispatchFacts.

Variable env : Env.
Variable settings : Server.ServerSettings.

Lemma basic_names_distinct :
  lit "fastqc_single" <> lit "fastqc_batch"
  /\ lit "fastqc_single" <> lit "multiqc_report"
  /\ lit "fastqc_batch" <> lit "multiqc_report".
Proof. repeat split; intros H; vm_compute in H; discriminate. Qed.

Lemma call_tool_single :
  Server.call_tool env settings (lit "fastqc_single")
  = Server._run_fastqc_single env settings.
Proof.
  unfold Server.call_tool, Server.handlers, str_eqb. cbn [List.find fst].
  by rewrite bool_decide_eq_true_2.
Qed.

Lemma call_tool_batch :
  Server.call_tool env settings (lit "fastqc_batch")
  = Server._run_fastqc_batch env settings.
Proof.
  destruct basic_names_distinct as (H1 & H2 & H3).
  unfold Server.call_tool, Server.handlers, str_eqb. cbn [List.find fst].
  rewrite bool_decide_eq_false_2 by done. by rewrite bool_decide_eq_true_2.
Qed.

Lemma call_tool_multiqc :
  Server.call_tool env settings (lit "multiqc_report")
  = Server._run_multiqc env settings.
Proof.
  destruct basic_names_distinct as (H1 & H2 & H3).
  unfold Server.call_tool, Server.handlers, str_eqb. cbn [List.find fst].
  rewrite !bool_decide_eq_false_2 by done. by rewrite bool_decide_eq_true_2.
Qed.

Lemma call_tool_unknown name arguments st :
  ~ In name basic_operations ->
  Server.call_tool env settings name arguments st
  = (Ok [ErrorContent (lit "Unknown tool: " ++ name)], st).
Proof.
  intros H. unfold Server.call_tool, Server.handlers, str_eqb.
  cbn [List.find fst].
  rewrite !bool_decide_eq_false_2; [reflexivity|..];
    intros <-; apply H; cbn; tauto.
Qed.

End DispatchFacts.

(* cases of a call by name *)
Ltac by_operation Hname :=
  cbn [In basic_operations] in Hname;
  destruct Hname as [<-|[<-|[<-|[]]]];
  [rewrite call_tool_single in * | rewrite call_tool_batch in *
   | rewrite call_tool_multiqc in *].

(* the events of each path of a run, in place of [evs] *)
Ltac path_events Hrun Hev :=
  run_paths Hrun; destruct Hrun as [<- <-]; new_events Hev; subst.


Lemma extend_if_given_value a c k f st :
  Server.extend_if_given a c k f st = (Ok (c ++ optional_flag a k f), st).
Proof.
  unfold Server.extend_if_given, optional_flag, get, getitem, bind, lift, ret.
  destruct (a !! k) as [v|]; cbn [default from_option id].
  - destruct (truthy v); [reflexivity|by rewrite app_nil_r].
  - cbn [truthy]. by rewrite app_nil_r.
Qed.

(* [step] with the value of the optional flags kept *)
Ltac step_value H :=
  repeat (rewrite extend_if_given_value in H; cbn beta iota in H);
  match type of H with
  | context [match ?x with _ => _ end] =>
      let y := inner_scrutinee x in destruct y eqn:?
  end; cbn beta iota in H.

(* the paths of a run, the command line kept *)
Ltac path_events_value Hrun Hev :=
  unfold_run; cbv zeta in Hrun; repeat step_value Hrun;
  apply pair_equal_spec in Hrun; destruct Hrun as [<- <-];
  new_events Hev; subst.

(** X5.  For every name, arguments and state, the basic server's
    [call_tool] returns a list of exactly one content item and does not
    raise; for a name other than fastqc_single, fastqc_batch and
    multiqc_report it returns the error content "Unknown tool: <name>" in
    the state it was called in. *)
Theorem basic_call_tool_always_answers_with_one_content
    (env : Env) (settings : Server.ServerSettings) (name : pystr)
    (arguments : gmap pystr value) (st : state) :
  (exists c, fst (Server.call_tool env settings name arguments st) = Ok [c])
  /\ (~ In name basic_operations ->
      Server.call_tool env settings name arguments st
      = (Ok [ErrorContent (lit "Unknown tool: " ++ name)], st)).
Proof.
  split; [|apply call_tool_unknown].
  destruct (decide (In name basic_operations)) as [Hname|Hname].
  2: { rewrite call_tool_unknown by done. by eexists. }
  destruct (Server.call_tool env settings name arguments st) as [r st'] eqn:Hrun.
  by_operation Hname.
  - unfold Server._run_fastqc_single in Hrun. run_paths Hrun.
    all: destruct Hrun as [<- _]; by eexists.
  - unfold Server._run_fastqc_batch in Hrun. run_paths Hrun.
    all: destruct Hrun as [<- _]; by eexists.
  - unfold Server._run_multiqc in Hrun. run_paths Hrun.
    all: destruct Hrun as [<- _]; by eexists.
Qed.



(** X7.  In every run of the basic server's [call_tool], a kill is
    among the events exactly when a timed-out wait for the subprocess is
    among them, and at most one subprocess is started. *)
Theorem basic_subprocess_is_killed_exactly_on_timeout
    (env : Env) (settings : Server.ServerSettings) (name : pystr)
    (arguments : gmap pystr value) (st st' : state)
    (r : res (list content)) (evs : list event) :
  Server.call_tool env settings name arguments st = (r, st') ->
  events st' = events st ++ evs ->
  existsb is_kill evs = existsb is_timeout evs
  /\ (length (List.filter is_spawn evs) <= 1)%nat.
Proof.
  intros Hrun Hev.
  destruct (decide (In name basic_operations)) as [Hname|Hname].
  2: { rewrite call_tool_unknown in Hrun by done. injection Hrun as _ <-.
       apply self_app_nil in Hev as <-. split; [reflexivity|cbn; lia]. }
  by_operation Hname.
  - unfold Server._run_fastqc_single in Hrun. path_events Hrun Hev.
    all: split; [reflexivity|cbn; lia].
  - unfold Server._run_fastqc_batch in Hrun. path_events Hrun Hev.
    all: split; [reflexivity|cbn; lia].
  - unfold Server._run_multiqc in Hrun. path_events Hrun Hev.
    all: split; [reflexivity|cbn; lia].
Qed.

Lemma basic_kill_witness :
  existsb is_kill
    (events (snd (Server.call_tool (fixture_env hanging_tool)
                    Server.default_settings (lit "fastqc_batch") batch_args
                    fresh)))
  = existsb is_timeout
      (events (snd (Server.call_tool (fixture_env hanging_tool)
                      Server.default_settings (lit "fastqc_batch") batch_args
                      fresh)))
  /\ (length (List.filter is_spawn
                (events (snd (Server.call_tool (fixture_env hanging_tool)
                                Server.default_settings (lit "fastqc_batch")
                                batch_args fresh)))) <= 1)%nat.
Proof.
  set (run := Server.call_tool (fixture_env hanging_tool)
                Server.default_settings (lit "fastqc_batch") batch_args fresh).
  apply (basic_subprocess_is_killed_exactly_on_timeout
           (fixture_env hanging_tool) Server.default_settings
           (lit "fastqc_batch") batch_args fresh (snd run) (fst run)
           (events (snd run))).
  - apply surjective_pairing.
  - reflexivity.
Defined.



(** X9.  For each of the three operations of the basic server, a run
    whose subprocess answered with a nonzero exit status kills nothing and
    returns the error content "<tool> failed: <standard error, decoded>";
    when the standard error cannot be decoded it returns the error content
    "Error: <text of the exception>". *)
Theorem basic_failed_tool_is_reported_with_its_standard_error
    (env : Env) (settings : Server.ServerSettings) (name : pystr)
    (arguments : gmap pystr value) (st st' : state)
    (r : res (list content)) (evs : list event)
    (t : Z) (out err : bytes) (returncode : Z) :
  In name basic_operations ->
  Server.call_tool env settings name arguments st = (r, st') ->
  events st' = events st ++ evs ->
  In (EvCommunicate t (Ok (out, err, returncode))) evs ->
  returncode <> 0%Z ->
  existsb is_kill evs = false
  /\ (forall text, decode env err = Ok text ->
        r = Ok [ErrorContent (tool_label name ++ lit " failed: " ++ text)])
  /\ (forall e, decode env err = Raise e ->
        r = Ok [ErrorContent (lit "Error: " ++ str_exn e)]).
Proof.
  intros Hname Hrun Hev Hin Hrc.
  by_operation Hname.
  - unfold Server._run_fastqc_single in Hrun. path_events Hrun Hev.
    all: in_cases; try discriminate.
    all: injection Hin as ? ? ? ?; subst.
    all: try match goal with
           | H : negb (?z =? 0)%Z = false |- _ =>
               apply negb_false_iff, Z.eqb_eq in H; congruence
           end.
    all: split; [reflexivity|].
    all: split; intros x E;
      match goal with
      | H : decode _ _ = _ |- _ =>
          rewrite E in H;
          first [discriminate H | injection H as <-; reflexivity]
      end.
  - unfold Server._run_fastqc_batch in Hrun. path_events Hrun Hev.
    all: in_cases; try discriminate.
    all: injection Hin as ? ? ? ?; subst.
    all: try match goal with
           | H : negb (?z =? 0)%Z = false |- _ =>
               apply negb_false_iff, Z.eqb_eq in H; congruence
           end.
    all: split; [reflexivity|].
    all: split; intros x E;
      match goal with
      | H : decode _ _ = _ |- _ =>
          rewrite E in H;
          first [discriminate H | injection H as <-; reflexivity]
      end.
  - unfold Server._run_multiqc in Hrun. path_events Hrun Hev.
    all: in_cases; try discriminate.
    all: injection Hin as ? ? ? ?; subst.
    all: try match goal with
           | H : negb (?z =? 0)%Z = false |- _ =>
               apply negb_false_iff, Z.eqb_eq in H; congruence
           end.
    all: split; [reflexivity|].
    all: split; intros x E;
      match goal with
      | H : decode _ _ = _ |- _ =>
          rewrite E in H;
          first [discriminate H | injection H as <-; reflexivity]
      end.
Qed.

Lemma basic_failed_tool_witness :
  fst (Server.call_tool (fixture_env failing_tool) Server.default_settings
         (lit "fastqc_single") single_args fresh)
  = Ok [ErrorContent (lit "FastQC failed: Failed to process file")].
Proof.
  set (run := Server.call_tool (fixture_env failing_tool)
                Server.default_settings (lit "fastqc_single") single_args
                fresh).
  destruct (basic_failed_tool_is_reported_with_its_standard_error
              (fixture_env failing_tool) Server.default_settings
              (lit "fastqc_single") single_args fresh (snd run) (fst run)
              (events (snd run)) 1800 [] (lit "Failed to process file") 1)
    as (_ & H & _).
  - cbn. tauto.
  - apply surjective_pairing.
  - reflexivity.
  - vm_compute. tauto.
  - discriminate.
  - rewrite (H (lit "Failed to process file") eq_refl).
    vm_compute. reflexivity.
Defined.

(** X10.  For each of the three operations of the basic server, a call
    whose arguments lack the required key (input_file for fastqc_single,
    input_dir for the other two) returns the error content "Error: '<key>'"
    and its only effect is the log record "Error running <tool>: '<key>'"
    at level ERROR, where <tool> is FastQC, FastQC batch or MultiQC. *)
Theorem basic_missing_required_key_is_an_error
    (env : Env) (settings : Server.ServerSettings) (name : pystr)
    (arguments : gmap pystr value) (st : state) :
  In name basic_operations ->
  arguments !! required_key name = None ->
  Server.call_tool env settings name arguments st
  = (Ok [ErrorContent (lit "Error: '" ++ required_key name ++ lit "'")],
     add_event st
       (EvLog ERROR (lit "Error running " ++ log_label name ++ lit ": '"
                     ++ required_key name ++ lit "'"))).
Proof.
  intros Hname Hkey.
  by_operation Hname.
  - unfold Server._run_fastqc_single, try_except, bind, lift, getitem, emit,
      ret.
    change (required_key (lit "fastqc_single")) with (lit "input_file") in *.
    rewrite Hkey. reflexivity.
  - unfold Server._run_fastqc_batch, try_except, bind, lift, getitem, emit,
      ret.
    change (required_key (lit "fastqc_batch")) with (lit "input_dir") in *.
    rewrite Hkey. reflexivity.
  - unfold Server._run_multiqc, try_except, bind, lift, getitem, emit, ret.
    change (required_key (lit "multiqc_report")) with (lit "input_dir") in *.
    rewrite Hkey. reflexivity.
Qed.

Lemma basic_missing_key_witness :
  Server.call_tool (fixture_env silent_tool) Server.default_settings
    (lit "fastqc_batch") single_args fresh
  = (Ok [ErrorContent (lit "Error: 'input_dir'")],
     add_event fresh (EvLog ERROR (lit "Error running FastQC batch: 'input_dir'"))).
Proof.
  assert (H := basic_missing_required_key_is_an_error
                 (fixture_env silent_tool) Server.default_settings
                 (lit "fastqc_batch") single_args fresh).
  vm_compute in H. vm_compute. apply H; [tauto|reflexivity].
Defined.

(** X11.  For each of the three operations of the basic server, a call
    whose input path does not exist returns the error content "Input file
    not found: <path>" (fastqc_single) or "Input directory not found:
    <path>" (the other two) in the state it was called in: no temporary
    directory, no subprocess, no log record. *)
Theorem basic_missing_input_is_reported_before_anything_is_done
    (env : Env) (settings : Server.ServerSettings) (name : pystr)
    (arguments : gmap pystr value) (st : state) (v : value) (p : Path) :
  In name basic_operations ->
  arguments !! required_key name = Some v ->
  mkPath env v = Ok p ->
  exists_ env (events st) p = false ->
  Server.call_tool env settings name arguments st
  = (Ok [ErrorContent (input_noun name ++ lit " not found: " ++ p)], st).
Proof.
  intros Hname Hkey Hp Hex.
  by_operation Hname.
  - unfold Server._run_fastqc_single, try_except, bind, lift, getitem, read,
      ret.
    change (required_key (lit "fastqc_single")) with (lit "input_file") in *.
    rewrite Hkey, Hp, Hex. reflexivity.
  - unfold Server._run_fastqc_batch, try_except, bind, lift, getitem, read,
      ret.
    change (required_key (lit "fastqc_batch")) with (lit "input_dir") in *.
    rewrite Hkey, Hp, Hex. reflexivity.
  - unfold Server._run_multiqc, try_except, bind, lift, getitem, read, ret.
    change (required_key (lit "multiqc_report")) with (lit "input_dir") in *.
    rewrite Hkey, Hp, Hex. reflexivity.
Qed.

Lemma basic_missing_input_witness :
  Server.call_tool (fixture_env silent_tool) Server.default_settings
    (lit "multiqc_report") multiqc_args fresh
  = (Ok [ErrorContent (lit "Input directory not found: /data/qc")], fresh).
Proof.
  assert (H := basic_missing_input_is_reported_before_anything_is_done
                 (fixture_env silent_tool) Server.default_settings
                 (lit "multiqc_report") multiqc_args fresh
                 (VStr (lit "/data/qc")) (lit "/data/qc")).
  vm_compute in H. vm_compute. apply H; [tauto|reflexivity..].
Defined.

(* --------------------------------------------------------------------- *)
(** ** The basic server: the command lines *)
(* --------------------------------------------------------------------- *)

(** X12.  Every subprocess a run of [_run_fastqc_single] starts is
    started without a working directory, right after the temporary
    directory and its fastqc_output subdirectory were made, with the command
    <fastqc_path> --outdir <tmpdir>/fastqc_output --threads <threads, 1 by
    default> --extract, then --contaminants, --adapters and --limits with
    their values, each only when given a truthy value and in this order,
    then the input path as given (not a copy). *)
Theorem fastqc_single_command_line
    (env : Env) (settings : Server.ServerSettings)
    (arguments : gmap pystr value) (st st' : state)
    (r : res (list content)) (evs : list event)
    (cmd : list value) (cwd : option Path) :
  Server._run_fastqc_single env settings arguments st = (r, st') ->
  events st' = events st ++ evs ->
  In (EvSpawnExec cmd cwd) evs ->
  exists tmpdir tmp v input_path rest,
    arguments !! lit "input_file" = Some v
    /\ mkPath env v = Ok input_path
    /\ mkPath env (VStr tmpdir) = Ok tmp
    /\ cwd = None
    /\ cmd = [VStr (Server.fastqc_path settings);
              VStr (lit "--outdir");
              VStr (pjoin env tmp (lit "fastqc_output"));
              VStr (lit "--threads");
              VStr (py_str env (get arguments (lit "threads") (VInt 1)));
              VStr (lit "--extract")]
             ++ optional_flag arguments (lit "contaminants")
                  (lit "--contaminants")
             ++ optional_flag arguments (lit "adapters") (lit "--adapters")
             ++ optional_flag arguments (lit "limits") (lit "--limits")
             ++ [VStr input_path]
    /\ evs = EvMkdtemp tmpdir
             :: EvMkdir (pjoin env tmp (lit "fastqc_output"))
             :: EvSpawnExec cmd cwd :: rest.
Proof.
  intros Hrun Hev Hin.
  unfold Server._run_fastqc_single in Hrun.
  path_events_value Hrun Hev.
  all: in_cases; try discriminate.
  all: injection Hin as <- <-.
  all: match goal with
       | H : getitem _ _ = Ok _ |- _ => apply getitem_Ok in H
       end.
  all: eexists _, _, _, _, _.
  all: split; [eassumption|]; split; [eassumption|]; split; [eassumption|].
  all: split; [reflexivity|]; split; [|reflexivity].
  all: repeat rewrite <- app_assoc; reflexivity.
Qed.

Lemma fastqc_single_command_line_witness :
  exists tmpdir tmp v input_path rest,
    (<[lit "adapters" := VStr (lit "/data/adapters.txt")]>
       (<[lit "threads" := VInt 8]> single_args)) !! lit "input_file" = Some v
    /\ mkPath (fixture_env silent_tool) v = Ok input_path
    /\ mkPath (fixture_env silent_tool) (VStr tmpdir) = Ok tmp
    /\ @None Path = None
    /\ [VStr (lit "fastqc"); VStr (lit "--outdir");
        VStr (lit "/tmp/tmpqc/fastqc_output"); VStr (lit "--threads");
        VStr (lit "8"); VStr (lit "--extract"); VStr (lit "--adapters");
        VStr (lit "/data/adapters.txt"); VStr (lit "/data/s1.fastq")]
       = [VStr (Server.fastqc_path Server.default_settings);
          VStr (lit "--outdir");
          VStr (pjoin (fixture_env silent_tool) tmp (lit "fastqc_output"));
          VStr (lit "--threads");
          VStr (py_str (fixture_env silent_tool)
                  (get (<[lit "adapters" := VStr (lit "/data/adapters.txt")]>
                          (<[lit "threads" := VInt 8]> single_args))
                       (lit "threads") (VInt 1)));
          VStr (lit "--extract")]
         ++ optional_flag
              (<[lit "adapters" := VStr (lit "/data/adapters.txt")]>
                 (<[lit "threads" := VInt 8]> single_args))
              (lit "contaminants") (lit "--contaminants")
         ++ optional_flag
              (<[lit "adapters" := VStr (lit "/data/adapters.txt")]>
                 (<[lit "threads" := VInt 8]> single_args))
              (lit "adapters") (lit "--adapters")
         ++ optional_flag
              (<[lit "adapters" := VStr (lit "/data/adapters.txt")]>
                 (<[lit "threads" := VInt 8]> single_args))
              (lit "limits") (lit "--limits")
         ++ [VStr input_path]
    /\ events (snd (Server._run_fastqc_single (fixture_env silent_tool)
                      Server.default_settings
                      (<[lit "adapters" := VStr (lit "/data/adapters.txt")]>
                         (<[lit "threads" := VInt 8]> single_args))
                      fresh))
       = EvMkdtemp tmpdir
         :: EvMkdir (pjoin (fixture_env silent_tool) tmp (lit "fastqc_output"))
         :: EvSpawnExec
              [VStr (lit "fastqc"); VStr (lit "--outdir");
               VStr (lit "/tmp/tmpqc/fastqc_output"); VStr (lit "--threads");
               VStr (lit "8"); VStr (lit "--extract"); VStr (lit "--adapters");
               VStr (lit "/data/adapters.txt"); VStr (lit "/data/s1.fastq")]
              None
         :: rest.
Proof.
  set (args := <[lit "adapters" := VStr (lit "/data/adapters.txt")]>
                 (<[lit "threads" := VInt 8]> single_args)).
  set (run := Server._run_fastqc_single (fixture_env silent_tool)
                Server.default_settings args fresh).
  apply (fastqc_single_command_line
           (fixture_env silent_tool) Server.default_settings args fresh
           (snd run) (fst run) (events (snd run))).
  - apply surjective_pairing.
  - reflexivity.
  - vm_compute. tauto.
Defined.

(** X13.  Every subprocess a run of [_run_fastqc_batch] starts is
    started without a working directory, right after the temporary
    directory and its fastqc_batch_output subdirectory were made, with the
    command <fastqc_path> --outdir <tmpdir>/fastqc_batch_output --threads
    <threads, 4 by default> --extract followed by all the files the pattern
    (by default the one for names that hold .fastq) matched in the input
    directory before anything was done, of which there is at least one. *)
Theorem fastqc_batch_command_line
    (env : Env) (settings : Server.ServerSettings)
    (arguments : gmap pystr value) (st st' : state)
    (r : res (list content)) (evs : list event)
    (cmd : list value) (cwd : option Path) :
  Server._run_fastqc_batch env settings arguments st = (r, st') ->
  events st' = events st ++ evs ->
  In (EvSpawnExec cmd cwd) evs ->
  exists tmpdir tmp v input_dir files rest,
    arguments !! lit "input_dir" = Some v
    /\ mkPath env v = Ok input_dir
    /\ glob env (events st) input_dir
         (get arguments (lit "file_pattern") (VStr (lit "*.fastq*")))
       = Ok files
    /\ files <> []
    /\ mkPath env (VStr tmpdir) = Ok tmp
    /\ cwd = None
    /\ cmd = [VStr (Server.fastqc_path settings);
              VStr (lit "--outdir");
              VStr (pjoin env tmp (lit "fastqc_batch_output"));
              VStr (lit "--threads");
              VStr (py_str env (get arguments (lit "threads") (VInt 4)));
              VStr (lit "--extract")]
             ++ map VStr files
    /\ evs = EvMkdtemp tmpdir
             :: EvMkdir (pjoin env tmp (lit "fastqc_batch_output"))
             :: EvSpawnExec cmd cwd :: rest.
Proof.
  intros Hrun Hev Hin.
  unfold Server._run_fastqc_batch in Hrun.
  path_events_value Hrun Hev.
  all: in_cases; try discriminate.
  all: injection Hin as <- <-.
  all: match goal with
       | H : getitem _ _ = Ok _ |- _ => apply getitem_Ok in H
       end.
  all: eexists _, _, _, _, _, _.
  all: split; [eassumption|]; split; [eassumption|]; split; [eassumption|].
  all: split; [discriminate|]; split; [eassumption|].
  all: split; [reflexivity|]; split; reflexivity.
Qed.

Lemma fastqc_batch_command_line_witness :
  exists tmpdir tmp v input_dir files rest,
    batch_args !! lit "input_dir" = Some v
    /\ mkPath (fixture_env batch_tool) v = Ok input_dir
    /\ glob (fixture_env batch_tool) (events fresh) input_dir
         (get batch_args (lit "file_pattern") (VStr (lit "*.fastq*")))
       = Ok files
    /\ files <> []
    /\ mkPath (fixture_env batch_tool) (VStr tmpdir) = Ok tmp
    /\ @None Path = None
    /\ [VStr (lit "fastqc"); VStr (lit "--outdir");
        VStr (lit "/tmp/tmpqc/fastqc_batch_output"); VStr (lit "--threads");
        VStr (lit "4"); VStr (lit "--extract"); VStr (lit "/data/s1.fastq")]
       = [VStr (Server.fastqc_path Server.default_settings);
          VStr (lit "--outdir");
          VStr (pjoin (fixture_env batch_tool) tmp (lit "fastqc_batch_output"));
          VStr (lit "--threads");
          VStr (py_str (fixture_env batch_tool)
                  (get batch_args (lit "threads") (VInt 4)));
          VStr (lit "--extract")]
         ++ map VStr files
    /\ events (snd (Server._run_fastqc_batch (fixture_env batch_tool)
                      Server.default_settings batch_args fresh))
       = EvMkdtemp tmpdir
         :: EvMkdir (pjoin (fixture_env batch_tool) tmp
                       (lit "fastqc_batch_output"))
         :: EvSpawnExec
              [VStr (lit "fastqc"); VStr (lit "--outdir");
               VStr (lit "/tmp/tmpqc/fastqc_batch_output");
               VStr (lit "--threads"); VStr (lit "4"); VStr (lit "--extract");
               VStr (lit "/data/s1.fastq")]
              None
         :: rest.
Proof.
  set (run := Server._run_fastqc_batch (fixture_env batch_tool)
                Server.default_settings batch_args fresh).
  apply (fastqc_batch_command_line
           (fixture_env batch_tool) Server.default_settings batch_args fresh
           (snd run) (fst run) (events (snd run))).
  - apply surjective_pairing.
  - reflexivity.
  - vm_compute. tauto.
Defined.

(** X14.  Every subprocess a run of the basic server's [_run_multiqc]
    starts is started without a working directory, right after the
    temporary directory and its multiqc_output subdirectory were made, with
    the command <multiqc_path> <input directory as given> --outdir
    <tmpdir>/multiqc_output --template <template, "default" by default>,
    then --title and --comment with their values, each only when given a
    truthy value. *)
Theorem multiqc_report_command_line
    (env : Env) (settings : Server.ServerSettings)
    (arguments : gmap pystr value) (st st' : state)
    (r : res (list content)) (evs : list event)
    (cmd : list value) (cwd : option Path) :
  Server._run_multiqc env settings arguments st = (r, st') ->
  events st' = events st ++ evs ->
  In (EvSpawnExec cmd cwd) evs ->
  exists tmpdir tmp v input_dir rest,
    arguments !! lit "input_dir" = Some v
    /\ mkPath env v = Ok input_dir
    /\ mkPath env (VStr tmpdir) = Ok tmp
    /\ cwd = None
    /\ cmd = [VStr (Server.multiqc_path settings);
              VStr input_dir;
              VStr (lit "--outdir");
              VStr (pjoin env tmp (lit "multiqc_output"));
              VStr (lit "--template");
              get arguments (lit "template") (VStr (lit "default"))]
             ++ optional_flag arguments (lit "title") (lit "--title")
             ++ optional_flag arguments (lit "comment") (lit "--comment")
    /\ evs = EvMkdtemp tmpdir
             :: EvMkdir (pjoin env tmp (lit "multiqc_output"))
             :: EvSpawnExec cmd cwd :: rest.
Proof.
  intros Hrun Hev Hin.
  unfold Server._run_multiqc in Hrun.
  path_events_value Hrun Hev.
  all: in_cases; try discriminate.
  all: injection Hin as <- <-.
  all: match goal with
       | H : getitem _ _ = Ok _ |- _ => apply getitem_Ok in H
       end.
  all: eexists _, _, _, _, _.
  all: split; [eassumption|]; split; [eassumption|]; split; [eassumption|].
  all: split; [reflexivity|]; split; [|reflexivity].
  all: repeat rewrite <- app_assoc; reflexivity.
Qed.

Lemma multiqc_report_command_line_witness :
  exists tmpdir tmp v input_dir rest,
    (<[lit "title" := VStr (lit "Run 7")]> multiqc_args) !! lit "input_dir"
    = Some v
    /\ mkPath (fixture_env multiqc_tool) v = Ok input_dir
    /\ mkPath (fixture_env multiqc_tool) (VStr tmpdir) = Ok tmp
    /\ @None Path = None
    /\ [VStr (lit "multiqc"); VStr (lit "/data/qc"); VStr (lit "--outdir");
        VStr (lit "/tmp/tmpqc/multiqc_output"); VStr (lit "--template");
        VStr (lit "default"); VStr (lit "--title"); VStr (lit "Run 7")]
       = [VStr (Server.multiqc_path Server.default_settings);
          VStr input_dir;
          VStr (lit "--outdir");
          VStr (pjoin (fixture_env multiqc_tool) tmp (lit "multiqc_output"));
          VStr (lit "--template");
          get (<[lit "title" := VStr (lit "Run 7")]> multiqc_args)
              (lit "template") (VStr (lit "default"))]
         ++ optional_flag (<[lit "title" := VStr (lit "Run 7")]> multiqc_args)
              (lit "title") (lit "--title")
         ++ optional_flag (<[lit "title" := VStr (lit "Run 7")]> multiqc_args)
              (lit "comment") (lit "--comment")
    /\ events (snd (Server._run_multiqc (fixture_env multiqc_tool)
                      Server.default_settings
                      (<[lit "title" := VStr (lit "Run 7")]> multiqc_args)
                      fresh))
       = EvMkdtemp tmpdir
         :: EvMkdir (pjoin (fixture_env multiqc_tool) tmp (lit "multiqc_output"))
         :: EvSpawnExec
              [VStr (lit "multiqc"); VStr (lit "/data/qc");
               VStr (lit "--outdir"); VStr (lit "/tmp/tmpqc/multiqc_output");
               VStr (lit "--template"); VStr (lit "default");
               VStr (lit "--title"); VStr (lit "Run 7")]
              None
         :: rest.
Proof.
  set (args := <[lit "title" := VStr (lit "Run 7")]> multiqc_args).
  set (run := Server._run_multiqc (fixture_env multiqc_tool)
                Server.default_settings args fresh).
  apply (multiqc_report_command_line
           (fixture_env multiqc_tool) Server.default_settings args fresh
           (snd run) (fst run) (events (snd run))).
  - apply surjective_pairing.
  - reflexivity.
  - vm_compute. tauto.
Defined.

(* --------------------------------------------------------------------- *)
(** ** The basic server: reading the reports *)
(* --------------------------------------------------------------------- *)

Section DegradedFacts.

Variable env : Env.

Lemma fold_summarize_raise tr output_dir files e :
  fold_left (fun acc input_file =>
               let? a := acc in
               Server.summarize_file env tr output_dir a input_file)
            files (Raise e)
  = Raise e.
Proof. induction files as [|f files IH]; [done|]. exact IH. Qed.

Lemma summarize_file_raise tr output_dir acc input_file e :
  iterdir env tr output_dir = Raise e ->
  Server.summarize_file env tr output_dir acc input_file = Raise e.
Proof.
  intros Hi. unfold Server.summarize_file.
  destruct acc as [[[result tp] tw] tf]. unfold bind_res. by rewrite Hi.
Qed.

End DegradedFacts.

(** X15.  When the output directory cannot be listed,
    [_parse_fastqc_results] does not raise: it returns the text "Error
    parsing FastQC results: <text of the exception>"; and
    [_summarize_batch_results], for a non-empty list of files, returns the
    text "Error summarizing batch results: <text of the exception>". *)
Theorem unreadable_output_directory_is_reported_as_text
    (env : Env) (tr : trace) (output_dir : Path) (e : exn)
    (filename_base : pystr) (files : list Path) :
  iterdir env tr output_dir = Raise e ->
  Server._parse_fastqc_results env tr output_dir filename_base
  = Ok (lit "Error parsing FastQC results: " ++ str_exn e)
  /\ (files <> [] ->
      Server._summarize_batch_results env tr output_dir files
      = Ok (lit "Error summarizing batch results: " ++ str_exn e)).
Proof.
  intros Hi. split.
  - unfold Server._parse_fastqc_results, catch_res, bind_res. by rewrite Hi.
  - intros Hfiles. destruct files as [|f files]; [done|].
    unfold Server._summarize_batch_results, catch_res.
    cbv zeta. cbn [fold_left bind_res].
    rewrite (summarize_file_raise env tr output_dir _ f e Hi).
    rewrite fold_summarize_raise. reflexivity.
Qed.

Lemma unreadable_output_directory_witness :
  Server._parse_fastqc_results (fixture_env silent_tool) []
    (lit "/tmp/tmpqc/fastqc_output") (lit "s1")
  = Ok (lit "Error parsing FastQC results: [Errno 2] No such file or directory: '/tmp/tmpqc/fastqc_output'")
  /\ Server._summarize_batch_results (fixture_env silent_tool) []
       (lit "/tmp/tmpqc/fastqc_output") [lit "/data/s1.fastq"]
     = Ok (lit "Error summarizing batch results: [Errno 2] No such file or directory: '/tmp/tmpqc/fastqc_output'").
Proof.
  destruct (unreadable_output_directory_is_reported_as_text
              (fixture_env silent_tool) [] (lit "/tmp/tmpqc/fastqc_output")
              (no_such_file (lit "/tmp/tmpqc/fastqc_output")) (lit "s1")
              [lit "/data/s1.fastq"]) as [H1 H2].
  - vm_compute. reflexivity.
  - split.
    + vm_compute in H1. vm_compute. exact H1.
    + specialize (H2 ltac:(discriminate)).
      vm_compute in H2. vm_compute. exact H2.
Defined.

(** X16.  In the loop of [_summarize_batch_results], an input file for
    which the output directory holds no matching directory, or a matching
    one (the first) without summary.txt, adds the line "  <question-mark
    glyph> <file name>: No results found" and leaves the three totals as
    they were. *)
Theorem file_without_results_is_marked_and_counts_nothing
    (env : Env) (tr : trace) (output_dir : Path) (result : pystr)
    (total_pass total_warn total_fail : Z) (input_file : Path)
    (items : list Path) :
  iterdir env tr output_dir = Ok items ->
  (forall fastqc_dir,
     Server.first_results_dir env tr items
       (remove_all (lit ".fq")
          (remove_all (lit ".fastq") (pstem env input_file)))
     = Some fastqc_dir ->
     exists_ env tr (pjoin env fastqc_dir (lit "summary.txt")) = false) ->
  Server.summarize_file env tr output_dir
    (result, total_pass, total_warn, total_fail) input_file
  = Ok (result ++ lit "  " ++ glyph_unknown ++ lit " " ++ pname env input_file
               ++ lit ": No results found" ++ nl,
        total_pass, total_warn, total_fail).
Proof.
  intros Hi Hnone. unfold Server.summarize_file, bind_res. rewrite Hi.
  cbv zeta.
  destruct (Server.first_results_dir env tr items _) as [d|]; [|reflexivity].
  by rewrite (Hnone d eq_refl).
Qed.

Lemma file_without_results_witness :
  Server.summarize_file (fixture_env silent_tool)
    [EvCommunicate 1800 (Ok ([], [], 0%Z))]
    (lit "/tmp/tmpqc/fastqc_output") (lit "Report:", 3%Z, 2%Z, 1%Z)
    (lit "/data/s1.fastq")
  = Ok (lit "Report:" ++ lit "  " ++ glyph_unknown
          ++ lit " s1.fastq: No results found" ++ nl,
        3%Z, 2%Z, 1%Z).
Proof.
  assert (H := file_without_results_is_marked_and_counts_nothing
                 (fixture_env silent_tool)
                 [EvCommunicate 1800 (Ok ([], [], 0%Z))]
                 (lit "/tmp/tmpqc/fastqc_output") (lit "Report:") 3 2 1
                 (lit "/data/s1.fastq") []).
  vm_compute in H. vm_compute. apply H; [reflexivity|discriminate].
Defined.

Section SplitFacts.

Lemma split_free (sep : N) (s : pystr) : free_of sep s -> split sep s = [s].
Proof.
  unfold free_of. induction s as [|c s IH]; [done|].
  cbn [forallb split]. intros H. apply andb_prop in H as [Hc Hs].
  apply negb_true_iff in Hc. rewrite Hc, (IH Hs). done.
Qed.

Lemma split_at_first (sep : N) (a b : pystr) :
  free_of sep a -> split sep (a ++ sep :: b) = a :: split sep b.
Proof.
  unfold free_of. induction a as [|c a IH]; intros H.
  - cbn [app split]. by rewrite N.eqb_refl.
  - cbn [forallb] in H. apply andb_prop in H as [Hc Ha].
    apply negb_true_iff in Hc.
    cbn [app split]. rewrite Hc, (IH Ha). done.
Qed.

Lemma contains_one (c : N) (s : pystr) :
  contains s [c] = false -> free_of c s.
Proof.
  unfold free_of. induction s as [|x s IH]; [done|].
  cbn [contains startswith forallb]. intros H.
  apply orb_false_iff in H as [Hx Hs].
  rewrite (IH Hs), andb_true_r.
  destruct (N.eqb_spec c x) as [->|Hne]; [discriminate|].
  apply negb_true_iff, N.eqb_neq. congruence.
Qed.

End SplitFacts.

(** X17.  For a line of summary.txt, [_parse_fastqc_results] adds
    nothing when the stripped line holds no tab; when the stripped line is
    <status> tab <module> it adds "  <glyph> <module>: <status>" and a line
    break, where the glyph is the check mark for PASS, the warning sign for
    WARN and the cross for every other status. *)
Theorem status_line_is_rendered_by_its_status (result line : pystr) :
  (contains (strip line) [tab] = false ->
   Server.render_status_line result line = result)
  /\ (forall status module,
        strip line = status ++ [tab] ++ module ->
        free_of tab status ->
        free_of tab module ->
        Server.render_status_line result line
        = result ++ lit "  " ++ status_glyph status ++ lit " " ++ module
                 ++ lit ": " ++ status ++ nl
        /\ (status <> lit "PASS" -> status <> lit "WARN" ->
            status_glyph status = glyph_fail)).
Proof.
  split.
  - intros H. unfold Server.render_status_line.
    by rewrite (split_free tab _ (contains_one tab _ H)).
  - intros status module Hline Hs Hm. split.
    + unfold Server.render_status_line, status_glyph. rewrite Hline.
      cbn [app]. rewrite (split_at_first tab status module Hs).
      rewrite (split_free tab module Hm). reflexivity.
    + intros H1 H2. unfold status_glyph, str_eqb.
      by rewrite !bool_decide_eq_false_2.
Qed.

Lemma status_line_witness :
  Server.render_status_line []
    (lit "SKIP" ++ [tab] ++ lit "Kmer Content" ++ nl)
  = lit "  " ++ glyph_fail ++ lit " Kmer Content: SKIP" ++ nl
  /\ Server.render_status_line (lit "Module Status Summary:")
       (lit "   " ++ nl)
     = lit "Module Status Summary:".
Proof.
  split.
  - destruct (status_line_is_rendered_by_its_status []
                (lit "SKIP" ++ [tab] ++ lit "Kmer Content" ++ nl))
      as [_ H].
    destruct (H (lit "SKIP") (lit "Kmer Content")) as [H1 _];
      [vm_compute; reflexivity..|].
    vm_compute in H1. vm_compute. exact H1.
  - destruct (status_line_is_rendered_by_its_status
                (lit "Module Status Summary:") (lit "   " ++ nl))
      as [H _].
    apply H. vm_compute. reflexivity.
Defined.

(** X18.  Reading fastqc_data.txt, [_parse_fastqc_results] adds nothing
    for lines read before a line that begins with ">>Basic Statistics";
    inside that section a line <key> tab <value> that begins with neither
    ">>Basic Statistics", ">>END_MODULE" nor "#" adds "  <bullet> <key>:
    <value>" and a line break. *)
Theorem statistics_are_taken_from_the_basic_section_only (result : pystr) :
  (forall lines,
     Forall (fun line => startswith line (lit ">>Basic Statistics") = false)
            lines ->
     fold_left Server.basic_stats_step lines (false, result)
     = (false, result))
  /\ (forall key val,
        free_of tab key -> free_of tab val ->
        startswith (key ++ [tab] ++ val) (lit ">>Basic Statistics") = false ->
        startswith (key ++ [tab] ++ val) (lit ">>END_MODULE") = false ->
        startswith (key ++ [tab] ++ val) (lit "#") = false ->
        Server.basic_stats_step (true, result) (key ++ [tab] ++ val)
        = (true, result ++ lit "  " ++ bullet ++ lit " " ++ key ++ lit ": "
                        ++ val ++ nl)).
Proof.
  split.
  - induction 1 as [|line lines Hline _ IH]; [done|].
    cbn [fold_left]. unfold Server.basic_stats_step at 2. rewrite Hline.
    cbn [andb]. destruct (startswith line (lit ">>END_MODULE")); exact IH.
  - intros key val Hk Hv H1 H2 H3. unfold Server.basic_stats_step.
    rewrite H1, H2, H3. cbn [app].
    rewrite (split_at_first tab key val Hk), (split_free tab val Hv).
    assert (C : contains (key ++ tab :: val) [tab] = true).
    { change (key ++ tab :: val) with (key ++ [tab] ++ val).
      apply contains_infix. }
    rewrite C. reflexivity.
Qed.

Lemma statistics_witness :
  fold_left Server.basic_stats_step
    (split 10 (lit ">>Per base sequence quality" ++ [10%N]
               ++ lit "Total" ++ [tab] ++ lit "12" ++ [10%N]
               ++ lit ">>END_MODULE"))
    (false, lit "Basic Statistics:")
  = (false, lit "Basic Statistics:")
  /\ Server.basic_stats_step (true, [])
       (lit "Total Sequences" ++ [tab] ++ lit "250000")
     = (true, lit "  " ++ bullet ++ lit " Total Sequences: 250000" ++ nl).
Proof.
  split.
  - destruct (statistics_are_taken_from_the_basic_section_only
                (lit "Basic Statistics:")) as [H _].
    apply H. vm_compute. repeat constructor.
  - destruct (statistics_are_taken_from_the_basic_section_only [])
      as [_ H].
    specialize (H (lit "Total Sequences") (lit "250000")).
    vm_compute in H. vm_compute. apply H; reflexivity.
Defined.

(* --------------------------------------------------------------------- *)
(** ** The enhanced server: detection and its cache *)
(* --------------------------------------------------------------------- *)

Section DetectionFacts.

Variable env : Env.

Lemma parse_preferred_modes_spec strs :
  forall preferred st,
    Enhanced.parse_preferred_modes env strs preferred st
    = (Ok (preferred ++ recognised_modes env strs),
       add_events st (unrecognised_warnings env strs)).
Proof.
  induction strs as [|s strs IH]; intros preferred st.
  - cbn [Enhanced.parse_preferred_modes recognised_modes]. unfold ret.
    by rewrite app_nil_r.
  - cbn [Enhanced.parse_preferred_modes recognised_modes].
    unfold unrecognised_warnings. cbn [List.filter].
    destruct (mode_of_value (lower env (strip s))) as [m|].
    + rewrite IH. by rewrite <- app_assoc.
    + unfold bind, emit. rewrite IH. reflexivity.
Qed.

Lemma events_add_events st evs : events (add_events st evs) = events st ++ evs.
Proof.
  revert st. induction evs as [|ev evs IH]; intros st; cbn.
  - by rewrite app_nil_r.
  - unfold add_events in IH. rewrite IH. cbn. by rewrite <- app_assoc.
Qed.

Lemma same_cache_add_events st evs : same_cache st (add_events st evs).
Proof.
  revert st. induction evs as [|ev evs IH]; intros st; [done|].
  cbn. destruct (IH (add_event st ev)) as [H1 H2]. split; [exact H1|exact H2].
Qed.

End DetectionFacts.

Section CacheFacts.

Variable env : Env.
Variable detector : Enhanced.ToolDetector.
Variable settings : Enhanced.ServerSettings.

Lemma detect_tool_run tool_name st :
  Enhanced._detect_tool env detector settings tool_name st
  = (Enhanced.detect_tool detector
       (events st ++ detection_warnings env settings)
       tool_name
       (module_names_of settings tool_name)
       (Enhanced.container_image settings)
       (preferred_or_default env settings)
       (forced_mode env settings),
     add_events st (detection_warnings env settings)).
Proof.
  unfold Enhanced._detect_tool, forced_mode, detection_warnings,
    forced_mode_warning, module_names_of, preferred_or_default.
  destruct (Enhanced.execution_mode settings) as [s|];
    [destruct (truthy (VStr s)); [destruct (mode_of_value (lower env s))|]|].
  all: unfold bind, emit, ret, read; rewrite parse_preferred_modes_spec.
  all: cbn [app]; rewrite ?events_add_events; cbn [events add_event app].
  all: try rewrite <- app_assoc; cbn [app].
  all: destruct (recognised_modes env _); reflexivity.
Qed.

Lemma multiqc_is_not_fastqc : str_eqb (lit "multiqc") (lit "fastqc") = false.
Proof. vm_compute. reflexivity. Qed.

Lemma fastqc_is_fastqc : str_eqb (lit "fastqc") (lit "fastqc") = true.
Proof. by apply bool_decide_eq_true. Qed.

Lemma get_fastqc_info_cached st info st' :
  Enhanced._get_fastqc_info env detector settings st = (Ok info, st') ->
  self_fastqc_info st' = Some info
  /\ self_multiqc_info st' = self_multiqc_info st.
Proof.
  unfold Enhanced._get_fastqc_info.
  destruct (self_fastqc_info st) as [cached|] eqn:E.
  - intros H. apply pair_equal_spec in H as [H <-]. apply Ok_inj in H.
    by subst.
  - unfold bind at 1. rewrite detect_tool_run.
    destruct (Enhanced.detect_tool _ _ _ _ _ _ _) as [found|e];
      [|intros H; apply pair_equal_spec in H as [H _]; discriminate H].
    unfold bind, Enhanced.set_fastqc_info, ret. intros H.
    apply pair_equal_spec in H as [H <-]. apply Ok_inj in H. subst.
    cbn [self_fastqc_info self_multiqc_info]. split; [done|].
    apply same_cache_add_events.
Qed.

Lemma get_multiqc_info_cached st info st' :
  Enhanced._get_multiqc_info env detector settings st = (Ok info, st') ->
  self_multiqc_info st' = Some info
  /\ self_fastqc_info st' = self_fastqc_info st.
Proof.
  unfold Enhanced._get_multiqc_info.
  destruct (self_multiqc_info st) as [cached|] eqn:E.
  - intros H. apply pair_equal_spec in H as [H <-]. apply Ok_inj in H.
    by subst.
  - unfold bind at 1. rewrite detect_tool_run.
    destruct (Enhanced.detect_tool _ _ _ _ _ _ _) as [found|e];
      [|intros H; apply pair_equal_spec in H as [H _]; discriminate H].
    unfold bind, Enhanced.set_multiqc_info, ret. intros H.
    apply pair_equal_spec in H as [H <-]. apply Ok_inj in H. subst.
    cbn [self_fastqc_info self_multiqc_info]. split; [done|].
    apply same_cache_add_events.
Qed.

(** The tool information [_execute_tool_command] works with is the cached
    one afterwards. *)
Lemma tool_info_cached tool_name st info st' :
  (if str_eqb tool_name (lit "fastqc")
   then Enhanced._get_fastqc_info env detector settings
   else Enhanced._get_multiqc_info env detector settings) st
  = (Ok info, st') ->
  cached_info tool_name st' = Some info.
Proof.
  unfold cached_info. destruct (str_eqb tool_name (lit "fastqc")); intros H.
  - by apply get_fastqc_info_cached in H as [H _].
  - by apply get_multiqc_info_cached in H as [H _].
Qed.

Lemma cached_info_add_event tool_name st ev :
  cached_info tool_name (add_event st ev) = cached_info tool_name st.
Proof. reflexivity. Qed.

Lemma logged_no_spawn evs : forallb is_log evs = true -> existsb is_spawn evs = false.
Proof.
  induction evs as [|ev evs IH]; [done|]. cbn [forallb existsb].
  intros H. apply andb_prop in H as [Hev H]. rewrite (IH H).
  by destruct ev.
Qed.

Lemma spawn_not_logged evs ev :
  forallb is_log evs = true -> In ev evs -> is_spawn ev = true -> False.
Proof.
  intros L Hin Hsp. rewrite forallb_forall in L. apply L in Hin.
  by destruct ev.
Qed.

(** A tool found nowhere: [_execute_tool_command] logs at most and raises. *)
Lemma execute_unavailable tool_name tool_args tmpdir st r st' :
  In tool_name enhanced_operations ->
  finds_nothing detector tool_name ->
  (forall info, cached_info tool_name st = Some info ->
                mode info = UNAVAILABLE) ->
  Enhanced._execute_tool_command env detector settings tool_name tool_args
    tmpdir st = (r, st') ->
  r = Raise (Error (tool_name
                    ++ lit " is not available in any execution mode"))
  /\ logged st st'.
Proof.
  intros Hname Hnone Hcache. unfold Enhanced._execute_tool_command, bind at 1.
  assert (exists tool_info st1,
             (if str_eqb tool_name (lit "fastqc")
              then Enhanced._get_fastqc_info env detector settings
              else Enhanced._get_multiqc_info env detector settings) st
             = (Ok tool_info, st1)
             /\ mode tool_info = UNAVAILABLE) as (tool_info & st1 & E1 & Hm).
  { revert Hcache. unfold cached_info.
    cbn [In enhanced_operations] in Hname.
    destruct Hname as [<-|[<-|[]]];
      rewrite ?fastqc_is_fastqc, ?multiqc_is_not_fastqc.
    - unfold Enhanced._get_fastqc_info.
      destruct (self_fastqc_info st) as [cached|]; [by eauto|].
      intros _. unfold bind at 1. rewrite detect_tool_run.
      destruct (Hnone (events st ++ detection_warnings env settings)
                  (module_names_of settings (lit "fastqc"))
                  (Enhanced.container_image settings)
                  (preferred_or_default env settings)
                  (forced_mode env settings)) as (found & -> & Hf).
      unfold bind, Enhanced.set_fastqc_info, ret. by eauto.
    - unfold Enhanced._get_multiqc_info.
      destruct (self_multiqc_info st) as [cached|]; [by eauto|].
      intros _. unfold bind at 1. rewrite detect_tool_run.
      destruct (Hnone (events st ++ detection_warnings env settings)
                  (module_names_of settings (lit "multiqc"))
                  (Enhanced.container_image settings)
                  (preferred_or_default env settings)
                  (forced_mode env settings)) as (found & -> & Hf).
      unfold bind, Enhanced.set_multiqc_info, ret. by eauto. }
  rewrite E1, Hm. change (mode_eqb UNAVAILABLE UNAVAILABLE) with true.
  unfold raise. intros H. apply pair_equal_spec in H as [<- <-].
  split; [done|].
  destruct (str_eqb tool_name (lit "fastqc"));
    [eapply get_fastqc_info_logged | eapply get_multiqc_info_logged];
    exact E1.
Qed.

End CacheFacts.

(** X19.  Every run of [_detect_tool] returns what the detector answers
    when asked once, for the tool name as given, with: the module names of
    the settings split at commas and stripped for fastqc, and multiqc and
    MultiQC for every other name; the container image of the settings
    whatever the tool; the entries of preferred_modes that name a mode
    (stripped, lower-cased), in their order, or None when there is none;
    the forced mode when execution_mode names one.  Before that it logs one
    warning for an execution_mode that names no mode and one for each such
    entry of preferred_modes, and it does nothing else: the cached tool
    information is left as it was. *)
Theorem detector_is_asked_with_the_recognised_settings
    (env : Env) (detector : Enhanced.ToolDetector)
    (settings : Enhanced.ServerSettings) (tool_name : pystr)
    (st st' : state) (r : res ToolInfo) :
  Enhanced._detect_tool env detector settings tool_name st = (r, st') ->
  events st' = events st ++ detection_warnings env settings
  /\ same_cache st st'
  /\ r = Enhanced.detect_tool detector (events st') tool_name
           (module_names_of settings tool_name)
           (Enhanced.container_image settings)
           (preferred_or_default env settings)
           (forced_mode env settings).
Proof.
  rewrite detect_tool_run. intros H. apply pair_equal_spec in H as [<- <-].
  rewrite events_add_events.
  split; [done|]. split; [apply same_cache_add_events|done].
Qed.

Lemma detector_is_asked_witness :
  let run :=
    Enhanced._detect_tool (fixture_env silent_tool) module_detector
      picky_settings (lit "fastqc") fresh in
  events (snd run)
  = [EvLog WARNING (lit "Invalid execution mode: podman");
     EvLog WARNING (lit "Invalid preferred mode: conda")]
  /\ preferred_or_default (fixture_env silent_tool) picky_settings
     = Some [NATIVE; LMOD]
  /\ forced_mode (fixture_env silent_tool) picky_settings = None
  /\ module_names_of picky_settings (lit "fastqc")
     = [lit "fastqc"; lit "FastQC"]
  /\ fst run
     = Enhanced.detect_tool module_detector (events (snd run)) (lit "fastqc")
         (module_names_of picky_settings (lit "fastqc"))
         (Enhanced.container_image picky_settings)
         (preferred_or_default (fixture_env silent_tool) picky_settings)
         (forced_mode (fixture_env silent_tool) picky_settings).
Proof.
  set (run := Enhanced._detect_tool _ _ _ _ _). cbv zeta.
  destruct (detector_is_asked_with_the_recognised_settings
              (fixture_env silent_tool) module_detector picky_settings
              (lit "fastqc") fresh (snd run) (fst run)
              (surjective_pairing run)) as (_ & _ & H).
  split; [vm_compute; reflexivity|]. split; [vm_compute; reflexivity|].
  split; [vm_compute; reflexivity|]. split; [vm_compute; reflexivity|].
  exact H.
Defined.

(** X20.  A successful fastqc_info call of the enhanced server only
    writes log records, returns one text content and leaves both tool
    informations cached; every later fastqc_info call, whatever its
    arguments, returns the same content without any effect, hence without
    consulting the detector again. *)
Theorem tool_info_is_detected_once
    (env : Env) (detector : Enhanced.ToolDetector)
    (settings : Enhanced.ServerSettings) (arguments : gmap pystr value)
    (st st' : state) (c : list content) :
  Enhanced.call_tool env detector settings (lit "fastqc_info") arguments st
  = (Ok c, st') ->
  logged st st'
  /\ is_Some (self_fastqc_info st')
  /\ is_Some (self_multiqc_info st')
  /\ (exists text, c = [TextContent text])
  /\ forall arguments',
       Enhanced.call_tool env detector settings (lit "fastqc_info") arguments'
         st' = (Ok c, st').
Proof.
  assert (Hname : Enhanced.call_tool env detector settings (lit "fastqc_info")
                  = fun _ => Enhanced._get_tool_info env detector settings).
  { unfold Enhanced.call_tool.
    replace (str_eqb (lit "fastqc_info") (lit "fastqc")) with false
      by (vm_compute; reflexivity).
    replace (str_eqb (lit "fastqc_info") (lit "multiqc")) with false
      by (vm_compute; reflexivity).
    replace (str_eqb (lit "fastqc_info") (lit "fastqc_info")) with true
      by (symmetry; by apply bool_decide_eq_true).
    reflexivity. }
  rewrite Hname. unfold Enhanced._get_tool_info, bind at 1.
  destruct (Enhanced._get_fastqc_info env detector settings st)
    as [[fi|e] st1] eqn:E1;
    [|intros H; apply pair_equal_spec in H as [H _]; discriminate H].
  unfold bind at 1.
  destruct (Enhanced._get_multiqc_info env detector settings st1)
    as [[mi|e] st2] eqn:E2;
    [|intros H; apply pair_equal_spec in H as [H _]; discriminate H].
  cbv zeta. unfold ret. intros H. apply pair_equal_spec in H as [H <-].
  apply Ok_inj in H. subst c.
  pose proof (get_fastqc_info_logged _ _ _ _ _ _ E1) as L1.
  pose proof (get_multiqc_info_logged _ _ _ _ _ _ E2) as L2.
  apply get_fastqc_info_cached in E1 as [F1 M1].
  apply get_multiqc_info_cached in E2 as [M2 F2].
  rewrite F1 in F2.
  split; [by eapply logged_trans|]. split; [by rewrite F2|].
  split; [by rewrite M2|]. split; [by eexists|].
  intros _. unfold bind, Enhanced._get_fastqc_info, Enhanced._get_multiqc_info.
  rewrite F2, M2. reflexivity.
Qed.

Lemma tool_info_is_detected_once_witness :
  let run :=
    Enhanced.call_tool (fixture_env silent_tool) module_detector
      picky_settings (lit "fastqc_info") (empty : gmap pystr value) fresh in
  fst run = Ok [TextContent (lit "{}")]
  /\ is_Some (self_fastqc_info (snd run))
  /\ Enhanced.call_tool (fixture_env silent_tool) module_detector
       picky_settings (lit "fastqc_info") single_args (snd run)
     = (Ok [TextContent (lit "{}")], snd run).
Proof.
  set (run := Enhanced.call_tool _ _ _ _ _ _). cbv zeta.
  assert (E : run = (Ok [TextContent (lit "{}")], snd run))
    by (vm_compute; reflexivity).
  destruct (tool_info_is_detected_once (fixture_env silent_tool)
              module_detector picky_settings (empty : gmap pystr value) fresh (snd run)
              [TextContent (lit "{}")] E)
    as (_ & F & _ & _ & H).
  split; [by rewrite E|]. split; [exact F|]. apply H.
Defined.

(* --------------------------------------------------------------------- *)
(** ** The enhanced server: running the tool *)
(* --------------------------------------------------------------------- *)

(* a path on which the tool is found nowhere *)
Ltac unavailable Hnone Hcache Hev :=
  try match goal with
    | H : Enhanced._execute_tool_command _ _ _ _ _ _ _ = _ |- _ =>
        let Hr := fresh "Hr" in
        apply execute_unavailable in H as [Hr (evs1 & Hs & L1)];
        [first [discriminate Hr | injection Hr as ->];
         rewrite ?events_add_event, ?Hs, ?events_add_event in Hev
        |by (left + (right; left))
        |exact Hnone
        |intros ?; rewrite ?cached_info_add_event; apply Hcache]
    end.

(** X21.  When the detector finds fastqc in no execution mode (and no
    other information is cached), no run of the enhanced [_run_fastqc]
    starts a subprocess, and every run that got as far as copying the input
    file returns the error content "Error: fastqc is not available in any
    execution mode": the availability is looked at only after the copy was
    made. *)
Theorem unavailable_fastqc_is_reported_after_the_copy
    (env : Env) (detector : Enhanced.ToolDetector)
    (settings : Enhanced.ServerSettings) (arguments : gmap pystr value)
    (st st' : state) (r : res (list content)) (evs : list event) :
  finds_nothing detector (lit "fastqc") ->
  (forall info, self_fastqc_info st = Some info -> mode info = UNAVAILABLE) ->
  Enhanced._run_fastqc env detector settings arguments st = (r, st') ->
  events st' = events st ++ evs ->
  existsb is_spawn evs = false
  /\ (existsb is_copy evs = true ->
      r = Ok [ErrorContent
                (lit "Error: fastqc is not available in any execution mode")]).
Proof.
  intros Hnone Hcache Hrun Hev.
  change (self_fastqc_info st) with (cached_info (lit "fastqc") st) in Hcache.
  unfold Enhanced._run_fastqc in Hrun.
  run_paths Hrun.
  all: destruct Hrun as [<- <-].
  all: unavailable Hnone Hcache Hev.
  all: new_events Hev; subst evs.
  all: try (split; [reflexivity|intros [=]]).
  all: cbn [existsb is_spawn is_copy orb].
  all: rewrite existsb_app, (logged_no_spawn _ L1).
  all: split; [reflexivity|intros _; vm_compute; reflexivity].
Qed.

Lemma unavailable_fastqc_witness :
  let run :=
    Enhanced._run_fastqc (fixture_env enhanced_fastqc_tool) absent_detector
      Enhanced.default_settings single_args fresh in
  existsb is_copy (events (snd run)) = true
  /\ existsb is_spawn (events (snd run)) = false
  /\ fst run
     = Ok [ErrorContent
             (lit "Error: fastqc is not available in any execution mode")].
Proof.
  set (run := Enhanced._run_fastqc _ _ _ _ _). cbv zeta.
  destruct (unavailable_fastqc_is_reported_after_the_copy
              (fixture_env enhanced_fastqc_tool) absent_detector
              Enhanced.default_settings single_args fresh (snd run) (fst run)
              (events (snd run))) as [H1 H2].
  - intros tr names image preferred force. eexists. split; reflexivity.
  - intros info H. discriminate H.
  - apply surjective_pairing.
  - reflexivity.
  - split; [vm_compute; reflexivity|]. split; [exact H1|].
    apply H2. vm_compute. reflexivity.
Defined.

(** X22.  When the detector finds multiqc in no execution mode (and no
    other information is cached), no run of the enhanced [_run_multiqc]
    starts a subprocess, and every run that created its temporary directory
    returns the error content "Error: multiqc is not available in any
    execution mode". *)
Theorem unavailable_multiqc_is_reported_in_the_temporary_directory
    (env : Env) (detector : Enhanced.ToolDetector)
    (settings : Enhanced.ServerSettings) (arguments : gmap pystr value)
    (st st' : state) (r : res (list content)) (evs : list event)
    (tmpdir : pystr) :
  finds_nothing detector (lit "multiqc") ->
  (forall info, self_multiqc_info st = Some info -> mode info = UNAVAILABLE) ->
  Enhanced._run_multiqc env detector settings arguments st = (r, st') ->
  events st' = events st ++ evs ->
  existsb is_spawn evs = false
  /\ (In (EvMkdtemp tmpdir) evs ->
      r = Ok [ErrorContent
                (lit "Error: multiqc is not available in any execution mode")]).
Proof.
  intros Hnone Hcache Hrun Hev.
  change (self_multiqc_info st) with (cached_info (lit "multiqc") st) in Hcache.
  unfold Enhanced._run_multiqc in Hrun.
  unfold_run; cbv zeta in Hrun; repeat step_value Hrun.
  all: apply pair_equal_spec in Hrun; destruct Hrun as [<- <-].
  all: unavailable Hnone Hcache Hev.
  all: new_events Hev; subst evs.
  all: try (split; [reflexivity|intros Hin; in_cases; discriminate]).
  all: cbn [existsb is_spawn is_copy orb].
  all: rewrite existsb_app, (logged_no_spawn _ L1).
  all: split; [reflexivity|intros _; vm_compute; reflexivity].
Qed.

Lemma unavailable_multiqc_witness :
  let run :=
    Enhanced._run_multiqc (fixture_env enhanced_multiqc_tool) absent_detector
      Enhanced.default_settings multiqc_args fresh in
  In (EvMkdtemp (lit "/tmp/tmpqc")) (events (snd run))
  /\ existsb is_spawn (events (snd run)) = false
  /\ fst run
     = Ok [ErrorContent
             (lit "Error: multiqc is not available in any execution mode")].
Proof.
  set (run := Enhanced._run_multiqc _ _ _ _ _). cbv zeta.
  destruct (unavailable_multiqc_is_reported_in_the_temporary_directory
              (fixture_env enhanced_multiqc_tool) absent_detector
              Enhanced.default_settings multiqc_args fresh (snd run) (fst run)
              (events (snd run)) (lit "/tmp/tmpqc")) as [H1 H2].
  - intros tr names image preferred force. eexists. split; reflexivity.
  - intros info H. discriminate H.
  - apply surjective_pairing.
  - reflexivity.
  - assert (Hin : In (EvMkdtemp (lit "/tmp/tmpqc")) (events (snd run)))
      by (vm_compute; tauto).
    split; [exact Hin|]. split; [exact H1|]. apply H2, Hin.
Defined.

(** X23.  Every subprocess [_execute_tool_command] starts is started
    for a tool whose cached information has a mode other than UNAVAILABLE,
    with the command the detector makes of the tool arguments, in the given
    directory, and right after the INFO record "Executing <tool> via
    <mode>: <command joined by spaces>", before which there are log records
    only.  In the modes MODULE and LMOD the joined command is given to the
    shell; in every other mode the command is executed directly.  A command
    that cannot be joined (an element is not a string) is thus never
    started, in any mode. *)
Theorem module_commands_go_through_the_shell
    (env : Env) (detector : Enhanced.ToolDetector)
    (settings : Enhanced.ServerSettings) (tool_name : pystr)
    (tool_args : list value) (tmpdir : pystr) (st st' : state)
    (r : res (bytes * bytes * Z)) (evs : list event) (ev : event) :
  Enhanced._execute_tool_command env detector settings tool_name tool_args
    tmpdir st = (r, st') ->
  events st' = events st ++ evs ->
  In ev evs ->
  is_spawn ev = true ->
  exists info cmd shown pre post,
    cached_info tool_name st' = Some info
    /\ mode info <> UNAVAILABLE
    /\ Enhanced.get_execution_command detector info tool_args = Ok cmd
    /\ join_values (lit " ") cmd 0 = Ok shown
    /\ evs = pre
             ++ EvLog INFO (lit "Executing " ++ tool_name ++ lit " via "
                            ++ mode_value (mode info) ++ lit ": " ++ shown)
             :: ev :: post
    /\ forallb is_log pre = true
    /\ ev = (if through_shell (mode info)
             then EvSpawnShell shown (Some tmpdir)
             else EvSpawnExec cmd (Some tmpdir)).
Proof.
  unfold Enhanced._execute_tool_command, bind at 1.
  destruct ((if str_eqb tool_name (lit "fastqc")
             then Enhanced._get_fastqc_info env detector settings
             else Enhanced._get_multiqc_info env detector settings) st)
    as [[tool_info|e] st1] eqn:E1.
  all: assert (L1 : logged st st1)
    by (destruct (str_eqb tool_name (lit "fastqc"));
        [eapply get_fastqc_info_logged | eapply get_multiqc_info_logged];
        exact E1).
  all: destruct L1 as (evs1 & H1 & L1).
  2: { intros H Hev Hin Hsp. apply pair_equal_spec in H as [_ <-].
       rewrite H1 in Hev. apply app_inv_head in Hev as <-.
       destruct (spawn_not_logged _ _ L1 Hin Hsp). }
  apply tool_info_cached in E1.
  destruct (mode_eqb (mode tool_info) UNAVAILABLE) eqn:Em.
  { unfold raise. intros H Hev Hin Hsp. apply pair_equal_spec in H as [_ <-].
    rewrite H1 in Hev. apply app_inv_head in Hev as <-.
    destruct (spawn_not_logged _ _ L1 Hin Hsp). }
  apply bool_decide_eq_false in Em.
  intros Hrun Hev Hin Hsp.
  unfold bind, lift, emit, effect, communicate, ret in Hrun.
  destruct (Enhanced.get_execution_command detector tool_info tool_args)
    as [cmd|e] eqn:Ecmd.
  2: { apply pair_equal_spec in Hrun as [_ <-].
       rewrite H1 in Hev. apply app_inv_head in Hev as <-.
       destruct (spawn_not_logged _ _ L1 Hin Hsp). }
  destruct (join_values (lit " ") cmd 0) as [shown|e] eqn:Eshown.
  2: { apply pair_equal_spec in Hrun as [_ <-].
       rewrite H1 in Hev. apply app_inv_head in Hev as <-.
       destruct (spawn_not_logged _ _ L1 Hin Hsp). }
  exists tool_info, cmd, shown, evs1.
  unfold through_shell.
  destruct (mode_eqb (mode tool_info) MODULE || mode_eqb (mode tool_info) LMOD).
  - destruct (create_subprocess_shell _ _ _ _).
    + apply pair_equal_spec in Hrun as [_ <-].
      rewrite !events_add_event, H1, <- !app_assoc in Hev.
      apply app_inv_head in Hev as <-. cbn [app] in *.
      exists [EvCommunicate (Enhanced.timeout settings)
                (wait_for_communicate env
                   (events st ++ evs1
                    ++ [EvLog INFO (lit "Executing " ++ tool_name
                                    ++ lit " via "
                                    ++ mode_value (mode tool_info)
                                    ++ lit ": " ++ shown);
                        EvSpawnShell shown (Some tmpdir)])
                   (Enhanced.timeout settings))].
      apply in_app_or in Hin as [Hin|Hin].
      { destruct (spawn_not_logged _ _ L1 Hin Hsp). }
      cbn [In] in Hin. destruct Hin as [<-|[<-|[<-|[]]]]; try discriminate.
      repeat split; done.
    + apply pair_equal_spec in Hrun as [_ <-].
      rewrite !events_add_event, H1, <- !app_assoc in Hev.
      apply app_inv_head in Hev as <-.
      apply in_app_or in Hin as [Hin|Hin].
      { destruct (spawn_not_logged _ _ L1 Hin Hsp). }
      cbn [In] in Hin. destruct Hin as [<-|[]]. discriminate.
  - destruct (create_subprocess_exec _ _ _ _).
    + apply pair_equal_spec in Hrun as [_ <-].
      rewrite !events_add_event, H1, <- !app_assoc in Hev.
      apply app_inv_head in Hev as <-. cbn [app] in *.
      exists [EvCommunicate (Enhanced.timeout settings)
                (wait_for_communicate env
                   (events st ++ evs1
                    ++ [EvLog INFO (lit "Executing " ++ tool_name
                                    ++ lit " via "
                                    ++ mode_value (mode tool_info)
                                    ++ lit ": " ++ shown);
                        EvSpawnExec cmd (Some tmpdir)])
                   (Enhanced.timeout settings))].
      apply in_app_or in Hin as [Hin|Hin].
      { destruct (spawn_not_logged _ _ L1 Hin Hsp). }
      cbn [In] in Hin. destruct Hin as [<-|[<-|[<-|[]]]]; try discriminate.
      repeat split; done.
    + apply pair_equal_spec in Hrun as [_ <-].
      rewrite !events_add_event, H1, <- !app_assoc in Hev.
      apply app_inv_head in Hev as <-.
      apply in_app_or in Hin as [Hin|Hin].
      { destruct (spawn_not_logged _ _ L1 Hin Hsp). }
      cbn [In] in Hin. destruct Hin as [<-|[]]. discriminate.
Qed.

Lemma module_commands_witness :
  let run :=
    Enhanced._execute_tool_command (fixture_env silent_tool) module_detector
      Enhanced.default_settings (lit "fastqc")
      [VStr (lit "-o"); VStr (lit "/tmp/out")] (lit "/tmp/out") fresh in
  let ev :=
    EvSpawnShell (lit "module load fastqc && fastqc -o /tmp/out")
      (Some (lit "/tmp/out")) in
  In ev (events (snd run))
  /\ exists info cmd shown pre post,
       cached_info (lit "fastqc") (snd run) = Some info
       /\ mode info <> UNAVAILABLE
       /\ Enhanced.get_execution_command module_detector info
            [VStr (lit "-o"); VStr (lit "/tmp/out")] = Ok cmd
       /\ join_values (lit " ") cmd 0 = Ok shown
       /\ events (snd run)
          = pre
            ++ EvLog INFO (lit "Executing " ++ lit "fastqc" ++ lit " via "
                           ++ mode_value (mode info) ++ lit ": " ++ shown)
            :: ev :: post
       /\ forallb is_log pre = true
       /\ ev = (if through_shell (mode info)
                then EvSpawnShell shown (Some (lit "/tmp/out"))
                else EvSpawnExec cmd (Some (lit "/tmp/out"))).
Proof.
  set (run := Enhanced._execute_tool_command _ _ _ _ _ _ _). cbv zeta.
  assert (Hin : In (EvSpawnShell (lit "module load fastqc && fastqc -o /tmp/out")
                      (Some (lit "/tmp/out"))) (events (snd run)))
    by (vm_compute; tauto).
  split; [exact Hin|].
  apply (module_commands_go_through_the_shell (fixture_env silent_tool)
           module_detector Enhanced.default_settings (lit "fastqc")
           [VStr (lit "-o"); VStr (lit "/tmp/out")] (lit "/tmp/out") fresh
           (snd run) (fst run) (events (snd run))).
  - apply surjective_pairing.
  - reflexivity.
  - exact Hin.
  - reflexivity.
Defined.

Section EnhancedDispatchFacts.

Variable env : Env.
Variable detector : Enhanced.ToolDetector.
Variable settings : Enhanced.ServerSettings.

Lemma enhanced_call_fastqc :
  Enhanced.call_tool env detector settings (lit "fastqc")
  = Enhanced._run_fastqc env detector settings.
Proof. unfold Enhanced.call_tool. by rewrite fastqc_is_fastqc. Qed.

Lemma enhanced_call_multiqc :
  Enhanced.call_tool env detector settings (lit "multiqc")
  = Enhanced._run_multiqc env detector settings.
Proof.
  unfold Enhanced.call_tool. rewrite multiqc_is_not_fastqc.
  unfold str_eqb. by rewrite bool_decide_eq_true_2.
Qed.

Lemma getitem_None (d : gmap pystr value) k :
  d !! k = None -> getitem d k = Raise (KeyError k).
Proof. unfold getitem. by intros ->. Qed.

Lemma getitem_Some (d : gmap pystr value) k v :
  d !! k = Some v -> getitem d k = Ok v.
Proof. unfold getitem. by intros ->. Qed.

Lemma list_output_files_extends tr files :
  forall text text',
    Enhanced.list_output_files env tr files text = Ok text' ->
    exists rest, text' = text ++ rest.
Proof.
  induction files as [|file files IH]; intros text text' H.
  - cbn [Enhanced.list_output_files] in H. apply Ok_inj in H as <-.
    exists []. by rewrite app_nil_r.
  - cbn [Enhanced.list_output_files] in H. unfold bind_res in H.
    destruct (st_size env tr file) as [size|e]; [|discriminate H].
    apply IH in H as [rest ->]. eexists. rewrite <- app_assoc. reflexivity.
Qed.

End EnhancedDispatchFacts.

(* cases of a call of the enhanced server by name *)
Ltac by_enhanced_operation Hname :=
  cbn [In enhanced_operations] in Hname;
  destruct Hname as [<-|[<-|[]]];
  [rewrite enhanced_call_fastqc in *;
   change (enhanced_key (lit "fastqc")) with (lit "input_file") in *;
   change (enhanced_noun (lit "fastqc")) with (lit "Input file") in *;
   change (enhanced_label (lit "fastqc")) with (lit "FastQC") in *
  |rewrite enhanced_call_multiqc in *;
   change (enhanced_key (lit "multiqc")) with (lit "input_dir") in *;
   change (enhanced_noun (lit "multiqc")) with (lit "Input directory") in *;
   change (enhanced_label (lit "multiqc")) with (lit "MultiQC") in *].

(** X24.  For the operations fastqc and multiqc of the enhanced server:
    a call without the input key (input_file, input_dir) returns "Error:
    '<key>'" and only logs "Error running <FastQC or MultiQC>: '<key>'"; a
    call whose input path does not exist returns "Input file not found:
    <path>" or "Input directory not found: <path>" and has no effect; and a
    run with any effect other than a log record had an input that exists
    and, for fastqc, whose size is at most max_file_size. *)
Theorem enhanced_input_is_checked_before_anything_is_done
    (env : Env) (detector : Enhanced.ToolDetector)
    (settings : Enhanced.ServerSettings) (name : pystr)
    (arguments : gmap pystr value) (st st' : state)
    (r : res (list content)) (evs : list event) :
  In name enhanced_operations ->
  Enhanced.call_tool env detector settings name arguments st = (r, st') ->
  events st' = events st ++ evs ->
  (arguments !! enhanced_key name = None ->
   r = Ok [ErrorContent (lit "Error: '" ++ enhanced_key name ++ lit "'")]
   /\ evs = [EvLog ERROR (lit "Error running " ++ enhanced_label name
                         ++ lit ": '" ++ enhanced_key name ++ lit "'")])
  /\ (forall v p,
        arguments !! enhanced_key name = Some v ->
        mkPath env v = Ok p ->
        exists_ env (events st) p = false ->
        r = Ok [ErrorContent (enhanced_noun name ++ lit " not found: " ++ p)]
        /\ evs = [])
  /\ (forallb is_log evs = false ->
      exists v p,
        arguments !! enhanced_key name = Some v
        /\ mkPath env v = Ok p
        /\ exists_ env (events st) p = true
        /\ (name = lit "fastqc" ->
            exists size,
              st_size env (events st) p = Ok size
              /\ (size <= Enhanced.max_file_size settings)%Z)).
Proof.
  intros Hname Hrun Hev.
  by_enhanced_operation Hname.
  - split; [|split].
    + intros Hkey. revert Hrun.
      unfold Enhanced._run_fastqc, try_except, bind, lift, emit, ret.
      rewrite (getitem_None _ _ Hkey). cbn [str_exn]. intros Hrun.
      apply pair_equal_spec in Hrun as [<- <-].
      rewrite events_add_event in Hev. apply app_inv_head in Hev as <-.
      split; vm_compute; reflexivity.
    + intros v p Hkey Hp Hex. revert Hrun.
      unfold Enhanced._run_fastqc, try_except, bind, lift, read, ret.
      rewrite (getitem_Some _ _ _ Hkey), Hp, Hex. cbn [negb]. intros Hrun.
      apply pair_equal_spec in Hrun as [<- <-].
      apply self_app_nil in Hev as <-. done.
    + unfold Enhanced._run_fastqc in Hrun. run_paths Hrun.
      all: destruct Hrun as [<- <-].
      all: try match goal with
             | H : Enhanced._execute_tool_command _ _ _ _ _ _ _ = _ |- _ =>
                 clear H
             end.
      all: try solve [new_events Hev; subst evs; intros Hf;
                      cbn [forallb is_log andb] in Hf; discriminate Hf].
      all: intros _.
      all: match goal with
           | H : getitem _ _ = Ok _ |- _ => apply getitem_Ok in H
           end.
      all: repeat match goal with
             | H : negb _ = false |- _ => apply negb_false_iff in H
             end.
      all: eexists _, _; split; [eassumption|]; split; [eassumption|].
      all: split; [eassumption|]; intros _; eexists; split; [eassumption|].
      all: lia.
  - split; [|split].
    + intros Hkey. revert Hrun.
      unfold Enhanced._run_multiqc, try_except, bind, lift, emit, ret.
      rewrite (getitem_None _ _ Hkey). cbn [str_exn]. intros Hrun.
      apply pair_equal_spec in Hrun as [<- <-].
      rewrite events_add_event in Hev. apply app_inv_head in Hev as <-.
      split; vm_compute; reflexivity.
    + intros v p Hkey Hp Hex. revert Hrun.
      unfold Enhanced._run_multiqc, try_except, bind, lift, read, ret.
      rewrite (getitem_Some _ _ _ Hkey), Hp, Hex. cbn [negb]. intros Hrun.
      apply pair_equal_spec in Hrun as [<- <-].
      apply self_app_nil in Hev as <-. done.
    + unfold Enhanced._run_multiqc in Hrun. run_paths Hrun.
      all: destruct Hrun as [<- <-].
      all: try match goal with
             | H : Enhanced._execute_tool_command _ _ _ _ _ _ _ = _ |- _ =>
                 clear H
             end.
      all: try solve [new_events Hev; subst evs; intros Hf;
                      cbn [forallb is_log andb] in Hf; discriminate Hf].
      all: intros _.
      all: match goal with
           | H : getitem _ _ = Ok _ |- _ => apply getitem_Ok in H
           end.
      all: repeat match goal with
             | H : negb _ = false |- _ => apply negb_false_iff in H
             end.
      all: eexists _, _; split; [eassumption|]; split; [eassumption|].
      all: split; [eassumption|]; intros H; vm_compute in H; discriminate H.
Qed.

Lemma enhanced_input_witness :
  let run :=
    Enhanced.call_tool (fixture_env enhanced_multiqc_tool) native_detector
      Enhanced.default_settings (lit "fastqc") single_args fresh in
  fst run = Ok [ErrorContent (lit "Input file not found: /data/s1.fastq")]
  /\ events (snd run) = [].
Proof.
  set (run := Enhanced.call_tool _ _ _ _ _ _). cbv zeta.
  destruct (enhanced_input_is_checked_before_anything_is_done
              (fixture_env enhanced_multiqc_tool) native_detector
              Enhanced.default_settings (lit "fastqc") single_args fresh
              (snd run) (fst run) (events (snd run))) as (_ & H & _).
  - left. reflexivity.
  - apply surjective_pairing.
  - reflexivity.
  - destruct (H (VStr (lit "/data/s1.fastq")) (lit "/data/s1.fastq"))
      as [Hr He]; [vm_compute; reflexivity..|].
    split; [|exact He]. rewrite Hr. vm_compute. reflexivity.
Defined.

(* a path on which the subprocess has answered *)
Ltac answered Hev Hin :=
  try match goal with
    | H : Enhanced._execute_tool_command _ _ _ _ _ _ _ = _ |- _ =>
        apply execute_tool_command_events in H
          as (evs1 & Hs & K1 & C1 & N1 & S1);
        rewrite !events_add_event, Hs, !events_add_event in Hev
    end;
  new_events Hev; subst;
  in_cases; try discriminate;
  match goal with
  | Hn : forall t o, In (EvCommunicate t o) _ -> _ = o |- _ => apply Hn in Hin
  end;
  try discriminate;
  injection Hin as ? ? ?; subst;
  repeat match goal with
    | H : negb _ = false |- _ => apply negb_false_iff in H
    | H : negb _ = true |- _ => apply negb_true_iff in H
    end;
  let Hrc := fresh "Hrc" in
  let Hd := fresh "Hd" in
  let Htext := fresh "Htext" in
  let text := fresh "text" in
  let rest := fresh "rest" in
  (split; [intros Hrc text Hd | intros text Htext]);
  [try (exfalso; lia);
   try match goal with
     | H : decode _ _ = _ |- _ =>
         rewrite Hd in H;
         first [discriminate H | apply Ok_inj in H; subst; reflexivity]
     end
  |try discriminate Htext;
   try (apply text_inj in Htext; subst; split; [lia|];
        match goal with
        | H : Enhanced.list_output_files _ _ _ _ = Ok _ |- _ =>
            apply list_output_files_extends in H as [rest ->]
        end;
        eexists _, rest; repeat rewrite <- app_assoc; reflexivity)].

(** X25.  For the operations fastqc and multiqc of the enhanced server,
    in a run whose subprocess answered with an exit status: a nonzero
    status gives the error content "<FastQC or MultiQC> failed: <standard
    error, decoded>"; and a text content is returned only for status 0, and
    it begins with "<FastQC or MultiQC> completed successfully", a
    backslash and the letter n (not a line break), "Generated <n> output
    files:", a backslash and the letter n. *)
Theorem enhanced_exit_status_decides_the_answer
    (env : Env) (detector : Enhanced.ToolDetector)
    (settings : Enhanced.ServerSettings) (name : pystr)
    (arguments : gmap pystr value) (st st' : state)
    (r : res (list content)) (evs : list event)
    (t : Z) (out err : bytes) (returncode : Z) :
  In name enhanced_operations ->
  Enhanced.call_tool env detector settings name arguments st = (r, st') ->
  events st' = events st ++ evs ->
  In (EvCommunicate t (Ok (out, err, returncode))) evs ->
  (returncode <> 0%Z ->
   forall text, decode env err = Ok text ->
     r = Ok [ErrorContent (enhanced_label name ++ lit " failed: " ++ text)])
  /\ (forall text, r = Ok [TextContent text] ->
        returncode = 0%Z
        /\ exists n rest,
             text = enhanced_label name
                    ++ lit " completed successfully\nGenerated "
                    ++ str_int (Z.of_nat n) ++ lit " output files:\n" ++ rest).
Proof.
  intros Hname Hrun Hev Hin.
  by_enhanced_operation Hname.
  - unfold Enhanced._run_fastqc in Hrun. run_paths Hrun.
    all: destruct Hrun as [<- <-].
    all: answered Hev Hin.
  - unfold Enhanced._run_multiqc in Hrun. run_paths Hrun.
    all: destruct Hrun as [<- <-].
    all: answered Hev Hin.
Qed.

Lemma enhanced_exit_status_witness :
  fst (Enhanced.call_tool (fixture_env failing_tool) native_detector
         Enhanced.default_settings (lit "fastqc") single_args fresh)
  = Ok [ErrorContent (lit "FastQC failed: Failed to process file")].
Proof.
  set (run := Enhanced.call_tool _ _ _ _ _ _).
  destruct (enhanced_exit_status_decides_the_answer
              (fixture_env failing_tool) native_detector
              Enhanced.default_settings (lit "fastqc") single_args fresh
              (snd run) (fst run) (events (snd run)) 1800 []
              (lit "Failed to process file") 1) as [H _].
  - left. reflexivity.
  - apply surjective_pairing.
  - reflexivity.
  - vm_compute. tauto.
  - rewrite (H ltac:(discriminate) (lit "Failed to process file") eq_refl).
    vm_compute. reflexivity.
Defined.

(* --------------------------------------------------------------------- *)
(** ** The queue server *)
(* --------------------------------------------------------------------- *)

Section QueueDispatchFacts.

Variable env : Env.
Variable queue : Queue.QueueIntegration.

Lemma job_tool_names :
  endswith (lit "get_job_status") (lit "_async") = false
  /\ endswith (lit "get_job_result") (lit "_async") = false
  /\ endswith (lit "cancel_job") (lit "_async") = false
  /\ endswith (lit "list_my_jobs") (lit "_async") = false
  /\ lit "get_job_result" <> lit "get_job_status"
  /\ lit "cancel_job" <> lit "get_job_status"
  /\ lit "cancel_job" <> lit "get_job_result"
  /\ lit "cancel_job" <> lit "list_my_jobs"
  /\ lit "list_my_jobs" <> lit "get_job_status"
  /\ lit "list_my_jobs" <> lit "get_job_result".
Proof.
  repeat split; try (vm_compute; reflexivity);
    intros H; vm_compute in H; discriminate H.
Qed.

Lemma call_get_job_status arguments :
  Queue.call_tool env queue (lit "get_job_status") arguments
  = (let* job_id := lift (getitem arguments (lit "job_id")) in
     let* r := Queue._handle_job_status queue job_id in
     ret (Some r))%py.
Proof.
  destruct job_tool_names as (E1 & _).
  unfold Queue.call_tool, str_eqb. rewrite E1.
  by rewrite bool_decide_eq_true_2.
Qed.

Lemma call_get_job_result arguments :
  Queue.call_tool env queue (lit "get_job_result") arguments
  = (let* job_id := lift (getitem arguments (lit "job_id")) in
     let* r := Queue._handle_job_result env queue job_id in
     ret (Some r))%py.
Proof.
  destruct job_tool_names as (_ & E2 & _ & _ & N1 & _).
  unfold Queue.call_tool, str_eqb. rewrite E2.
  rewrite bool_decide_eq_false_2 by done.
  by rewrite bool_decide_eq_true_2.
Qed.

Lemma call_cancel_job arguments :
  Queue.call_tool env queue (lit "cancel_job") arguments
  = (let* job_id := lift (getitem arguments (lit "job_id")) in
     let* r := Queue._handle_cancel_job env queue job_id in
     ret (Some r))%py.
Proof.
  destruct job_tool_names as (_ & _ & E3 & _ & _ & N1 & N2 & N3 & _).
  unfold Queue.call_tool, str_eqb. rewrite E3.
  rewrite !bool_decide_eq_false_2 by done.
  by rewrite bool_decide_eq_true_2.
Qed.

Lemma call_list_my_jobs arguments :
  Queue.call_tool env queue (lit "list_my_jobs") arguments
  = (let* r := Queue._handle_list_jobs arguments in ret (Some r))%py.
Proof.
  destruct job_tool_names as (_ & _ & _ & E4 & _ & _ & _ & _ & N1 & N2).
  unfold Queue.call_tool, str_eqb. rewrite E4.
  rewrite !bool_decide_eq_false_2 by done.
  by rewrite bool_decide_eq_true_2.
Qed.

Lemma call_delegated name arguments :
  endswith name (lit "_async") = false ->
  ~ In name (lit "list_my_jobs" :: job_tools) ->
  Queue.call_tool env queue name arguments
  = (let* r :=
       (fun st =>
          (Queue.parent_call_tool queue (events st) name arguments,
           add_event st (EvDelegate name arguments))) in
     ret (Some r))%py.
Proof.
  intros Hend Hname. unfold Queue.call_tool, str_eqb. rewrite Hend.
  rewrite !bool_decide_eq_false_2; [reflexivity|..];
    intros ->; apply Hname; cbn; tauto.
Qed.

Lemma assoc_configs_some base config :
  Queue.assoc base Queue.async_tool_configs = Some config ->
  Queue.job_type config = base
  /\ In base (map fst Queue.async_tool_configs).
Proof.
  unfold Queue.async_tool_configs, Queue.assoc, str_eqb.
  cbn [map fst In].
  repeat case_bool_decide; intros Hc; try discriminate Hc;
    apply (inj Some) in Hc; subst; cbn [Queue.job_type]; tauto.
Qed.

Lemma handle_async_events tool_name job_type arguments st :
  events (snd (Queue._handle_async_tool queue tool_name job_type arguments st))
  = events st
    ++ [EvSubmitJob job_type (without_queue_keys arguments)
          (default (VInt 5) (arguments !! lit "priority"))
          (default (VList []) (arguments !! lit "tags"))].
Proof.
  destruct queue_keys_distinct as (Hpt & Hpn & Htn).
  unfold Queue._handle_async_tool, Queue.pop, get, try_except, bind, lift, ret.
  rewrite lookup_delete_ne by done.
  destruct (Queue.submit_job _ _ _ _ _ _); [|reflexivity].
  cbn beta iota. destruct (Queue.format_job_status _ _); reflexivity.
Qed.

Lemma handle_job_status_state job_id st :
  snd (Queue._handle_job_status queue job_id st) = st.
Proof.
  unfold Queue._handle_job_status, try_except, bind, lift, read, ret.
  destruct (Queue.get_job_status _ _ _); [|reflexivity].
  destruct (Queue.format_job_status _ _); reflexivity.
Qed.

Lemma handle_cancel_job_state job_id st :
  snd (Queue._handle_cancel_job env queue job_id st)
  = add_event st (EvCancelJob job_id).
Proof.
  unfold Queue._handle_cancel_job, try_except, bind, ret.
  destruct (Queue.cancel_job _ _ _); reflexivity.
Qed.

Lemma handle_job_result_state job_id st :
  snd (Queue._handle_job_result env queue job_id st) = st.
Proof.
  unfold Queue._handle_job_result, try_except, bind, lift, read, ret.
  destruct (Queue.get_job_result _ _ _) as [result|e]; [|reflexivity].
  cbv zeta.
  destruct (Queue.assoc (lit "summary") result) as [summary|];
    [|reflexivity].
  destruct (Queue.render_summary env summary _); reflexivity.
Qed.

Lemma handle_job_result_answers job_id st :
  exists c, fst (Queue._handle_job_result env queue job_id st) = Ok [c].
Proof.
  unfold Queue._handle_job_result, try_except, bind, lift, read, ret.
  destruct (Queue.get_job_result _ _ _) as [result|e]; [|by eexists].
  cbv zeta.
  destruct (Queue.assoc (lit "summary") result) as [summary|];
    [|by eexists].
  destruct (Queue.render_summary env summary _); by eexists.
Qed.

End QueueDispatchFacts.

(** X26.  For get_job_status, get_job_result and cancel_job, a call of
    the queue server's [call_tool] whose arguments hold no job_id raises
    KeyError('job_id') out of [call_tool], in the state it was called in:
    the lookup is outside the handlers' try blocks, and the queue is not
    asked. *)
Theorem job_tool_without_a_job_id_raises
    (env : Env) (queue : Queue.QueueIntegration) (name : pystr)
    (arguments : gmap pystr value) (st : state) :
  In name job_tools ->
  arguments !! lit "job_id" = None ->
  Queue.call_tool env queue name arguments st
  = (Raise (KeyError (lit "job_id")), st).
Proof.
  intros Hname Hkey. cbn [In job_tools] in Hname.
  destruct Hname as [<-|[<-|[<-|[]]]];
    rewrite ?call_get_job_status, ?call_get_job_result, ?call_cancel_job;
    unfold bind, lift, getitem; by rewrite Hkey.
Qed.

Lemma job_tool_without_a_job_id_witness :
  Queue.call_tool (fixture_env silent_tool) accepting_queue
    (lit "cancel_job") single_args fresh
  = (Raise (KeyError (lit "job_id")), fresh).
Proof.
  apply (job_tool_without_a_job_id_raises (fixture_env silent_tool)
           accepting_queue (lit "cancel_job") single_args fresh).
  - right. right. left. reflexivity.
  - vm_compute. reflexivity.
Defined.

(** X27.  For get_job_status, get_job_result and cancel_job called
    with a job_id, the queue server's [call_tool] does not raise and returns
    exactly one content item; when the request to the queue (or, for
    get_job_status, the rendering of the job record) raises, the item is an
    error content whose text is the text of the exception and nothing else;
    get_job_status and get_job_result change nothing, cancel_job makes one
    cancel request for the given job id. *)
Theorem job_tool_answers_a_failed_request_with_its_bare_message
    (env : Env) (queue : Queue.QueueIntegration) (name : pystr)
    (arguments : gmap pystr value) (st : state) (job_id : value) :
  In name job_tools ->
  arguments !! lit "job_id" = Some job_id ->
  (exists c,
     fst (Queue.call_tool env queue name arguments st) = Ok (Some [c]))
  /\ (forall e,
        request_fails queue name (events st) job_id e ->
        fst (Queue.call_tool env queue name arguments st)
        = Ok (Some [ErrorContent (str_exn e)]))
  /\ events (snd (Queue.call_tool env queue name arguments st))
     = events st
       ++ (if str_eqb name (lit "cancel_job") then [EvCancelJob job_id]
           else []).
Proof.
  intros Hname Hkey.
  destruct job_tool_names as (_ & _ & _ & _ & N1 & N2 & N3 & _).
  cbn [In job_tools] in Hname. unfold request_fails.
  destruct Hname as [<-|[<-|[<-|[]]]].
  - rewrite call_get_job_status.
    unfold bind, lift, getitem. rewrite Hkey.
    unfold Queue._handle_job_status, try_except, bind, lift, read, ret.
    unfold str_eqb. rewrite bool_decide_eq_false_2 by done.
    rewrite app_nil_r.
    split; [|split].
    + destruct (Queue.get_job_status _ _ _); [|by eexists].
      destruct (Queue.format_job_status _ _); by eexists.
    + intros e [[_ [H|(job & H & Hf)]]|[[H _]|[H _]]];
        [| |by destruct N1|by destruct N2].
      * by rewrite H.
      * by rewrite H, Hf.
    + destruct (Queue.get_job_status _ _ _); [|reflexivity].
      destruct (Queue.format_job_status _ _); reflexivity.
  - rewrite call_get_job_result.
    unfold bind at 1. unfold lift, getitem. rewrite Hkey.
    unfold str_eqb. rewrite bool_decide_eq_false_2 by done.
    rewrite app_nil_r. unfold bind, ret.
    pose proof (handle_job_result_state env queue job_id st) as Hst.
    destruct (handle_job_result_answers env queue job_id st) as [c Hc].
    split; [|split].
    + destruct (Queue._handle_job_result env queue job_id st) as [[r|e] s];
        cbn [fst] in *; [|discriminate Hc].
      apply Ok_inj in Hc as ->. by eexists.
    + intros e [[H _]|[[_ H]|[H _]]];
        [by destruct N1| |by destruct N3].
      unfold Queue._handle_job_result, try_except, bind, lift, read, ret.
      by rewrite H.
    + destruct (Queue._handle_job_result env queue job_id st) as [[r|e] s];
        cbn [snd] in *; by subst.
  - rewrite call_cancel_job.
    unfold bind at 1. unfold lift, getitem. rewrite Hkey.
    unfold str_eqb. rewrite bool_decide_eq_true_2 by done.
    unfold Queue._handle_cancel_job, try_except, bind, ret.
    split; [|split].
    + destruct (Queue.cancel_job _ _ _); by eexists.
    + intros e [[H _]|[[H _]|[_ H]]];
        [by destruct N2|by destruct N3|].
      by rewrite H.
    + destruct (Queue.cancel_job _ _ _); apply events_add_event.
Qed.

Lemma job_tool_answers_witness :
  Queue.call_tool (fixture_env silent_tool) refusing_queue
    (lit "get_job_status") job_args fresh
  = (Ok (Some [ErrorContent []]), fresh)
  /\ fst (Queue.call_tool (fixture_env silent_tool) refusing_queue
            (lit "cancel_job") job_args fresh)
     = Ok (Some [ErrorContent (lit "Job not found")]).
Proof.
  split; [vm_compute; reflexivity|].
  destruct (job_tool_answers_a_failed_request_with_its_bare_message
              (fixture_env silent_tool) refusing_queue (lit "cancel_job")
              job_args fresh (VStr (lit "job-1"))) as (_ & H & _).
  - right. right. left. reflexivity.
  - vm_compute. reflexivity.
  - apply (H (Error (lit "Job not found"))).
    right. right. split; reflexivity.
Defined.

(** X28.  For fastqc_single_async, fastqc_batch_async and
    multiqc_report_async: when the queue refuses the job, and also when it
    accepts the job but the job record cannot be rendered, the call returns
    the error content "Error submitting FastQC job: <text of the
    exception>"; when both succeed it returns the text content "FastQC job
    submitted successfully!" with the rendered record and the two lines of
    advice, whatever the tool. *)
Theorem async_submission_reports_what_the_queue_and_the_rendering_give
    (env : Env) (queue : Queue.QueueIntegration) (base : pystr)
    (arguments : gmap pystr value) (st : state) :
  In base (map fst Queue.async_tool_configs) ->
  (forall e,
     Queue.submit_job queue (events st) base (without_queue_keys arguments)
       (default (VInt 5) (arguments !! lit "priority"))
       (default (VList []) (arguments !! lit "tags")) = Raise e
     \/ (exists job,
           Queue.submit_job queue (events st) base
             (without_queue_keys arguments)
             (default (VInt 5) (arguments !! lit "priority"))
             (default (VList []) (arguments !! lit "tags")) = Ok job
           /\ Queue.format_job_status queue job = Raise e) ->
     fst (Queue.call_tool env queue (base ++ lit "_async") arguments st)
     = Ok (Some [ErrorContent (lit "Error submitting FastQC job: "
                               ++ str_exn e)]))
  /\ (forall job status,
        Queue.submit_job queue (events st) base (without_queue_keys arguments)
          (default (VInt 5) (arguments !! lit "priority"))
          (default (VList []) (arguments !! lit "tags")) = Ok job ->
        Queue.format_job_status queue job = Ok status ->
        fst (Queue.call_tool env queue (base ++ lit "_async") arguments st)
        = Ok (Some [TextContent
                      (lit "FastQC job submitted successfully!" ++ nl ++ nl
                       ++ status ++ nl ++ nl
                       ++ lit "Use 'get_job_status' with job ID to check progress."
                       ++ nl
                       ++ lit "Large batch jobs may take 10-30 minutes depending on file size.")])).
Proof.
  intros Hbase.
  destruct queue_keys_distinct as (Hpt & Hpn & Htn).
  assert (Hend : endswith (base ++ lit "_async") (lit "_async") = true).
  { unfold endswith. rewrite rev_app_distr. apply startswith_app. }
  assert (Hcut : slice_to_neg 6 (base ++ lit "_async") = base).
  { unfold slice_to_neg. rewrite length_app.
    replace (length (lit "_async")) with 6 by (vm_compute; reflexivity).
    rewrite Nat.add_sub. apply take_app_length. }
  assert (Hcfg : exists config,
            Queue.assoc base Queue.async_tool_configs = Some config
            /\ Queue.job_type config = base).
  { cbn [In map fst Queue.async_tool_configs] in Hbase.
    destruct Hbase as [<-|[<-|[<-|[]]]];
      vm_compute; eexists; split; reflexivity. }
  destruct Hcfg as (config & Hcfg & Hjt).
  unfold Queue.call_tool. rewrite Hend, Hcut, Hcfg, Hjt.
  unfold Queue._handle_async_tool, Queue.pop, get, try_except, bind, lift, ret.
  rewrite lookup_delete_ne by done.
  fold (without_queue_keys arguments).
  split.
  - intros e [H|(job & H & Hf)].
    + by rewrite H.
    + rewrite H. cbn beta iota. by rewrite Hf.
  - intros job status H Hf. rewrite H. cbn beta iota. by rewrite Hf.
Qed.

Lemma async_submission_witness :
  let run :=
    Queue.call_tool (fixture_env silent_tool) garbling_queue
      (lit "multiqc_report_async") multiqc_args fresh in
  events (snd run)
  = [EvSubmitJob (lit "multiqc_report") multiqc_args (VInt 5) (VList [])]
  /\ fst run
     = Ok (Some [ErrorContent (lit "Error submitting FastQC job: 'status'")]).
Proof.
  cbv zeta. split; [vm_compute; reflexivity|].
  destruct (async_submission_reports_what_the_queue_and_the_rendering_give
              (fixture_env silent_tool) garbling_queue (lit "multiqc_report")
              multiqc_args fresh) as [H _].
  - right. right. left. reflexivity.
  - specialize (H (KeyError (lit "status"))).
    vm_compute in H. vm_compute. apply H. right. eexists. split; reflexivity.
Defined.

(** X29.  Every run of the queue server's [call_tool] has at most one
    effect, and that effect fits the name it was called with: a job is
    submitted only for <job type>_async, with a job type of the async tool
    table; a job is cancelled only by cancel_job, and it is the job of the
    job_id argument; the parent's handler is called only with the same name
    and arguments, and only for a name that does not end in _async and is
    none of list_my_jobs, get_job_status, get_job_result and cancel_job. *)
Theorem queue_call_makes_at_most_one_request
    (env : Env) (queue : Queue.QueueIntegration) (name : pystr)
    (arguments : gmap pystr value) (st st' : state)
    (r : res (option (list content))) (evs : list event) :
  Queue.call_tool env queue name arguments st = (r, st') ->
  events st' = events st ++ evs ->
  (length evs <= 1)%nat
  /\ forall ev, In ev evs -> accounted_for name arguments ev.
Proof.
  intros Hrun Hev.
  assert (Hst : st' = snd (Queue.call_tool env queue name arguments st))
    by (by rewrite Hrun).
  clear Hrun. subst st'.
  destruct (endswith name (lit "_async")) eqn:Hend.
  - revert Hev. unfold Queue.call_tool. rewrite Hend.
    destruct (Queue.assoc (slice_to_neg 6 name) Queue.async_tool_configs)
      as [config|] eqn:Hcfg.
    + apply assoc_configs_some in Hcfg as [Hjt Hin].
      unfold bind, ret.
      pose proof (handle_async_events queue (slice_to_neg 6 name)
                    (Queue.job_type config) arguments st) as Hs.
      destruct (Queue._handle_async_tool queue _ _ arguments st)
        as [[c|e] s]; cbn [snd] in *; rewrite Hs; intros Hev;
        apply app_inv_head in Hev as <-.
      all: split; [cbn; lia|]; intros ev [<-|[]]; cbn [accounted_for].
      all: rewrite Hjt; split; [|exact Hin].
      all: apply (endswith_spec name (lit "_async")), Hend.
    + unfold ret. cbn [snd]. intros Hev. apply self_app_nil in Hev as <-.
      split; [cbn; lia|intros ev []].
  - destruct (in_dec (fun a b : pystr => decide (a = b)) name
                (lit "list_my_jobs" :: job_tools)) as [Hname|Hname].
    + cbn [In job_tools] in Hname.
      destruct Hname as [<-|[<-|[<-|[<-|[]]]]]; revert Hev.
      * rewrite call_list_my_jobs. unfold bind, ret, Queue._handle_list_jobs.
        cbn [snd]. intros Hev. apply self_app_nil in Hev as <-.
        split; [cbn; lia|intros ev []].
      * rewrite call_get_job_status. unfold bind at 1. unfold lift.
        destruct (getitem arguments (lit "job_id")) as [job_id|e].
        2: { cbn [snd]. intros Hev. apply self_app_nil in Hev as <-.
             split; [cbn; lia|intros ev []]. }
        unfold bind, ret.
        pose proof (handle_job_status_state queue job_id st) as Hs.
        destruct (Queue._handle_job_status queue job_id st) as [[c|e] s];
          cbn [snd] in *; subst s; intros Hev;
          apply self_app_nil in Hev as <-;
          (split; [cbn; lia|intros ev []]).
      * rewrite call_get_job_result. unfold bind at 1. unfold lift.
        destruct (getitem arguments (lit "job_id")) as [job_id|e].
        2: { cbn [snd]. intros Hev. apply self_app_nil in Hev as <-.
             split; [cbn; lia|intros ev []]. }
        unfold bind, ret.
        pose proof (handle_job_result_state env queue job_id st) as Hs.
        destruct (Queue._handle_job_result env queue job_id st) as [[c|e] s];
          cbn [snd] in *; subst s; intros Hev;
          apply self_app_nil in Hev as <-;
          (split; [cbn; lia|intros ev []]).
      * rewrite call_cancel_job. unfold bind at 1. unfold lift.
        destruct (getitem arguments (lit "job_id")) as [job_id|e] eqn:Hid.
        2: { cbn [snd]. intros Hev. apply self_app_nil in Hev as <-.
             split; [cbn; lia|intros ev []]. }
        apply getitem_Ok in Hid.
        unfold bind, ret.
        pose proof (handle_cancel_job_state env queue job_id st) as Hs.
        destruct (Queue._handle_cancel_job env queue job_id st) as [[c|e] s];
          cbn [snd] in *; subst s; rewrite events_add_event; intros Hev;
          apply app_inv_head in Hev as <-;
          (split; [cbn; lia|intros ev [<-|[]]; by cbn [accounted_for]]).
    + revert Hev. rewrite call_delegated by done. unfold bind, ret.
      destruct (Queue.parent_call_tool queue (events st) name arguments);
        cbn [snd]; rewrite events_add_event; intros Hev;
        apply app_inv_head in Hev as <-;
        (split; [cbn; lia|intros ev [<-|[]]; by cbn [accounted_for]]).
Qed.

Lemma queue_call_witness :
  let run :=
    Queue.call_tool (fixture_env silent_tool) accepting_queue
      (lit "fastqc_single") single_args fresh in
  events (snd run) = [EvDelegate (lit "fastqc_single") single_args]
  /\ (length (events (snd run)) <= 1)%nat
  /\ forall ev, In ev (events (snd run)) ->
       accounted_for (lit "fastqc_single") single_args ev.
Proof.
  set (run := Queue.call_tool _ _ _ _ _). cbv zeta.
  split; [vm_compute; reflexivity|].
  apply (queue_call_makes_at_most_one_request (fixture_env silent_tool)
           accepting_queue (lit "fastqc_single") single_args fresh (snd run)
           (fst run) (events (snd run))).
  - apply surjective_pairing.
  - reflexivity.
Defined.

(** X30.  The answer of [_handle_job_result] depends on the job result
    only through the entries under summary, files_processed, warnings,
    failures and result_url: two results that agree on these five keys give
    the same answer, whatever other keys they hold and in whatever order
    their keys come. *)
Theorem job_result_shows_its_five_keys_in_a_fixed_order
    (env : Env) (queue queue' : Queue.QueueIntegration) (job_id : value)
    (st : state) (result result' : list (pystr * value)) :
  Queue.get_job_result queue (events st) job_id = Ok result ->
  Queue.get_job_result queue' (events st) job_id = Ok result' ->
  (forall key, In key shown_keys ->
     Queue.assoc key result = Queue.assoc key result') ->
  Queue._handle_job_result env queue job_id st
  = Queue._handle_job_result env queue' job_id st.
Proof.
  intros H H' Hkeys.
  unfold Queue._handle_job_result, try_except, bind, lift, read, ret.
  rewrite H, H'. cbv zeta.
  rewrite <- !Hkeys by (cbn; tauto). reflexivity.
Qed.

Lemma job_result_witness :
  Queue._handle_job_result (fixture_env silent_tool) garbling_queue
    (VStr (lit "job-1")) fresh
  = Queue._handle_job_result (fixture_env silent_tool) terse_queue
      (VStr (lit "job-1")) fresh.
Proof.
  apply (job_result_shows_its_five_keys_in_a_fixed_order
           (fixture_env silent_tool) garbling_queue terse_queue
           (VStr (lit "job-1")) fresh
           [(lit "owner", VStr (lit "someone")); (lit "failures", VInt 2);
            (lit "files_processed", VInt 3)]
           [(lit "files_processed", VInt 3); (lit "failures", VInt 2)]).
  - reflexivity.
  - reflexivity.
  - intros key Hkey. cbn [In shown_keys] in Hkey.
    destruct Hkey as [<-|[<-|[<-|[<-|[<-|[]]]]]]; vm_compute; reflexivity.
Defined.
